(** * ooni-probe: backend client and deck resolution

    A shallow embedding of [ooni/backend_client.py] and [ooni/deck.py]
    together with the properties of their address classification, request
    retrying, response decoding, input cache and bouncer lookup. *)

From Stdlib Require Import String Ascii List ZArith NArith Lia Bool.
From stdpp Require Import base gmap sets list strings.
From Equations Require Import Equations.

Local Open Scope string_scope.
Set Warnings "-register-all".

(* ===================================================================== *)
(** ** Python values, exceptions and results *)
(* ===================================================================== *)

Module Py.

(** The exceptions that the embedded code can raise.  [NetworkFailure n]
    is the failure object produced by the [n]-th request of the transport
    agent; [BackendError c] is an error class handed out by
    [ooni.errors.get_error]. *)
Inductive exn : Type :=
| InvalidAddress
| ValueError
| UnicodeError
| AttributeError
| TypeError
| KeyError (key : string)
| IOError
| AssertionError
| UnableToLoadDeckInput
| CouldNotFindTestCollector
| BackendError (cls : string)
| NetworkFailure (n : nat).

Inductive result (A : Type) : Type :=
| Ok (a : A)
| Raise (e : exn).
Arguments Ok {A} a.
Arguments Raise {A} e.

Definition bind {A B} (r : result A) (k : A -> result B) : result B :=
  match r with
  | Ok a => k a
  | Raise e => Raise e
  end.

Definition is_ok {A} (r : result A) : bool :=
  match r with Ok _ => true | Raise _ => false end.

(** [try: r except E: h] for one exception class [E]. *)
Definition try_except {A} (r : result A) (catches : exn -> bool)
    (h : result A) : result A :=
  match r with
  | Ok a => Ok a
  | Raise e => if catches e then h else Raise e
  end.

Definition is_AssertionError (e : exn) : bool :=
  match e with AssertionError => true | _ => false end.

End Py.
Import Py.

#[global] Instance result_ret : MRet Py.result := @Py.Ok.
#[global] Instance result_bind : MBind Py.result := fun A B k r => Py.bind r k.

(* ===================================================================== *)
(** ** Python [str] operations used by the code *)
(* ===================================================================== *)

Module Str.

Definition eqb (a b : string) : bool := bool_decide (a = b).

(** [s.startswith(p)] *)
Definition startswith (s p : string) : bool := String.prefix p s.

(** [c in s] for a one-character needle. *)
Fixpoint contains (c : ascii) (s : string) : bool :=
  match s with
  | EmptyString => false
  | String d r => if Ascii.eqb c d then true else contains c r
  end.

Fixpoint forallb (p : ascii -> bool) (s : string) : bool :=
  match s with
  | EmptyString => true
  | String c r => p c && forallb p r
  end.

(** [s.partition(c)]: [None] when [c] does not occur ([s.find(c) = -1]),
    otherwise [(s[:i], s[i+1:])] for [i = s.find(c)]. *)
Fixpoint partition (c : ascii) (s : string) : option (string * string) :=
  match s with
  | EmptyString => None
  | String d r =>
      if Ascii.eqb c d then Some (EmptyString, r)
      else match partition c r with
           | Some (a, b) => Some (String d a, b)
           | None => None
           end
  end.

(** [s[n:]] *)
Fixpoint drop (n : nat) (s : string) : string :=
  match n, s with
  | O, _ => s
  | S _, EmptyString => EmptyString
  | S m, String _ r => drop m r
  end.

(** [s[:n]] *)
Fixpoint take (n : nat) (s : string) : string :=
  match n, s with
  | O, _ => EmptyString
  | S _, EmptyString => EmptyString
  | S m, String c r => String c (take m r)
  end.

(** [s.rfind('/') + 1 .. ]: the part of [s] after its last ['/'], the
    whole of [s] when it has none ([os.path.basename] on POSIX). *)
Fixpoint after_last (c : ascii) (s : string) : string :=
  match s with
  | EmptyString => EmptyString
  | String d r =>
      if Ascii.eqb c d then after_last c r
      else if contains c r then after_last c r else s
  end.

Definition is_upper (c : ascii) : bool :=
  let n := nat_of_ascii c in (65 <=? n)%nat && (n <=? 90)%nat.

Definition lower_char (c : ascii) : ascii :=
  if is_upper c then ascii_of_nat (nat_of_ascii c + 32) else c.

(** [s.lower()] on a byte string. *)
Fixpoint lower (s : string) : string :=
  match s with
  | EmptyString => EmptyString
  | String c r => String (lower_char c) (lower r)
  end.

Definition is_ascii_char (c : ascii) : bool := (nat_of_ascii c <? 128)%nat.

(** [s.encode('ascii')]: the string itself when every character is below
    128, a [UnicodeError] otherwise. *)
Definition encode_ascii (s : string) : result string :=
  if forallb is_ascii_char s then Ok s else Raise UnicodeError.

Definition endswith (s p : string) : bool :=
  eqb (drop (String.length s - String.length p) s) p.

(** [s] with the byte at position [n] replaced by [c]; [s] itself when it
    is shorter. *)
Fixpoint replace_byte (n : nat) (c : ascii) (s : string) : string :=
  match s, n with
  | EmptyString, _ => EmptyString
  | String _ r, O => String c r
  | String d r, S m => String d (replace_byte m c r)
  end.

(** No string of the list occurs in it twice. *)
Fixpoint all_distinct (l : list string) : bool :=
  match l with
  | [] => true
  | x :: r => negb (existsb (String.eqb x) r) && all_distinct r
  end.

(** [s.rstrip(c)] for a one-character [c]. *)
Fixpoint rstrip (c : ascii) (s : string) : string :=
  match s with
  | EmptyString => EmptyString
  | String d r =>
      match rstrip c r with
      | EmptyString => if Ascii.eqb c d then EmptyString else String d EmptyString
      | r' => String d r'
      end
  end.

End Str.

(* ===================================================================== *)
(** ** [urlparse]: the scheme and the network location of an address *)
(* ===================================================================== *)

Module Url.

Record parsed := { scheme : string; netloc : string }.

Definition scheme_chars : string :=
  "abcdefghijklmnopqrstuvwxyzABCDEFGHIJKLMNOPQRSTUVWXYZ0123456789+-.".

Definition digits : string := "0123456789".

Definition is_delim (c : ascii) : bool := Str.contains c "/?#".

(** [url[:delim]] for the earliest of the delimiters ['/'], ['?'], ['#']
    in [url] (the whole of [url] when there is none). *)
Fixpoint until_delim (url : string) : string :=
  match url with
  | EmptyString => EmptyString
  | String c r => if is_delim c then EmptyString else String c (until_delim r)
  end.

(** The [netloc] that [urlsplit] extracts from what follows the scheme:
    empty unless the rest starts with ["//"]; an unbalanced bracket is
    Python's ["Invalid IPv6 URL"]. *)
Definition unbalanced (n : string) : bool :=
  (Str.contains "[" n && negb (Str.contains "]" n))
  || (Str.contains "]" n && negb (Str.contains "[" n)).

Definition split_netloc (url : string) : result string :=
  if Str.eqb (Str.take 2 url) "//" then
    let n := until_delim (Str.drop 2 url) in
    if unbalanced n then Raise ValueError else Ok n
  else Ok EmptyString.

(** A network location as [urlparse] hands it out: free of delimiters and
    with balanced brackets. *)
Definition wf_netloc (n : string) : Prop :=
  until_delim n = n /\ unbalanced n = false.

(** [urlparse(url)], restricted to the two fields the client reads.
    [None] stands for Python's [None], on which [urlparse] fails with an
    [AttributeError]. *)
Definition urlparse (address : option string) : result parsed :=
  match address with
  | None => Raise AttributeError
  | Some url =>
      match Str.partition ":" url with
      | Some (String c0 s0 as before, rest) =>
          if Str.eqb before "http" then
            n ← split_netloc rest;
            Ok {| scheme := Str.lower before; netloc := n |}
          else if Str.forallb (fun c => Str.contains c scheme_chars) before
                  && (Str.eqb rest EmptyString
                      || negb (Str.forallb (fun c => Str.contains c digits) rest))
          then
            n ← split_netloc rest;
            Ok {| scheme := Str.lower before; netloc := n |}
          else
            n ← split_netloc url;
            Ok {| scheme := EmptyString; netloc := n |}
      | _ =>
          n ← split_netloc url;
          Ok {| scheme := EmptyString; netloc := n |}
      end
  end.

End Url.

(* ===================================================================== *)
(** ** [OONIBClient]: address classification and normalisation *)
(* ===================================================================== *)

Module Onion.

Definition is_base32ish (c : ascii) : bool :=
  Str.contains c "abcdefghijklmnopqrstuvwxyz0123456789".

Definition strip_scheme (a : string) : string :=
  if Str.startswith a "httpo://" then Str.drop 8 a
  else if Str.startswith a "https://" then Str.drop 8 a
  else if Str.startswith a "http://" then Str.drop 7 a
  else a.

(** Modelled from the spec: [ooni.utils.onion.is_onion_address] is not
    among the sources; the spec only names an "onion-address pattern".
    This instance accepts a 16-character host name followed by [.onion],
    with or without one of the schemes [httpo], [http], [https] in front.
    The properties below are stated for every pattern; this one serves to
    run the client on concrete addresses. *)
Definition host_pattern (address : string) : bool :=
  let h := strip_scheme address in
  Str.forallb is_base32ish (Str.take 16 h)
  && Str.eqb (Str.take 6 (Str.drop 16 h)) ".onion".

End Onion.

Module BackendClient.

(** What the [settings] dictionary of the constructor holds under a key:
    nothing ([None], the key is missing), Python's [None] ([Some None]) or
    a string. *)
Record settings := {
  s_type : option (option string);
  s_address : option (option string);
  s_front : option (option string)
}.

Definition no_settings : settings :=
  {| s_type := None; s_address := None; s_front := None |}.

(** [settings.get(key, default)]: the default is taken for a missing key
    only, a key bound to [None] gives [None]. *)
Definition settings_get (entry : option (option string)) (default : option string)
    : option string :=
  match entry with
  | Some v => v
  | None => default
  end.

(** The attributes of an [OONIBClient]; [front] is the [front] entry of its
    [settings] attribute, whose other two entries repeat [backend_type] and
    [base_address]. *)
Record client := {
  base_headers : gmap string string;
  backend_type : string;
  base_address : string;
  front : string
}.

Section Classifier.

(** [onion.is_onion_address], defined outside the sources at hand. *)
Variable is_onion_address : string -> bool.

Definition _guessBackendType (base_address : option string) : result string :=
  match base_address with
  | None => Raise InvalidAddress
  | Some a =>
      if is_onion_address a then Ok "onion"
      else if Str.startswith a "https://" then Ok "https"
      else if Str.startswith a "http://" then Ok "http"
      else Raise InvalidAddress
  end.

(** [_setupBaseAddress()]: the base address it stores.  For a backend type
    the method does not know the address is only encoded. *)
Definition _setupBaseAddress (backend_type : string)
    (base_address : option string) : result string :=
  parsed_address ← Url.urlparse base_address;
  a ← match base_address with Some a => Ok a | None => Raise AttributeError end;
  new_address ←
    (if Str.eqb backend_type "onion" then
       if negb (is_onion_address a) then Raise InvalidAddress
       else if Str.eqb (Url.scheme parsed_address) "http"
               || Str.eqb (Url.scheme parsed_address) "httpo"
       then Ok ("http://" +:+ Url.netloc parsed_address)
       else Ok (Url.scheme parsed_address +:+ "://" +:+ Url.netloc parsed_address)
     else if Str.eqb backend_type "http" then
       Ok ("http://" +:+ Url.netloc parsed_address)
     else if Str.eqb backend_type "https" || Str.eqb backend_type "cloudfront" then
       Ok ("https://" +:+ Url.netloc parsed_address)
     else Ok a);
  Str.encode_ascii new_address.

(** [OONIBClient.__init__(address, settings)].  [settings['front']] is a
    [KeyError] for a missing key, and [.encode] on a [None] found under
    [front] is an [AttributeError]. *)
Definition __init__ (address : option string) (st : settings) : result client :=
  let base_address := settings_get (s_address st) address in
  ty ← match settings_get (s_type st) None with
       | Some t => Ok t
       | None => _guessBackendType base_address
       end;
  ty ← Str.encode_ascii ty;
  headers ←
    (if Str.eqb ty "cloudfront" then
       match s_front st with
       | Some (Some f) =>
           f' ← Str.encode_ascii f; Ok ({[ "Host" := f' ]} : gmap string string)
       | Some None => Raise AttributeError
       | None => Raise (KeyError "front")
       end
     else Ok (∅ : gmap string string));
  addr ← _setupBaseAddress ty base_address;
  fr ← match settings_get (s_front st) (Some EmptyString) with
       | Some f => Str.encode_ascii f
       | None => Raise AttributeError
       end;
  Ok {| base_headers := headers; backend_type := ty; base_address := addr;
        front := fr |}.

(** Classification followed by normalisation, as the constructor runs
    them on an address without a type override: the stored base
    address. *)
Definition normalize (address : string) : result string :=
  c ← __init__ (Some address) no_settings;
  Ok (base_address c).

End Classifier.

End BackendClient.

(* ===================================================================== *)
(** ** JSON values as Python sees them *)
(* ===================================================================== *)

Module Json.

(** What [json.loads] returns: [JNull] is Python's [None], an object is a
    [dict].  Numbers are carried as integers; the code never computes
    with them. *)
Inductive t : Type :=
| JNull
| JBool (b : bool)
| JNum (n : Z)
| JStr (s : string)
| JArr (l : list t)
| JObj (m : gmap string t).

Definition is_JStr (s : string) (v : t) : bool :=
  match v with JStr s' => Str.eqb s s' | _ => false end.

(** [needle in haystack] for two strings. *)
Fixpoint substring_in (needle haystack : string) : bool :=
  String.prefix needle haystack
  || match haystack with
     | EmptyString => false
     | String _ r => substring_in needle r
     end.

(** [key in v]: membership in a [dict], an element test on a [list], a
    substring test on a string, a [TypeError] on anything else. *)
Definition py_in (key : string) (v : t) : result bool :=
  match v with
  | JObj m => Ok (bool_decide (is_Some (m !! key)))
  | JArr l => Ok (existsb (is_JStr key) l)
  | JStr s => Ok (substring_in key s)
  | JNull | JBool _ | JNum _ => Raise TypeError
  end.

(** [v[key]] for a string key. *)
Definition getitem (v : t) (key : string) : result t :=
  match v with
  | JObj m => match m !! key with Some x => Ok x | None => Raise (KeyError key) end
  | _ => Raise TypeError
  end.

(** Truth value of a Python object. *)
Definition truthy (v : t) : bool :=
  match v with
  | JNull => false
  | JBool b => b
  | JNum n => negb (n =? 0)%Z
  | JStr s => negb (Str.eqb s EmptyString)
  | JArr l => negb (bool_decide (l = []))
  | JObj m => negb (bool_decide (dom m = (∅ : gset string)))
  end.

Definition dquote : string := String (ascii_of_nat 34) EmptyString.

(** The body [{"error":"invalid-request"}]. *)
Definition error_document : string :=
  "{" +:+ dquote +:+ "error" +:+ dquote +:+ ":"
      +:+ dquote +:+ "invalid-request" +:+ dquote +:+ "}".

(** A decoder for the documents used in the examples of this file.
    [json.loads] itself is a library function: the client is modelled
    over an arbitrary decoder. *)
Definition sample_loads (s : string) : option t :=
  if Str.eqb s error_document then
    Some (JObj {[ "error" := JStr "invalid-request" ]})
  else if Str.eqb s "{}" then Some (JObj ∅)
  else if Str.eqb s "null" then Some JNull
  else if Str.eqb s "[]" then Some (JArr [])
  else None.

End Json.

(* ===================================================================== *)
(** ** [OONIBClient._request]: the retrying request *)
(* ===================================================================== *)

Module Request.

(** What the callback reads of a response.  [content_length] is the value
    of [int(response.headers.getRawHeaders('content-length')[0])], [None]
    when that expression fails. *)
Record response := {
  status : nat;
  content_length : option nat;
  body : string
}.

Inductive outcome : Type :=
| Responded (r : response)
| Failed (err : exn).

(** [TrueHeadersSOCKS5Agent] through the local proxy for an onion
    backend, a plain [Agent] otherwise. *)
Inductive agent_kind : Type := Socks5Agent | DirectAgent.

Definition select_agent (backend_type : string) : agent_kind :=
  if Str.eqb backend_type "onion" then Socks5Agent else DirectAgent.

(** What one run of [_request] does, in order. *)
Inductive event : Type :=
| Requested (agent : agent_kind) (method base urn : string)
| Answered (r : response)
| Errored (err : exn)
| Logged (msg : string).

Definition is_request (e : event) : bool :=
  match e with Requested _ _ _ _ => true | _ => false end.

Definition attempts_made (t : list event) : nat :=
  length (List.filter is_request t).

Fixpoint errors_seen (t : list event) : list exn :=
  match t with
  | [] => []
  | Errored err :: t' => err :: errors_seen t'
  | _ :: t' => errors_seen t'
  end.

(** The run in which every request fails, given the failures in order: a
    request, its failure, the log line, and then the next request. *)
Fixpoint failed_run (request : event) (errs : list exn) : list event :=
  match errs with
  | [] => []
  | err :: rest =>
      match rest with
      | [] => [request; Errored err; Logged "Failed. Giving up."]
      | _ :: _ =>
          request :: Errored err :: Logged "Lookup failed. Retrying."
            :: failed_run request rest
      end
  end.

Section Retry.

(** [W] is the state of the world the agent and the receiver act on,
    [A] the type of the value [finished] fires with. *)
Context {W A : Type}.

(** [agent.request(method, uri, ...)], [uri] being [base] joined with
    [urn]: the outcome, and the world afterwards. *)
Variable agent_request : agent_kind -> string -> string -> string -> W -> outcome * W.

(** [response.deliverBody(genReceiver(finished, content_length))], as the
    callback runs it.  An outer [Raise] is an exception that leaves the
    callback while the receiver is built or attached; otherwise the body
    is delivered and [finished] fires with a value or with a failure. *)
Variable genReceiver : option nat -> response -> W -> result (result A) * W.

Variables (backend_type base_address method urn : string).
Variable retries : nat.

(** The errback is chained after the callback: it gets the failure of the
    request and also the exception of the callback. *)
Equations perform_request (attempts : nat) (w : W) : list event * (result A * W)
  by wf (retries - attempts) lt :=
perform_request attempts w with agent_request (select_agent backend_type) method base_address urn w := {
  | (Responded r, w') with genReceiver (content_length r) r w' := {
      | (Ok fired, w'') :=
          ([Requested (select_agent backend_type) method base_address urn; Answered r],
           (fired, w''));
      | (Raise err, w'') with lt_dec attempts retries := {
          | left _ :=
              let rest := perform_request (S attempts) w'' in
              (Requested (select_agent backend_type) method base_address urn
                 :: Answered r :: Errored err :: Logged "Lookup failed. Retrying."
                 :: fst rest,
               snd rest);
          | right _ :=
              ([Requested (select_agent backend_type) method base_address urn;
                Answered r; Errored err; Logged "Failed. Giving up."],
               (Raise err, w'')) } };
  | (Failed err, w') with lt_dec attempts retries := {
      | left _ :=
          let rest := perform_request (S attempts) w' in
          (Requested (select_agent backend_type) method base_address urn
             :: Errored err :: Logged "Lookup failed. Retrying." :: fst rest,
           snd rest);
      | right _ :=
          ([Requested (select_agent backend_type) method base_address urn;
            Errored err; Logged "Failed. Giving up."],
           (Raise err, w')) } }.
Next Obligation. lia. Qed.
Next Obligation. lia. Qed.

Definition _request (w : W) : list event * (result A * W) :=
  perform_request 0 w.

End Retry.

End Request.

(* ===================================================================== *)
(** ** [queryBackend], [download] and [createReport] *)
(* ===================================================================== *)

Module Query.
Import Json Request.

Section Backend.

Context {W : Type}.
Variable agent_request : agent_kind -> string -> string -> string -> W -> outcome * W.

(** [json.loads]: [None] is its [ValueError]. *)
Variable json_loads : string -> option Json.t.

(** [ooni.errors.get_error], defined outside the sources at hand: the error
    class for an error key ([JNull] being [None]). *)
Variable get_error : Json.t -> exn.

(** The [process_response] closure of [queryBackend]; a bare [return] gives
    [None]. *)
Definition process_response (s : string) : result Json.t :=
  if Str.eqb s EmptyString then Ok JNull
  else
    match json_loads s with
    | None => Raise (get_error JNull)
    | Some response =>
        has_error ← py_in "error" response;
        if (has_error : bool) then
          key ← getitem response "error";
          Raise (get_error key)
        else Ok response
    end.

(** Modelled from the spec: [ooni.utils.net.BodyReceiver] is not among the
    sources.  It collects the body and fires [finished] with what the body
    processor returns, or with the exception the processor raises.  Neither
    the status nor the declared length takes part. *)
Definition query_receiver (content_length : option nat) (r : response) (w : W)
    : result (result Json.t) * W :=
  (Ok (process_response (body r)), w).

(** [queryBackend(method, urn, query, retries)]: the request body is only
    produced for a truthy [query] and does not influence the control flow. *)
Definition queryBackend (backend_type base_address method urn : string)
    (query : option Json.t) (retries : nat) (w : W)
    : list event * (result Json.t * W) :=
  _request agent_request query_receiver backend_type base_address method urn retries w.

(** [download(urn, download_path)]: [_request] with its default of three
    retries and a receiver [Downloader(download_path, finished, length)]. *)
Definition download {A}
    (downloader : string -> option nat -> response -> W -> result (result A) * W)
    (backend_type base_address urn download_path : string) (w : W)
    : list event * (result A * W) :=
  _request agent_request (downloader download_path)
           backend_type base_address "GET" urn 3 w.

End Backend.

(** The fields [createReport] copies from [test_details], in the order in
    which the dictionary display evaluates them. *)
Definition report_fields : list string :=
  [ "software_name"; "software_version"; "probe_asn"; "probe_cc";
    "test_name"; "test_version"; "test_start_time"; "input_hashes";
    "data_format_version" ].

(** [{k: test_details[k] for the fixed fields}], failing with the first
    missing key. *)
Fixpoint copy_fields (fields : list string) (test_details : gmap string Json.t)
    : result (gmap string Json.t) :=
  match fields with
  | [] => Ok ∅
  | k :: rest =>
      match test_details !! k with
      | None => Raise (KeyError k)
      | Some v =>
          m ← copy_fields rest test_details;
          Ok (<[ k := v ]> m)
      end
  end.

(** [d.update(pairs)]: the pairs are stored one after the other. *)
Definition dict_update (d : gmap string Json.t) (pairs : list (string * Json.t))
    : gmap string Json.t :=
  fold_left (fun m kv => <[ kv.1 := kv.2 ]> m) pairs d.

(** [[(k.lower(), v) for (k, v) in os.environ.iteritems()
      if k.startswith('PROBE_')]] *)
Definition environ_overrides (environ : list (string * string))
    : list (string * Json.t) :=
  map (fun kv => (Str.lower kv.1, JStr kv.2))
      (List.filter (fun kv => Str.startswith kv.1 "PROBE_") environ).

(** The [request] dictionary that [createReport] posts to [/report];
    [environ] lists [os.environ] in iteration order. *)
Definition createReport_request (test_details : gmap string Json.t)
    (environ : list (string * string)) : result (gmap string Json.t) :=
  fixed ← copy_fields report_fields test_details;
  let request := <[ "format" := JStr "json" ]> fixed in
  Ok (dict_update request (environ_overrides environ)).

Section Report.

Context {W : Type}.
Variable agent_request : agent_kind -> string -> string -> string -> W -> outcome * W.
Variable json_loads : string -> option Json.t.
Variable get_error : Json.t -> exn.

(** [CollectorClient.createReport(test_details)]: a missing field fails
    before any request is made. *)
Definition createReport (backend_type base_address : string)
    (test_details : gmap string Json.t) (environ : list (string * string)) (w : W)
    : list event * (result Json.t * W) :=
  match createReport_request test_details environ with
  | Raise e => ([], (Raise e, w))
  | Ok request =>
      queryBackend agent_request json_loads get_error backend_type base_address
                   "POST" "/report" (Some (JObj request)) 3 w
  end.

End Report.

End Query.

(* ===================================================================== *)
(** ** [hashlib.sha256]: FIPS 180-4 on byte strings *)
(* ===================================================================== *)

Module SHA256.
Local Open Scope N_scope.

Definition mask32 : N := 4294967295.
Definition w32 (x : N) : N := N.land x mask32.
Definition add32 (x y : N) : N := w32 (x + y).
Definition rotr (n x : N) : N := N.lor (N.shiftr x n) (w32 (N.shiftl x (32 - n))).
Definition not32 (x : N) : N := N.lxor x mask32.

Definition Ch (x y z : N) : N := N.lxor (N.land x y) (N.land (not32 x) z).
Definition Maj (x y z : N) : N :=
  N.lxor (N.lxor (N.land x y) (N.land x z)) (N.land y z).
Definition Sigma0 (x : N) : N := N.lxor (N.lxor (rotr 2 x) (rotr 13 x)) (rotr 22 x).
Definition Sigma1 (x : N) : N := N.lxor (N.lxor (rotr 6 x) (rotr 11 x)) (rotr 25 x).
Definition sigma0 (x : N) : N := N.lxor (N.lxor (rotr 7 x) (rotr 18 x)) (N.shiftr x 3).
Definition sigma1 (x : N) : N := N.lxor (N.lxor (rotr 17 x) (rotr 19 x)) (N.shiftr x 10).

Definition K : list N :=
  [ 1116352408; 1899447441; 3049323471; 3921009573; 961987163; 1508970993;
    2453635748; 2870763221; 3624381080; 310598401; 607225278; 1426881987;
    1925078388; 2162078206; 2614888103; 3248222580; 3835390401; 4022224774;
    264347078; 604807628; 770255983; 1249150122; 1555081692; 1996064986;
    2554220882; 2821834349; 2952996808; 3210313671; 3336571891; 3584528711;
    113926993; 338241895; 666307205; 773529912; 1294757372; 1396182291;
    1695183700; 1986661051; 2177026350; 2456956037; 2730485921; 2820302411;
    3259730800; 3345764771; 3516065817; 3600352804; 4094571909; 275423344;
    430227734; 506948616; 659060556; 883997877; 958139571; 1322822218;
    1537002063; 1747873779; 1955562222; 2024104815; 2227730452; 2361852424;
    2428436474; 2756734187; 3204031479; 3329325298 ].

Fixpoint bytes_of_string (s : string) : list N :=
  match s with
  | EmptyString => []
  | String c r => N_of_ascii c :: bytes_of_string r
  end.

(** The message followed by the byte 0x80, zero bytes up to 56 modulo 64,
    and the bit length on eight bytes, most significant first. *)
Definition pad (msg : list N) : list N :=
  let len := N.of_nat (length msg) in
  let zeros := N.to_nat ((119 - len mod 64) mod 64) in
  let bits := 8 * len in
  msg ++ [128] ++ repeat 0 zeros
      ++ map (fun i => N.land (N.shiftr bits (8 * i)) 255) [7; 6; 5; 4; 3; 2; 1; 0].

Fixpoint words_of_bytes (bs : list N) : list N :=
  match bs with
  | a :: b :: c :: d :: rest =>
      (N.shiftl a 24 + N.shiftl b 16 + N.shiftl c 8 + d) :: words_of_bytes rest
  | _ => []
  end.

(** The message schedule: sixteen block words extended to sixty-four.  The
    list is kept most recent word first. *)
Fixpoint extend (n : nat) (rev_w : list N) : list N :=
  match n with
  | O => rev_w
  | S n' =>
      let w2 := nth 1 rev_w 0 in
      let w7 := nth 6 rev_w 0 in
      let w15 := nth 14 rev_w 0 in
      let w16 := nth 15 rev_w 0 in
      extend n' (add32 (add32 (sigma1 w2) w7) (add32 (sigma0 w15) w16) :: rev_w)
  end.

Definition schedule (block : list N) : list N := rev (extend 48 (rev block)).

Record state := { a : N; b : N; c : N; d : N; e : N; f : N; g : N; h : N }.

Definition round (s : state) (kw : N * N) : state :=
  let t1 := add32 (add32 (add32 (h s) (Sigma1 (e s))) (Ch (e s) (f s) (g s)))
                  (add32 kw.1 kw.2) in
  let t2 := add32 (Sigma0 (a s)) (Maj (a s) (b s) (c s)) in
  {| a := add32 t1 t2; b := a s; c := b s; d := c s;
     e := add32 (d s) t1; f := e s; g := f s; h := g s |}.

Definition compress (hs : state) (block : list N) : state :=
  let s := fold_left round (combine K (schedule block)) hs in
  {| a := add32 (a hs) (a s); b := add32 (b hs) (b s);
     c := add32 (c hs) (c s); d := add32 (d hs) (d s);
     e := add32 (e hs) (e s); f := add32 (f hs) (f s);
     g := add32 (g hs) (g s); h := add32 (h hs) (h s) |}.

Fixpoint blocks (n : nat) (ws : list N) : list (list N) :=
  match n with
  | O => []
  | S n' => firstn 16 ws :: blocks n' (skipn 16 ws)
  end.

Definition initial : state :=
  {| a := 1779033703; b := 3144134277; c := 1013904242; d := 2773480762;
     e := 1359893119; f := 2600822924; g := 528734635; h := 1541459225 |}.

Definition digest_words (msg : string) : list N :=
  let ws := words_of_bytes (pad (bytes_of_string msg)) in
  let s := fold_left compress (blocks (length ws / 16) ws) initial in
  [a s; b s; c s; d s; e s; f s; g s; h s].

Definition hex_digit (n : N) : ascii :=
  match n with
  | 0 => "0" | 1 => "1" | 2 => "2" | 3 => "3" | 4 => "4" | 5 => "5"
  | 6 => "6" | 7 => "7" | 8 => "8" | 9 => "9" | 10 => "a" | 11 => "b"
  | 12 => "c" | 13 => "d" | 14 => "e" | _ => "f"
  end%char.

Definition hex_of_word (w : N) : string :=
  fold_right (fun i acc => String (hex_digit (N.land (N.shiftr w (4 * i)) 15)) acc)
             EmptyString [7; 6; 5; 4; 3; 2; 1; 0].

Fixpoint hex_of_words (ws : list N) : string :=
  match ws with
  | [] => EmptyString
  | w :: rest => hex_of_word w +:+ hex_of_words rest
  end.

(** [sha256(data).hexdigest()] *)
Definition hexdigest (data : string) : string := hex_of_words (digest_words data).

End SHA256.

(* ===================================================================== *)
(** ** [ooni/deck.py]: the input cache *)
(* ===================================================================== *)

Module Cache.
Import Json.

(** What a path names on disk. *)
Inductive node : Type :=
| File (contents : string)
| Dir.

(** [os.path.exists(path)] *)
Definition path_exists (fs : gmap string node) (path : string) : bool :=
  bool_decide (is_Some (fs !! path)).

(** [open(path).read()]: an [IOError] for a directory or a missing file. *)
Definition read_file (fs : gmap string node) (path : string) : result string :=
  match fs !! path with
  | Some (File contents) => Ok contents
  | _ => Raise IOError
  end.

(** [os.path.join(a, b)] on POSIX. *)
Definition path_join (a b : string) : string :=
  if Str.startswith b "/" then b
  else if Str.eqb a EmptyString || Str.endswith a "/" then a +:+ b
  else a +:+ "/" +:+ b.

(** [os.path.basename(path)] on POSIX. *)
Definition basename (path : string) : string := Str.after_last "/" path.

(** [os.path.dirname(path)] on POSIX: what is in front of the base name,
    without its trailing slashes unless it is made of slashes only. *)
Definition dirname (path : string) : string :=
  let head := Str.take (String.length path - String.length (basename path)) path in
  if Str.forallb (Ascii.eqb "/") head then head else Str.rstrip "/" head.

(** [open(path, 'w+')]: an existing file is opened, a directory is not, and
    a new file needs a name and the directory it goes into; the current
    directory and the root are always there.  Every refusal is an
    [IOError]. *)
Definition open_w (fs : gmap string node) (path : string) : result unit :=
  match fs !! path with
  | Some (File _) => Ok tt
  | Some Dir => Raise IOError
  | None =>
      if Str.eqb (basename path) EmptyString then Raise IOError
      else if Str.forallb (Ascii.eqb "/") (dirname path) then Ok tt
      else match fs !! dirname path with
           | Some Dir => Ok tt
           | _ => Raise IOError
           end
  end.

Record descriptor := {
  name : Json.t;
  version : Json.t;
  author : Json.t;
  date : Json.t;
  description : Json.t
}.

Record InputFile := {
  id : string;
  cached_file : string;
  cached_descriptor : string;
  loaded : option descriptor
}.

(** [InputFile(input_hash, base_path)]; [base] is
    [os.path.abspath(base_path)]. *)
Definition InputFile_new (input_hash base : string) : InputFile :=
  let cache_path := path_join base input_hash in
  {| id := input_hash;
     cached_file := cache_path;
     cached_descriptor := cache_path +:+ ".desc";
     loaded := None |}.

(** [InputFile.load(descriptor)] *)
Definition load (f : InputFile) (d : Json.t) : result InputFile :=
  n ← getitem d "name";
  v ← getitem d "version";
  a ← getitem d "author";
  t ← getitem d "date";
  ds ← getitem d "description";
  Ok {| id := id f; cached_file := cached_file f;
        cached_descriptor := cached_descriptor f;
        loaded := Some {| name := n; version := v; author := a;
                          date := t; description := ds |} |}.

(** [InputFile.verify()] *)
Definition verify (fs : gmap string node) (f : InputFile) : result unit :=
  let digest := basename (cached_file f) in
  contents ← read_file fs (cached_file f);
  if Str.eqb (SHA256.hexdigest contents) digest then Ok tt
  else Raise AssertionError.

(** [InputFile.fileCached] *)
Definition fileCached (fs : gmap string node) (f : InputFile) : result bool :=
  if path_exists fs (cached_file f) then
    match verify fs f with
    | Ok _ => Ok true
    | Raise AssertionError => Ok false
    | Raise e => Raise e
    end
  else Ok false.

Section Descriptor.

(** [json.loads]: [None] is its [ValueError]. *)
Variable json_loads : string -> option Json.t.

(** [InputFile.descriptorCached]: the answer, and the object with the
    descriptor loaded into it. *)
Definition descriptorCached (fs : gmap string node) (f : InputFile)
    : result (bool * InputFile) :=
  if path_exists fs (cached_descriptor f) then
    contents ← read_file fs (cached_descriptor f);
    d ← match json_loads contents with
        | Some d => Ok d
        | None => Raise ValueError
        end;
    f' ← load f d;
    Ok (true, f')
  else Ok (false, f).

End Descriptor.

(** Storing [contents] in the cache under the name [input_hash]. *)
Definition write_payload (fs : gmap string node) (base input_hash contents : string)
    : gmap string node :=
  <[ path_join base input_hash := File contents ]> fs.

End Cache.

(* ===================================================================== *)
(** ** [ooni/deck.py]: fetching inputs and looking up collectors *)
(* ===================================================================== *)

Module Deck.
Import Json Request Cache.

(** One entry of [net_test_loader.inputFiles]. *)
Record input_entry := {
  i_hash : string;
  i_url : option string;
  i_address : string;
  i_key : string;
  i_test_options : gmap string string
}.

Record NetTestLoader := {
  testName : string;
  testVersion : string;
  collector : option string;
  inputFiles : list input_entry;
  missingTestHelpers : list (string * string);
  localOptions : gmap string string;
  testHelpers : gmap string string
}.

(** One element of the [net-tests] list the bouncer answers with. *)
Record provided_net_test := {
  p_name : string;
  p_version : string;
  p_input_hashes : list string;
  p_collector : string;
  p_test_helpers : gmap string string
}.

(** One element of the [required_nettests] list sent to the bouncer. *)
Record required_net_test := {
  r_name : string;
  r_version : string;
  r_test_helpers : list string;
  r_input_hashes : list string
}.

(** Truth value of an optional string: [None] and the empty string are
    false. *)
Definition truthy_str (s : option string) : bool :=
  match s with
  | Some s' => negb (Str.eqb s' EmptyString)
  | None => false
  end.

(** A deferred that has fired: its result or its failure. *)
Definition addCallback {A B} (d : result A) (cb : A -> result B) : result B :=
  match d with
  | Ok v => cb v
  | Raise e => Raise e
  end.

Definition addErrback {A} (d : result A) (eb : exn -> result A) : result A :=
  match d with
  | Ok v => Ok v
  | Raise e => eb e
  end.

(** The disk and the state of the network. *)
Record world {Net : Type} := {
  w_fs : gmap string node;
  w_net : Net
}.
Arguments world : clear implicits.

Section Fetch.

Context {Net : Type}.
Variable agent_request : agent_kind -> string -> string -> string -> Net -> outcome * Net.

(** [os.path.abspath(config.inputs_directory)] and the client's address. *)
Variables (inputs_directory backend_type base_address : string).

Definition agent_request_world (k : agent_kind) (method base urn : string)
    (w : world Net) : outcome * world Net :=
  let r := agent_request k method base urn (w_net w) in
  (r.1, {| w_fs := w_fs w; w_net := r.2 |}).

(** Modelled from the spec: [ooni.utils.net.Downloader] is not among the
    sources.  It streams the response body to the destination file and
    fires [finished] with [None] once the body is complete. *)
Definition Downloader (download_path : string) (content_length : option nat)
    (r : response) (w : world Net) : result (result unit) * world Net :=
  (Ok (Ok tt),
   {| w_fs := <[ download_path := File (body r) ]> (w_fs w); w_net := w_net w |}).

(** [CollectorClient.downloadInput(input_hash)]: the requests made, then
    either the exception raised on the spot or the deferred handed back
    (fired with an [InputFile], with [None], or with a failure), and the
    world afterwards. *)
Definition downloadInput (input_hash : string) (w : world Net)
    : list event * (result (result (option InputFile)) * world Net) :=
  let input_file := InputFile_new input_hash inputs_directory in
  match fileCached (w_fs w) input_file with
  | Raise e => ([], (Raise e, w))
  | Ok true => ([], (Ok (Ok (Some input_file)), w))
  | Ok false =>
      let run := Query.download agent_request_world Downloader backend_type base_address
                   ("/input/" +:+ input_hash +:+ "/file") (cached_file input_file) w in
      let w' := run.2.2 in
      let d := run.2.1 in
      let d := addCallback d (fun _ => _ ← verify (w_fs w') input_file; Ok (Some input_file)) in
      let d := addErrback d (fun _ => Ok None) in
      (run.1, (Ok d, w'))
  end.

(** [yield d] inside [try: ... except: raise e.UnableToLoadDeckInput]. *)
Definition yield_or_unable {A} (r : result (result A)) : result A :=
  match r with
  | Ok (Ok v) => Ok v
  | _ => Raise UnableToLoadDeckInput
  end.

(** [input_file.verify()] inside [try: ... except AssertionError: raise
    e.UnableToLoadDeckInput], on what the deferred fired with. *)
Definition verify_or_unable (fs : gmap string node) (input_file : option InputFile)
    : result InputFile :=
  match input_file with
  | None => Raise AttributeError
  | Some f =>
      match verify fs f with
      | Ok _ => Ok f
      | Raise AssertionError => Raise UnableToLoadDeckInput
      | Raise e => Raise e
      end
  end.

(** The loop of [Deck.fetchAndVerifyNetTestInput] over [inputFiles].  The
    deck's client is taken to be a [CollectorClient]; assigning its
    [address] attribute leaves the base address of its requests as it is. *)
Fixpoint fetch_inputs (inputs : list input_entry) (w : world Net)
    : list event * (result (list input_entry) * world Net) :=
  match inputs with
  | [] => ([], (Ok [], w))
  | i :: rest =>
      if truthy_str (i_url i) then
        let dl := downloadInput (i_hash i) w in
        let w1 := dl.2.2 in
        match yield_or_unable dl.2.1 with
        | Raise e => (dl.1, (Raise e, w1))
        | Ok input_file =>
            match verify_or_unable (w_fs w1) input_file with
            | Raise e => (dl.1, (Raise e, w1))
            | Ok f =>
                let i' := {| i_hash := i_hash i; i_url := i_url i;
                             i_address := i_address i; i_key := i_key i;
                             i_test_options :=
                               <[ i_key i := cached_file f ]> (i_test_options i) |} in
                let r := fetch_inputs rest w1 in
                ((dl.1 ++ r.1)%list, (l ← r.2.1; Ok (i' :: l), r.2.2))
            end
        end
      else
        let r := fetch_inputs rest w in
        (r.1, (l ← r.2.1; Ok (i :: l), r.2.2))
  end.

Definition set_inputFiles (l : NetTestLoader) (inputs : list input_entry) : NetTestLoader :=
  {| testName := testName l; testVersion := testVersion l; collector := collector l;
     inputFiles := inputs; missingTestHelpers := missingTestHelpers l;
     localOptions := localOptions l; testHelpers := testHelpers l |}.

(** [Deck.fetchAndVerifyNetTestInput(net_test_loader)] *)
Definition fetchAndVerifyNetTestInput (l : NetTestLoader) (w : world Net)
    : list event * (result NetTestLoader * world Net) :=
  let r := fetch_inputs (inputFiles l) w in
  (r.1, (inputs ← r.2.1; Ok (set_inputFiles l inputs), r.2.2)).

(** The first loop of [Deck.setup]. *)
Fixpoint fetch_all (loaders : list NetTestLoader) (w : world Net)
    : list event * (result (list NetTestLoader) * world Net) :=
  match loaders with
  | [] => ([], (Ok [], w))
  | l :: rest =>
      let r := fetchAndVerifyNetTestInput l w in
      match r.2.1 with
      | Raise e => (r.1, (Raise e, r.2.2))
      | Ok l' =>
          let r' := fetch_all rest r.2.2 in
          ((r.1 ++ r'.1)%list, (ls ← r'.2.1; Ok (l' :: ls), r'.2.2))
      end
  end.

End Fetch.

(** The closure [find_collector_and_test_helpers] of [lookupCollector];
    [None] is the [None] a Python function returns when it falls off its
    end. *)
Fixpoint find_collector_and_test_helpers (provided_net_tests : list provided_net_test)
    (test_name test_version : string) (input_files : list string)
    : option (string * gmap string string) :=
  match provided_net_tests with
  | [] => None
  | net_test :: rest =>
      if negb (Str.eqb (p_name net_test) test_name) then
        find_collector_and_test_helpers rest test_name test_version input_files
      else if negb (Str.eqb (p_version net_test) test_version) then
        find_collector_and_test_helpers rest test_name test_version input_files
      else if negb (bool_decide ((list_to_set (p_input_hashes net_test) : gset string)
                                 = list_to_set input_files)) then
        find_collector_and_test_helpers rest test_name test_version input_files
      else Some (p_collector net_test, p_test_helpers net_test)
  end.

(** [for option, name in missingTestHelpers: ...]: a helper the answer does
    not name is a [KeyError]; the options set before it stay set. *)
Fixpoint set_test_helpers (test_helpers : gmap string string)
    (missing : list (string * string)) (l : NetTestLoader)
    : NetTestLoader * result unit :=
  match missing with
  | [] => (l, Ok tt)
  | (option, name) :: rest =>
      match test_helpers !! name with
      | None => (l, Raise (KeyError name))
      | Some test_helper_address =>
          set_test_helpers test_helpers rest
            {| testName := testName l; testVersion := testVersion l;
               collector := collector l; inputFiles := inputFiles l;
               missingTestHelpers := missingTestHelpers l;
               localOptions := <[ option := test_helper_address ]> (localOptions l);
               testHelpers := <[ option := test_helper_address ]> (testHelpers l) |}
      end
  end.

Definition set_collector (l : NetTestLoader) (c : string) : NetTestLoader :=
  {| testName := testName l; testVersion := testVersion l; collector := Some c;
     inputFiles := inputFiles l; missingTestHelpers := missingTestHelpers l;
     localOptions := localOptions l; testHelpers := testHelpers l |}.

(** The second loop of [lookupCollector]: the loaders as the loop leaves
    them, and how it ends.  Unpacking the [None] of an unmatched test into
    [collector, test_helpers] is a [TypeError]. *)
Fixpoint assign_collectors (provided_net_tests : list provided_net_test)
    (loaders : list NetTestLoader) : list NetTestLoader * result unit :=
  match loaders with
  | [] => ([], Ok tt)
  | l :: rest =>
      match find_collector_and_test_helpers provided_net_tests (testName l)
              (testVersion l) (map i_hash (inputFiles l)) with
      | None => (l :: rest, Raise TypeError)
      | Some (c, test_helpers) =>
          match set_test_helpers test_helpers (missingTestHelpers l) l with
          | (l', Raise e) => (l' :: rest, Raise e)
          | (l', Ok _) =>
              let l'' := if negb (truthy_str (collector l')) then set_collector l' c else l' in
              let r := assign_collectors provided_net_tests rest in
              (l'' :: r.1, r.2)
          end
      end
  end.

Definition required_of (l : NetTestLoader) : required_net_test :=
  {| r_name := testName l;
     r_version := testVersion l;
     r_test_helpers :=
       if (0 <? length (missingTestHelpers l))%nat then map snd (missingTestHelpers l) else [];
     r_input_hashes := map i_hash (inputFiles l) |}.

Definition requires_collector (no_collector : bool) (loaders : list NetTestLoader) : bool :=
  existsb (fun l => negb (truthy_str (collector l)) && negb no_collector) loaders.

Definition requires_test_helpers (loaders : list NetTestLoader) : bool :=
  existsb (fun l => (0 <? length (missingTestHelpers l))%nat) loaders.

Section Lookup.

(** [oonibclient.lookupTestCollector(required_nettests)] followed by
    [response['net-tests']], read as typed records: the assignments, or the
    exception of a failed lookup. *)
Variable lookupTestCollector : list required_net_test -> result (list provided_net_test).

(** [Deck.lookupCollector()]: whether the bouncer was asked, the loaders
    afterwards, and how the method ends. *)
Definition lookupCollector (no_collector : bool) (loaders : list NetTestLoader)
    : bool * (list NetTestLoader * result unit) :=
  let required_nettests := map required_of loaders in
  if negb (requires_test_helpers loaders) && negb (requires_collector no_collector loaders)
  then (false, (loaders, Ok tt))
  else
    match lookupTestCollector required_nettests with
    | Raise e => (true, (loaders, Raise e))
    | Ok provided_net_tests => (true, assign_collectors provided_net_tests loaders)
    end.

End Lookup.

Section Setup.

Context {Net : Type}.
Variable agent_request : agent_kind -> string -> string -> string -> Net -> outcome * Net.
Variables (inputs_directory backend_type base_address : string).
Variable lookupTestCollector : list required_net_test -> result (list provided_net_test).

(** [Deck.setup()] *)
Definition setup (bouncer : string) (no_collector : bool)
    (loaders : list NetTestLoader) (w : world Net)
    : list NetTestLoader * result unit * world Net :=
  let r := fetch_all agent_request inputs_directory backend_type base_address loaders w in
  match r.2.1 with
  | Raise e => (loaders, Raise e, r.2.2)
  | Ok loaders' =>
      if negb (Str.eqb bouncer EmptyString) then
        let lk := lookupCollector lookupTestCollector no_collector loaders' in
        (lk.2.1, lk.2.2, r.2.2)
      else (loaders', Ok tt, r.2.2)
  end.

End Setup.

End Deck.

(* ===================================================================== *)
(** ** Concrete collaborators for running the model *)
(* ===================================================================== *)

Module Sample.
Import Json Request.

(** Modelled from the spec: [ooni.errors.get_error] is not among the
    sources.  This instance keeps the error key inside the error it hands
    out, [generic] standing for the key [None]. *)
Definition get_error (key : Json.t) : exn :=
  match key with
  | JStr s => BackendError s
  | _ => BackendError "generic"
  end.

(** A transport that fails every request; its state counts the requests
    made so far, and each failure carries the number of its request. *)
Definition failing_agent (k : agent_kind) (method base urn : string) (n : nat)
    : outcome * nat :=
  (Failed (NetworkFailure n), S n).

(** A transport that answers every request with [r]. *)
Definition answering_agent (r : response) (k : agent_kind) (method base urn : string)
    (n : nat) : outcome * nat :=
  (Responded r, S n).

(** The digest of the empty payload. *)
Definition empty_digest : string :=
  "e3b0c44298fc1c149afbf4c8996fb92427ae41e4649b934ca495991b7852b855".

(** The 256 payloads of one byte. *)
Definition one_byte_payloads : list string :=
  map (fun n => String (ascii_of_nat n) EmptyString) (seq 0 256).

End Sample.

Module Fixture.
Import Json Deck.

(** An input that has to be fetched from a collector. *)
Definition remote_input : input_entry :=
  {| i_hash := Sample.empty_digest;
     i_url := Some ("httpo://abcdefghijklmnop.onion/input/" +:+ Sample.empty_digest);
     i_address := "httpo://abcdefghijklmnop.onion";
     i_key := "file";
     i_test_options := ∅ |}.

Definition input_named (h : string) : input_entry :=
  {| i_hash := h; i_url := None; i_address := EmptyString;
     i_key := "file"; i_test_options := ∅ |}.

(** A test [x], version [1], over the inputs [a] and [b], with no collector
    of its own. *)
Definition test_x : NetTestLoader :=
  {| testName := "x"; testVersion := "1"; collector := None;
     inputFiles := [input_named "a"; input_named "b"];
     missingTestHelpers := []; localOptions := ∅; testHelpers := ∅ |}.

Definition test_with_remote_input : NetTestLoader :=
  {| testName := "x"; testVersion := "1"; collector := None;
     inputFiles := [remote_input];
     missingTestHelpers := []; localOptions := ∅; testHelpers := ∅ |}.

Definition assignment (hashes : list string) : provided_net_test :=
  {| p_name := "x"; p_version := "1"; p_input_hashes := hashes;
     p_collector := "httpo://abcdefghijklmnop.onion"; p_test_helpers := ∅ |}.

Definition test_details : gmap string Json.t :=
  list_to_map
    [ ("software_name", JStr "ooniprobe"); ("software_version", JStr "1.4.2");
      ("probe_asn", JStr "AS0"); ("probe_cc", JStr "IT");
      ("test_name", JStr "x"); ("test_version", JStr "1");
      ("test_start_time", JStr "2016-01-01 00:00:00"); ("input_hashes", JArr []);
      ("data_format_version", JStr "0.2.0") ].

Definition environ : list (string * string) :=
  [ ("HOME", "/root"); ("PROBE_CC", "ZZ"); ("PROBE_EXTRA", "1") ].

Definition report_request : gmap string Json.t :=
  match Query.createReport_request test_details environ with
  | Ok request => request
  | Raise _ => ∅
  end.

End Fixture.

(* ===================================================================== *)
(** ** The rest of the two files *)
(* ===================================================================== *)

Module Errors.

(** Classes of [ooni.errors] that the exception type above does not list,
    carried by their name. *)
Definition CouldNotFindTestHelper : exn := BackendError "CouldNotFindTestHelper".
Definition HTTPCollectorUnsupported : exn := BackendError "HTTPCollectorUnsupported".
Definition InsecureCollector : exn := BackendError "InsecureCollector".
Definition MissingTestHelper : exn := BackendError "MissingTestHelper".

Definition is_MissingTestHelper (e : exn) : bool :=
  match e with
  | BackendError cls => Str.eqb cls "MissingTestHelper"
  | _ => false
  end.

End Errors.

Module Support.
Import BackendClient.

(** What the code reads of [ooni.settings.config] and of the installed
    Twisted: [insecure_backend] and [insecure_collector] say whether the
    setting is exactly [True], [tor_state] whether it is truthy. *)
Record config := {
  twisted_version : nat * nat * nat;
  insecure_backend : bool;
  insecure_collector : bool;
  tor_state : bool;
  socks_port : option nat
}.

(** [a < b] on Twisted versions: major, minor, micro in this order. *)
Definition version_lt (a b : nat * nat * nat) : bool :=
  let '(a1, a2, a3) := a in
  let '(b1, b2, b3) := b in
  (a1 <? b1)%nat
  || ((a1 =? b1)%nat && ((a2 <? b2)%nat || ((a2 =? b2)%nat && (a3 <? b3)%nat))).

Definition _twisted_14_0_2_version : nat * nat * nat := (14, 0, 2)%nat.

(** [OONIBClient.isSupported()] *)
Definition isSupported (cfg : config) (c : client) : bool :=
  if Str.eqb (backend_type c) "https" || Str.eqb (backend_type c) "cloudfront" then
    if version_lt (twisted_version cfg) _twisted_14_0_2_version then false else true
  else if Str.eqb (backend_type c) "http" then
    if negb (insecure_backend cfg) then false else true
  else if Str.eqb (backend_type c) "onion" then
    if negb (tor_state cfg) && bool_decide (socks_port cfg = None) then false else true
  else true.

End Support.

Module Clients.
Import Json Request Query Cache Deck Errors.

(** The dictionary [InputFile.save] dumps. *)
Definition descriptor_object (f : InputFile) (d : descriptor) : Json.t :=
  JObj (list_to_map
          [ ("name", name d); ("id", JStr (id f)); ("version", version d);
            ("author", author d); ("date", date d);
            ("description", description d) ]).

Section Save.

(** [json.dumps] *)
Variable json_dumps : Json.t -> string.

(** [InputFile.save()]: the descriptor file is opened for writing, and so
    emptied, before the dictionary is built; an object that has not been
    loaded has no [name] to put into it.  When the file cannot be opened,
    because the cache directory is missing or the path names a directory,
    nothing is written. *)
Definition save (fs : gmap string node) (f : InputFile) : gmap string node * result unit :=
  match open_w fs (cached_descriptor f) with
  | Raise e => (fs, Raise e)
  | Ok _ =>
      match loaded f with
      | None => (<[ cached_descriptor f := File EmptyString ]> fs, Raise AttributeError)
      | Some d =>
          (<[ cached_descriptor f := File (json_dumps (descriptor_object f d)) ]> fs,
           Ok tt)
      end
  end.

End Save.

(** The callback of [WebConnectivityClient.isReachable]:
    [result.get("status", None) != "ok"] decides; a result without [get]
    is an [AttributeError]. *)
Definition status_callback (result : Json.t) : Py.result bool :=
  match result with
  | JObj m =>
      match m !! "status" with
      | Some (JStr s) => Ok (Str.eqb s "ok")
      | _ => Ok false
      end
  | _ => Raise AttributeError
  end.

Section WithBackend.

Context {W : Type}.
Variable agent_request : agent_kind -> string -> string -> string -> W -> outcome * W.
Variable json_loads : string -> option Json.t.
Variable get_error : Json.t -> exn.
Variables (backend_type base_address : string).

(** [BouncerClient.lookupTestCollector(net_tests)] *)
Definition lookupTestCollector (net_tests : Json.t) (w : W)
    : list event * (result Json.t * W) :=
  let r := queryBackend agent_request json_loads get_error backend_type base_address
             "POST" "/bouncer/net-tests"
             (Some (JObj {[ "net-tests" := net_tests ]})) 3 w in
  (r.1, (match r.2.1 with
         | Ok test_collector => Ok test_collector
         | Raise _ => Raise CouldNotFindTestCollector
         end, r.2.2)).

(** [BouncerClient.lookupTestHelpers(test_helper_names)] *)
Definition lookupTestHelpers (test_helper_names : Json.t) (w : W)
    : list event * (result Json.t * W) :=
  let r := queryBackend agent_request json_loads get_error backend_type base_address
             "POST" "/bouncer/test-helpers"
             (Some (JObj {[ "test-helpers" := test_helper_names ]})) 3 w in
  (r.1, (match r.2.1 with
         | Raise _ => Raise CouldNotFindTestHelper
         | Ok test_helper =>
             if negb (truthy test_helper) then Raise CouldNotFindTestHelper
             else Ok test_helper
         end, r.2.2)).

(** [WebConnectivityClient.isReachable()] *)
Definition web_isReachable (w : W) : list event * (result bool * W) :=
  let r := queryBackend agent_request json_loads get_error backend_type base_address
             "GET" "/status" None 3 w in
  let d := addCallback r.2.1 status_callback in
  let d := addErrback d (fun _ => Ok false) in
  (r.1, (d, r.2.2)).

(** [WebConnectivityClient.control(http_request, tcp_connect)] *)
Definition control (http_request tcp_connect : Json.t) (w : W)
    : list event * (result Json.t * W) :=
  queryBackend agent_request json_loads get_error backend_type base_address "POST" "/"
    (Some (JObj (<[ "http_request" := http_request ]>
                   {[ "tcp_connect" := tcp_connect ]}))) 3 w.

End WithBackend.

Section WithCache.

Context {Net : Type}.
Variable agent_request : agent_kind -> string -> string -> string -> Net -> outcome * Net.
Variable json_loads : string -> option Json.t.
Variable json_dumps : Json.t -> string.
Variable get_error : Json.t -> exn.
Variables (inputs_directory backend_type base_address : string).

(** [CollectorClient.getInput(input_hash)]: the requests made, then the
    exception raised on the spot or the deferred handed back, and the world
    afterwards.  The errback turns every failure of the query, of [load]
    and of [save] into the value [None]. *)
Definition getInput (input_hash : string) (w : world Net)
    : list event * (result (result (option InputFile)) * world Net) :=
  let input_file := InputFile_new input_hash inputs_directory in
  match descriptorCached json_loads (w_fs w) input_file with
  | Raise e => ([], (Raise e, w))
  | Ok (true, f) => ([], (Ok (Ok (Some f)), w))
  | Ok (false, _) =>
      let run := queryBackend (agent_request_world agent_request) json_loads get_error
                   backend_type base_address "GET" ("/input/" +:+ input_hash) None 3 w in
      let w1 := run.2.2 in
      match run.2.1 with
      | Raise _ => (run.1, (Ok (Ok None), w1))
      | Ok descriptor =>
          match load input_file descriptor with
          | Raise _ => (run.1, (Ok (Ok None), w1))
          | Ok f =>
              let s := save json_dumps (w_fs w1) f in
              (run.1,
               (Ok (match s.2 with Ok _ => Ok (Some f) | Raise _ => Ok None end),
                {| w_fs := s.1; w_net := w_net w1 |}))
          end
      end
  end.

End WithCache.

End Clients.

Module DeckOps.
Import Json Request Cache Deck Errors Support.

(** The attributes of a [Deck] that [insert] reads and writes. *)
Record deck := {
  requiresTor : bool;
  bouncer : string;
  netTestLoaders : list NetTestLoader
}.

Definition set_requiresTor (d : deck) : deck :=
  {| requiresTor := true; bouncer := bouncer d; netTestLoaders := netTestLoaders d |}.

(** [Deck.insert(net_test_loader)].  [checkOptions] is how the loader's
    [checkOptions()] ends and [loader_requiresTor] its [requiresTor]
    attribute; both belong to [ooni.nettest], outside the sources at hand.
    The deck is given as the call leaves it, also when it raises. *)
Definition insert (cfg : config) (checkOptions : result unit) (loader_requiresTor : bool)
    (l : NetTestLoader) (d : deck) : deck * result unit :=
  let checked : deck * result unit :=
    match checkOptions with
    | Ok _ => (if loader_requiresTor then set_requiresTor d else d, Ok tt)
    | Raise e =>
        if is_MissingTestHelper e then
          if Str.eqb (bouncer d) EmptyString then (d, Raise e)
          else (set_requiresTor d, Ok tt)
        else (d, Raise e)
    end in
  match checked.2 with
  | Raise e => (checked.1, Raise e)
  | Ok _ =>
      let d1 := checked.1 in
      let c := match collector l with Some c => c | None => EmptyString end in
      if truthy_str (collector l) && Str.startswith c "https://" then
        if version_lt (twisted_version cfg) _twisted_14_0_2_version
        then (d1, Raise HTTPCollectorUnsupported)
        else ({| requiresTor := requiresTor d1; bouncer := bouncer d1;
                 netTestLoaders := netTestLoaders d1 ++ [l] |}, Ok tt)
      else if truthy_str (collector l) && Str.startswith c "http://" then
        if negb (insecure_collector cfg)
        then (d1, Raise InsecureCollector)
        else ({| requiresTor := requiresTor d1; bouncer := bouncer d1;
                 netTestLoaders := netTestLoaders d1 ++ [l] |}, Ok tt)
      else ({| requiresTor := requiresTor d1; bouncer := bouncer d1;
               netTestLoaders := netTestLoaders d1 ++ [l] |}, Ok tt)
  end.

(** One entry of the answer to [lookupTestHelpers]. *)
Record helper_answer := {
  h_address : string;
  h_collector : string
}.

(** The inner loop of [Deck.lookupTestHelpers] over the missing helpers of
    one test; [wants_collector] says whether the test is in
    [requires_collector]. *)
Fixpoint assign_helpers (response : gmap string helper_answer) (wants_collector : bool)
    (missing : list (string * string)) (l : NetTestLoader) : NetTestLoader * result unit :=
  match missing with
  | [] => (l, Ok tt)
  | (option, name) :: rest =>
      match response !! name with
      | None => (l, Raise (KeyError name))
      | Some answer =>
          assign_helpers response wants_collector rest
            {| testName := testName l; testVersion := testVersion l;
               collector := if wants_collector then Some (h_collector answer)
                            else collector l;
               inputFiles := inputFiles l;
               missingTestHelpers := missingTestHelpers l;
               localOptions := <[ option := h_address answer ]> (localOptions l);
               testHelpers := <[ option := h_address answer ]> (testHelpers l) |}
      end
  end.

(** The second loop of [Deck.lookupTestHelpers]. *)
Fixpoint assign_from_helpers (response : gmap string helper_answer) (no_collector : bool)
    (loaders : list NetTestLoader) : list NetTestLoader * result unit :=
  match loaders with
  | [] => ([], Ok tt)
  | l :: rest =>
      let wants_collector := negb (truthy_str (collector l)) && negb no_collector in
      if (length (missingTestHelpers l) =? 0)%nat && wants_collector then
        match response !! "default" with
        | None => (l :: rest, Raise (KeyError "default"))
        | Some answer =>
            let r := assign_from_helpers response no_collector rest in
            (set_collector l (h_collector answer) :: r.1, r.2)
        end
      else
        match assign_helpers response wants_collector (missingTestHelpers l) l with
        | (l', Raise e) => (l' :: rest, Raise e)
        | (l', Ok _) =>
            let r := assign_from_helpers response no_collector rest in
            (l' :: r.1, r.2)
        end
  end.

Section Helpers.

(** [oonibclient.lookupTestHelpers(required_test_helpers)], its answer read
    as typed records. *)
Variable lookupTestHelpers : list string -> result (gmap string helper_answer).

(** [Deck.lookupTestHelpers()]: whether the bouncer was asked, the loaders
    afterwards, and how the method ends. *)
Definition lookupTestHelpers_deck (no_collector : bool) (loaders : list NetTestLoader)
    : bool * (list NetTestLoader * result unit) :=
  let required_test_helpers := concat (map (fun l => map snd (missingTestHelpers l)) loaders) in
  if bool_decide (required_test_helpers = []) && negb (requires_collector no_collector loaders)
  then (false, (loaders, Ok tt))
  else
    match lookupTestHelpers required_test_helpers with
    | Raise e => (true, (loaders, Raise e))
    | Ok response => (true, assign_from_helpers response no_collector loaders)
    end.

End Helpers.

End DeckOps.

Module Retry.
Import Request.

Section Runs.

Context {W : Type}.
Variable agent_request : agent_kind -> string -> string -> string -> W -> outcome * W.
Variables (kind : agent_kind) (method base urn : string).

(** From the world [w] the transport fails the next [k] requests for this
    URL and answers the one after them with [r], leaving the world [w']. *)
Inductive fails_then_answers : nat -> W -> response -> W -> Prop :=
| answers_now w r w' :
    agent_request kind method base urn w = (Responded r, w') ->
    fails_then_answers 0 w r w'
| fails_first k w err w1 r w' :
    agent_request kind method base urn w = (Failed err, w1) ->
    fails_then_answers k w1 r w' ->
    fails_then_answers (S k) w r w'.

End Runs.

End Retry.

Module Fixture2.
Import Json Request Cache Clients.

(** A transport that fails its first [k] requests and answers the later
    ones with [r]; its state counts the requests made so far. *)
Definition flaky_agent (k : nat) (r : response) (kind : agent_kind)
    (method base urn : string) (n : nat) : outcome * nat :=
  if (n <? k)%nat then (Failed (NetworkFailure n), S n) else (Responded r, S n).

Definition sample_descriptor : descriptor :=
  {| name := JStr "alexa"; version := JStr "1"; author := JStr "ooni";
     date := JStr "2016-01-01"; description := JStr "top sites" |}.

Definition loaded_input : InputFile :=
  {| id := Sample.empty_digest;
     cached_file := cached_file (InputFile_new Sample.empty_digest "/var/cache");
     cached_descriptor := cached_descriptor (InputFile_new Sample.empty_digest "/var/cache");
     loaded := Some sample_descriptor |}.

(** An encoder and a decoder that agree on the descriptor above. *)
Definition descriptor_dumps (v : Json.t) : string := "descriptor of alexa".

Definition descriptor_loads (s : string) : option Json.t :=
  if Str.eqb s "descriptor of alexa"
  then Some (descriptor_object loaded_input sample_descriptor)
  else None.

(** A test that misses the helper [tcp-echo] for its option [backend], and
    what the bouncer may answer for it. *)
Definition test_missing_helper : Deck.NetTestLoader :=
  {| Deck.testName := "x"; Deck.testVersion := "1"; Deck.collector := None;
     Deck.inputFiles := [Fixture.input_named "a"];
     Deck.missingTestHelpers := [("backend", "tcp-echo")];
     Deck.localOptions := ∅; Deck.testHelpers := ∅ |}.

Definition test_with_helper : Deck.NetTestLoader :=
  {| Deck.testName := "x"; Deck.testVersion := "1";
     Deck.collector := Some "httpo://abcdefghijklmnop.onion";
     Deck.inputFiles := [Fixture.input_named "a"];
     Deck.missingTestHelpers := [("backend", "tcp-echo")];
     Deck.localOptions := {[ "backend" := "127.0.0.1:57002" ]};
     Deck.testHelpers := {[ "backend" := "127.0.0.1:57002" ]} |}.


Definition helper_answers : gmap string DeckOps.helper_answer :=
  {[ "tcp-echo" := {| DeckOps.h_address := "127.0.0.1:57002";
                      DeckOps.h_collector := "httpo://abcdefghijklmnop.onion" |} ]}.

End Fixture2.

(* ===================================================================== *)
(** * Properties *)
(* ===================================================================== *)

(** ** Strings and addresses *)

Module StrFacts.

Lemma startswith_append p r : Str.startswith (p +:+ r) p = true.
Proof.
  unfold Str.startswith. induction p as [|c p IH]; simpl.
  - destruct r; reflexivity.
  - destruct (ascii_dec c c); [exact IH|congruence].
Qed.

Lemma encode_ascii_ok s b : Str.encode_ascii s = Ok b -> b = s.
Proof. unfold Str.encode_ascii. destruct (Str.forallb _ s); congruence. Qed.

Lemma encode_ascii_id s b : Str.encode_ascii s = Ok b -> Str.encode_ascii b = Ok b.
Proof. intros H. pose proof (encode_ascii_ok _ _ H) as ->. exact H. Qed.

Lemma eqb_true a b : Str.eqb a b = true <-> a = b.
Proof. unfold Str.eqb. apply bool_decide_eq_true. Qed.

Lemma eqb_false a b : Str.eqb a b = false <-> a <> b.
Proof. unfold Str.eqb. apply bool_decide_eq_false. Qed.

Lemma eqb_refl a : Str.eqb a a = true.
Proof. apply eqb_true. reflexivity. Qed.

End StrFacts.

Module UrlFacts.
Import Url.

Lemma until_delim_idem s : until_delim (until_delim s) = until_delim s.
Proof.
  induction s as [|c s IH]; simpl; [reflexivity|].
  destruct (is_delim c) eqn:E; simpl; [reflexivity|].
  rewrite E, IH. reflexivity.
Qed.

Lemma split_netloc_wf u n : split_netloc u = Ok n -> wf_netloc n.
Proof.
  unfold split_netloc, wf_netloc.
  destruct (Str.eqb (Str.take 2 u) "//").
  - set (m := until_delim (Str.drop 2 u)).
    destruct (unbalanced m) eqn:E; [discriminate|].
    intros H. assert (n = m) as -> by congruence.
    split; [apply until_delim_idem | exact E].
  - intros [= <-]. split; reflexivity.
Qed.

Lemma split_netloc_slashes n : wf_netloc n -> split_netloc ("//" +:+ n) = Ok n.
Proof.
  intros [H1 H2]. unfold split_netloc.
  change (Str.take 2 ("//" +:+ n)) with "//".
  change (Str.drop 2 ("//" +:+ n)) with n.
  change (Str.eqb "//" "//") with true. cbv iota zeta.
  rewrite H1, H2. reflexivity.
Qed.

Lemma urlparse_wf a p : urlparse (Some a) = Ok p -> wf_netloc (netloc p).
Proof.
  unfold urlparse.
  assert (G : forall u sc,
             (n ← split_netloc u; Ok {| scheme := sc; netloc := n |}) = Ok p ->
             wf_netloc (netloc p)).
  { intros u sc. destruct (split_netloc u) eqn:E; [|discriminate].
    intros [= <-]. simpl. eapply split_netloc_wf; eauto. }
  destruct (Str.partition ":" a) as [[[|c0 s0] rest]|]; eauto.
  destruct (Str.eqb _ "http"); eauto.
  destruct (_ && _); eauto.
Qed.

Lemma urlparse_http n :
  wf_netloc n ->
  urlparse (Some ("http://" +:+ n)) = Ok {| scheme := "http"; netloc := n |}.
Proof.
  intros W. unfold urlparse.
  change (Str.partition ":" ("http://" +:+ n)) with (Some ("http", "//" +:+ n)).
  cbv iota beta. change (Str.eqb "http" "http") with true. cbv iota.
  rewrite (split_netloc_slashes _ W). reflexivity.
Qed.

Lemma urlparse_https n :
  wf_netloc n ->
  urlparse (Some ("https://" +:+ n)) = Ok {| scheme := "https"; netloc := n |}.
Proof.
  intros W. unfold urlparse.
  change (Str.partition ":" ("https://" +:+ n)) with (Some ("https", "//" +:+ n)).
  cbv iota beta. change (Str.eqb "https" "http") with false. cbv iota.
  change (Str.forallb _ "https") with true.
  assert (Str.eqb ("//" +:+ n) EmptyString = false) as -> by reflexivity.
  change (Str.forallb (fun c => Str.contains c digits) ("//" +:+ n)) with false.
  cbn [orb andb negb].
  rewrite (split_netloc_slashes _ W). reflexivity.
Qed.

End UrlFacts.

Module AddressFacts.
Import BackendClient StrFacts UrlFacts.

Section WithPattern.

Variable is_onion : string -> bool.

Lemma init_no_settings a :
  __init__ is_onion (Some a) no_settings =
    (ty ← _guessBackendType is_onion (Some a);
     addr ← _setupBaseAddress is_onion ty (Some a);
     Ok {| base_headers := ∅; backend_type := ty; base_address := addr;
           front := EmptyString |}).
Proof.
  unfold __init__. simpl.
  destruct (is_onion a); [reflexivity|].
  destruct (Str.startswith a "https://"); [reflexivity|].
  destruct (Str.startswith a "http://"); reflexivity.
Qed.

(** A stored base address [http://n] or [https://n] is a fixed point of
    classification followed by normalisation. *)
Lemma normalize_http n :
  Url.wf_netloc n -> Str.encode_ascii ("http://" +:+ n) = Ok ("http://" +:+ n) ->
  normalize is_onion ("http://" +:+ n) = Ok ("http://" +:+ n).
Proof.
  intros W E. unfold normalize. rewrite init_no_settings.
  unfold _guessBackendType, _setupBaseAddress.
  rewrite (urlparse_http _ W).
  destruct (is_onion ("http://" +:+ n)) eqn:O.
  - simpl. rewrite O. simpl. rewrite E. reflexivity.
  - assert (Str.startswith ("http://" +:+ n) "https://" = false) as -> by reflexivity.
    rewrite startswith_append.
    simpl. rewrite E. reflexivity.
Qed.

Lemma normalize_https n :
  Url.wf_netloc n -> Str.encode_ascii ("https://" +:+ n) = Ok ("https://" +:+ n) ->
  normalize is_onion ("https://" +:+ n) = Ok ("https://" +:+ n).
Proof.
  intros W E. unfold normalize. rewrite init_no_settings.
  unfold _guessBackendType, _setupBaseAddress.
  rewrite (urlparse_https _ W).
  destruct (is_onion ("https://" +:+ n)) eqn:O.
  - simpl. rewrite O. simpl.
    change ("https" +:+ "://" +:+ n) with ("https://" +:+ n).
    rewrite E. reflexivity.
  - rewrite startswith_append.
    simpl. rewrite E. reflexivity.
Qed.

Lemma normalize_shape a p b :
  Url.urlparse (Some a) = Ok p ->
  is_onion a = false \/ Url.scheme p = "http" \/ Url.scheme p = "httpo"
    \/ Url.scheme p = "https" ->
  normalize is_onion a = Ok b ->
  b = "http://" +:+ Url.netloc p \/ b = "https://" +:+ Url.netloc p.
Proof.
  intros P S. unfold normalize. rewrite init_no_settings.
  unfold _guessBackendType, _setupBaseAddress. rewrite P.
  destruct (is_onion a) eqn:O.
  - simpl. rewrite O. simpl.
    destruct S as [S|[S|[S|S]]]; [discriminate| | |]; rewrite S; simpl;
      (destruct (Str.encode_ascii _) eqn:E; [|discriminate]);
      apply encode_ascii_ok in E; subst; simpl; intros [= <-]; auto.
  - destruct (Str.startswith a "https://") eqn:S1.
    + simpl. destruct (Str.encode_ascii _) eqn:E; [|discriminate].
      apply encode_ascii_ok in E; subst; simpl; intros [= <-]; auto.
    + destruct (Str.startswith a "http://") eqn:S2; [|discriminate].
      simpl. destruct (Str.encode_ascii _) eqn:E; [|discriminate].
      apply encode_ascii_ok in E; subst; simpl; intros [= <-]; auto.
Qed.

Lemma normalize_ascii a b : normalize is_onion a = Ok b -> Str.encode_ascii b = Ok b.
Proof.
  unfold normalize. rewrite init_no_settings.
  destruct (_guessBackendType is_onion (Some a)) as [ty|]; [|discriminate]. simpl.
  unfold _setupBaseAddress.
  destruct (Url.urlparse (Some a)) as [p|]; [|discriminate]. simpl.
  destruct (if Str.eqb ty "onion" then _ else _) as [s|]; [|discriminate].
  simpl. destruct (Str.encode_ascii s) eqn:E; [|discriminate].
  simpl. intros [= <-]. eapply encode_ascii_id; eauto.
Qed.

End WithPattern.

End AddressFacts.

Module AddressSpec.
Import BackendClient StrFacts UrlFacts AddressFacts.

(** C6. Without a type override, classification is a total function of
    the address: an address matching the onion pattern is [onion];
    otherwise one starting with [https://] is [https]; otherwise one
    starting with [http://] is [http]; every other address, and a missing
    one, fails with [InvalidAddress].  Building a client for
    [https://example.org/x], which the onion pattern rejects, gives type
    [https] and base address [https://example.org]. *)
Theorem guessBackendType_classifies (is_onion : string -> bool)
    (Hexample : is_onion "https://example.org/x" = false) :
  _guessBackendType is_onion None = Raise InvalidAddress
  /\ (forall a, is_onion a = true ->
        _guessBackendType is_onion (Some a) = Ok "onion")
  /\ (forall a, is_onion a = false -> Str.startswith a "https://" = true ->
        _guessBackendType is_onion (Some a) = Ok "https")
  /\ (forall a, is_onion a = false -> Str.startswith a "https://" = false ->
        Str.startswith a "http://" = true ->
        _guessBackendType is_onion (Some a) = Ok "http")
  /\ (forall a, is_onion a = false -> Str.startswith a "https://" = false ->
        Str.startswith a "http://" = false ->
        _guessBackendType is_onion (Some a) = Raise InvalidAddress)
  /\ (forall address,
        (exists ty, _guessBackendType is_onion address = Ok ty
                    /\ (ty = "onion" \/ ty = "https" \/ ty = "http"))
        \/ _guessBackendType is_onion address = Raise InvalidAddress)
  /\ __init__ is_onion (Some "https://example.org/x") no_settings
     = Ok {| base_headers := ∅; backend_type := "https";
             base_address := "https://example.org"; front := EmptyString |}.
Proof.
  repeat split.
  - intros a H. simpl. rewrite H. reflexivity.
  - intros a H1 H2. simpl. rewrite H1, H2. reflexivity.
  - intros a H1 H2 H3. simpl. rewrite H1, H2, H3. reflexivity.
  - intros a H1 H2 H3. simpl. rewrite H1, H2, H3. reflexivity.
  - intros [a|]; [|right; reflexivity]. simpl.
    destruct (is_onion a); [left; eauto|].
    destruct (Str.startswith a "https://"); [left; eauto 6|].
    destruct (Str.startswith a "http://"); [left; eauto 6|right; reflexivity].
  - rewrite init_no_settings. unfold _guessBackendType.
    rewrite Hexample. reflexivity.
Qed.

Lemma guessBackendType_classifies_witness :
  Onion.host_pattern "https://example.org/x" = false
  /\ __init__ Onion.host_pattern (Some "https://example.org/x") no_settings
     = Ok {| base_headers := ∅; backend_type := "https";
             base_address := "https://example.org"; front := EmptyString |}.
Proof.
  split; [reflexivity|].
  apply (guessBackendType_classifies Onion.host_pattern). reflexivity.
Defined.




(** Where the address has one of the three schemes, or is no onion
    address, normalisation is idempotent: for
    an address the classification accepts, other than an onion-pattern
    address whose scheme is none of [http], [httpo], [https], classifying
    and normalising the stored base address again gives the same base
    address. *)
Lemma normalize_idempotent (is_onion : string -> bool) (a b : string) (p : Url.parsed) :
  Url.urlparse (Some a) = Ok p ->
  is_onion a = false \/ Url.scheme p = "http" \/ Url.scheme p = "httpo"
    \/ Url.scheme p = "https" ->
  normalize is_onion a = Ok b ->
  normalize is_onion b = Ok b.
Proof.
  intros P S N.
  pose proof (normalize_ascii _ _ _ N) as A.
  pose proof (urlparse_wf _ _ P) as W.
  destruct (normalize_shape _ _ _ _ P S N) as [->| ->].
  - apply normalize_http; assumption.
  - apply normalize_https; assumption.
Qed.

Lemma normalize_idempotent_example :
  normalize Onion.host_pattern "httpo://abcdefghijklmnop.onion"
    = Ok "http://abcdefghijklmnop.onion"
  /\ normalize Onion.host_pattern "http://abcdefghijklmnop.onion"
     = Ok "http://abcdefghijklmnop.onion".
Proof.
  split; [reflexivity|].
  apply (normalize_idempotent Onion.host_pattern "httpo://abcdefghijklmnop.onion"
           "http://abcdefghijklmnop.onion"
           {| Url.scheme := "httpo"; Url.netloc := "abcdefghijklmnop.onion" |});
    [reflexivity | right; right; left; reflexivity | reflexivity].
Qed.

(** C9 at its failing input.  An address of the onion pattern in which
    [urlparse] finds neither a scheme nor a network location, a bare onion
    host name, is accepted by the classification as [onion] and then
    stored as [://]: the host is lost.  Normalising that stored address
    again fails with [InvalidAddress], so normalising twice is not
    normalising once. *)
Theorem normalize_bare_onion_host (is_onion : string -> bool) (a : string) :
  is_onion a = true ->
  Url.urlparse (Some a) = Ok {| Url.scheme := EmptyString; Url.netloc := EmptyString |} ->
  is_onion "://" = false ->
  _guessBackendType is_onion (Some a) = Ok "onion"
  /\ normalize is_onion a = Ok "://"
  /\ normalize is_onion "://" = Raise InvalidAddress.
Proof.
  intros O P O'. split; [|split].
  - unfold _guessBackendType. rewrite O. reflexivity.
  - unfold normalize. rewrite init_no_settings.
    unfold _guessBackendType, _setupBaseAddress. rewrite O, P. simpl. rewrite O.
    reflexivity.
  - unfold normalize. rewrite init_no_settings.
    unfold _guessBackendType. rewrite O'. reflexivity.
Qed.

Lemma normalize_bare_onion_host_witness :
  _guessBackendType Onion.host_pattern (Some "abcdefghijklmnop.onion") = Ok "onion"
  /\ normalize Onion.host_pattern "abcdefghijklmnop.onion" = Ok "://"
  /\ normalize Onion.host_pattern "://" = Raise InvalidAddress.
Proof.
  apply (normalize_bare_onion_host Onion.host_pattern "abcdefghijklmnop.onion");
    reflexivity.
Defined.

End AddressSpec.

(** ** The retrying request *)

Module RequestFacts.
Import Request.

Section WithAgent.

Context {W A : Type}.
Variable agent_request : agent_kind -> string -> string -> string -> W -> outcome * W.
Variable genReceiver : option nat -> response -> W -> result (result A) * W.
Variables (backend_type base_address method urn : string).
Variable retries : nat.

Local Abbreviation run := (perform_request agent_request genReceiver backend_type
                   base_address method urn retries) (only parsing).
Local Abbreviation this_request :=
  (Requested (select_agent backend_type) method base_address urn) (only parsing).

(** One step of the recursion, as the source reads. *)
Lemma perform_request_unfold attempts w :
  run attempts w =
    match agent_request (select_agent backend_type) method base_address urn w with
    | (Responded r, w') =>
        match genReceiver (content_length r) r w' with
        | (Ok fired, w'') => ([this_request; Answered r], (fired, w''))
        | (Raise err, w'') =>
            if lt_dec attempts retries then
              (this_request :: Answered r :: Errored err
                 :: Logged "Lookup failed. Retrying." :: (run (S attempts) w'').1,
               (run (S attempts) w'').2)
            else
              ([this_request; Answered r; Errored err; Logged "Failed. Giving up."],
               (Raise err, w''))
        end
    | (Failed err, w') =>
        if lt_dec attempts retries then
          (this_request :: Errored err :: Logged "Lookup failed. Retrying."
             :: (run (S attempts) w').1,
           (run (S attempts) w').2)
        else
          ([this_request; Errored err; Logged "Failed. Giving up."], (Raise err, w'))
    end.
Proof.
  simp perform_request.
  destruct (agent_request _ _ _ _ w) as [[r|err] w']; simpl.
  - destruct (genReceiver (content_length r) r w') as [[fired|err] w'']; simpl;
      [reflexivity|].
    destruct (lt_dec attempts retries); reflexivity.
  - destruct (lt_dec attempts retries); reflexivity.
Qed.

(** A transport answering the first request hands the response to the
    receiver at once; when the receiver is attached, there is no other
    request. *)
Lemma request_answered w r w' fired w'' :
  agent_request (select_agent backend_type) method base_address urn w = (Responded r, w') ->
  genReceiver (content_length r) r w' = (Ok fired, w'') ->
  _request agent_request genReceiver backend_type base_address method urn retries w
  = ([this_request; Answered r], (fired, w'')).
Proof.
  intros H Hr. unfold _request. rewrite perform_request_unfold, H, Hr. reflexivity.
Qed.

Hypothesis always_fails :
  forall k m b u w, exists err w', agent_request k m b u w = (Failed err, w').

Lemma perform_request_failing n : forall attempts w,
  retries - attempts = n ->
  attempts_made (run attempts w).1 = S n
  /\ length (errors_seen (run attempts w).1) = S n
  /\ (run attempts w).1 = failed_run this_request (errors_seen (run attempts w).1)
  /\ exists err w',
       last (errors_seen (run attempts w).1) = Some err
       /\ (run attempts w).2 = (Raise err, w').
Proof.
  induction n as [|n IH]; intros attempts w Hn; rewrite perform_request_unfold;
    destruct (always_fails (select_agent backend_type) method base_address urn w)
      as (err & w' & ->);
    destruct (lt_dec attempts retries) as [Hlt|Hge]; try lia.
  - repeat split. exists err, w'. split; reflexivity.
  - destruct (IH (S attempts) w' ltac:(lia)) as (Hc & Hlen & Htr & err' & w'' & Hl & Hr).
    cbn [fst snd]. repeat split.
    + unfold attempts_made in *. simpl. rewrite Hc. reflexivity.
    + simpl. rewrite Hlen. reflexivity.
    + simpl. destruct (errors_seen _) eqn:E; [discriminate|].
      rewrite Htr at 1. reflexivity.
    + exists err', w''. split; [|exact Hr].
      simpl. destruct (errors_seen _) eqn:E; [discriminate|].
      rewrite last_cons, Hl. reflexivity.
Qed.

(** The run that never gets an answer ends in a failure. *)
Lemma request_failing_outcome w :
  exists err w',
    (_request agent_request genReceiver backend_type base_address method urn retries w).2
    = (Raise err, w').
Proof.
  unfold _request.
  destruct (perform_request_failing (retries - 0) 0 w eq_refl)
    as (_ & _ & _ & err & w' & _ & H).
  eauto.
Qed.

End WithAgent.

End RequestFacts.

Module RequestSpec.
Import Request RequestFacts.

(** C2, as the code has it.  With [retries = N] and a transport that fails
    every request, [_request] makes exactly [N + 1] requests, the first one
    and [N] retries, one after the other with nothing but the log line in
    between, and [finished] fails with the failure of the last request
    itself. *)
Theorem request_always_failing {W A : Type}
    (agent_request : agent_kind -> string -> string -> string -> W -> outcome * W)
    (genReceiver : option nat -> response -> W -> result (result A) * W)
    (backend_type base_address method urn : string) (retries : nat) (w : W) :
  (forall k m b u w0, exists err w', agent_request k m b u w0 = (Failed err, w')) ->
  let r := _request agent_request genReceiver backend_type base_address method urn retries w in
  attempts_made r.1 = S retries
  /\ length (errors_seen r.1) = S retries
  /\ r.1 = failed_run (Requested (select_agent backend_type) method base_address urn)
                      (errors_seen r.1)
  /\ exists err w', last (errors_seen r.1) = Some err /\ r.2 = (Raise err, w').
Proof.
  intros Hfail r. subst r. unfold _request.
  apply perform_request_failing; [exact Hfail | lia].
Qed.

Lemma request_always_failing_witness :
  let r := _request Sample.failing_agent (fun _ _ n => (Ok (Ok tt), n))
             "https" "https://example.org" "GET" "/input" 3 0 in
  attempts_made r.1 = 4 /\ r.2 = (Raise (NetworkFailure 3), 4).
Proof.
  pose proof (request_always_failing Sample.failing_agent
                (fun _ _ n => (Ok (Ok tt), n)) "https" "https://example.org" "GET" "/input" 3 0
                ltac:(intros k m b u n; exists (NetworkFailure n), (S n); reflexivity)) as H.
  split; [exact (proj1 H) | reflexivity].
Defined.

(** C2, as stated, fails: with a retry limit of one the always failing
    transport is asked twice, and with the default limit of three, four
    times. *)
Lemma request_attempts_counterexample :
  attempts_made (_request Sample.failing_agent (fun _ _ n => (Ok (Ok tt), n))
                   "https" "https://example.org" "GET" "/input" 1 0).1 <> 1
  /\ attempts_made (_request Sample.failing_agent (fun _ _ n => (Ok (Ok tt), n))
                      "https" "https://example.org" "GET" "/input" 1 0).1 = 2
  /\ (_request Sample.failing_agent (fun _ _ n => (Ok (Ok tt), n))
        "https" "https://example.org" "GET" "/input" 1 0).2
     = (Raise (NetworkFailure 1), 2)
  /\ attempts_made (_request Sample.failing_agent (fun _ _ n => (Ok (Ok tt), n))
                      "https" "https://example.org" "GET" "/input" 3 0).1 = 4.
Proof. split; [discriminate|]. repeat split. Qed.

End RequestSpec.

(** ** Decoding responses and creating reports *)

Module QueryFacts.
Import Json Request Query StrFacts.

Lemma dict_update_snoc (d : gmap string Json.t) pairs kv :
  dict_update d (pairs ++ [kv]) = <[ kv.1 := kv.2 ]> (dict_update d pairs).
Proof. unfold dict_update. rewrite fold_left_app. reflexivity. Qed.

(** After [d.update(pairs)] a key named by some pair holds the value of one
    of its pairs. *)
Lemma dict_update_overrides pairs : forall (d : gmap string Json.t) k,
  (exists v, In (k, v) pairs) ->
  exists v, In (k, v) pairs /\ dict_update d pairs !! k = Some v.
Proof.
  induction pairs as [|[k' v'] pairs IH] using rev_ind; intros d k [v Hin].
  - destruct Hin.
  - rewrite dict_update_snoc. simpl.
    destruct (decide (k' = k)) as [->|Hne].
    + exists v'. split; [apply in_or_app; right; left; reflexivity|].
      apply lookup_insert_eq.
    + apply in_app_or in Hin. destruct Hin as [Hin|[Heq|[]]]; [|congruence].
      destruct (IH d k (ex_intro _ v Hin)) as (v0 & Hin0 & Hl).
      exists v0. split; [apply in_or_app; left; exact Hin0|].
      rewrite lookup_insert_ne by exact Hne. exact Hl.
Qed.

(** A key that no pair names keeps its value. *)
Lemma dict_update_untouched pairs : forall (d : gmap string Json.t) k,
  (forall v, ~ In (k, v) pairs) ->
  dict_update d pairs !! k = d !! k.
Proof.
  induction pairs as [|[k' v'] pairs IH] using rev_ind; intros d k Hno.
  - reflexivity.
  - rewrite dict_update_snoc. simpl.
    assert (k' <> k) as Hne.
    { intros ->. apply (Hno v'). apply in_or_app. right. left. reflexivity. }
    rewrite lookup_insert_ne by exact Hne.
    apply IH. intros v Hin. apply (Hno v). apply in_or_app. left. exact Hin.
Qed.

Lemma environ_overrides_spec environ k v :
  In (k, v) (environ_overrides environ) <->
  exists K s, In (K, s) environ /\ Str.startswith K "PROBE_" = true
              /\ Str.lower K = k /\ v = JStr s.
Proof.
  unfold environ_overrides. rewrite in_map_iff. split.
  - intros ([K s] & Heq & Hin). apply filter_In in Hin. destruct Hin as [Hin Hp].
    simpl in *. injection Heq as <- <-. eauto 6.
  - intros (K & s & Hin & Hp & <- & ->). exists (K, s). split; [reflexivity|].
    apply filter_In. split; [exact Hin | exact Hp].
Qed.

Lemma copy_fields_lookup fields : forall td m k,
  copy_fields fields td = Ok m -> In k fields -> m !! k = td !! k.
Proof.
  induction fields as [|f fields IH]; intros td m k H Hin; [destruct Hin|].
  simpl in H. destruct (td !! f) as [v|] eqn:Ef; [|discriminate].
  destruct (copy_fields fields td) as [m0|] eqn:E0; [|discriminate].
  simpl in H. injection H as <-.
  destruct (decide (f = k)) as [->|Hne].
  - rewrite lookup_insert_eq. congruence.
  - rewrite lookup_insert_ne by exact Hne. destruct Hin as [?|Hin]; [congruence|].
    eapply IH; eauto.
Qed.

Lemma result_unwrap {A} (r : result A) (d : A) :
  is_ok r = true -> r = Ok (match r with Ok a => a | Raise _ => d end).
Proof. destruct r; [reflexivity|discriminate]. Qed.

Lemma fixture_report_request :
  createReport_request Fixture.test_details Fixture.environ = Ok Fixture.report_request.
Proof. apply result_unwrap. vm_compute. reflexivity. Qed.

End QueryFacts.

Module QuerySpec.
Import Json Request Query StrFacts QueryFacts RequestFacts.

(** C4.  Whatever the status of the response the transport hands to
    [queryBackend]: an empty body makes the query succeed with no value;
    a non-empty body that decodes to an object with an [error] key makes it
    fail with the error [get_error] maps that key's value to; a non-empty
    body that does not decode makes it fail with the error [get_error]
    gives for no key at all, the malformed-response failure. *)
Theorem queryBackend_response {W : Type}
    (agent_request : agent_kind -> string -> string -> string -> W -> outcome * W)
    (json_loads : string -> option Json.t) (get_error : Json.t -> exn)
    (backend_type base_address method urn : string) (query : option Json.t)
    (retries : nat) (w w' : W) (r : response) :
  agent_request (select_agent backend_type) method base_address urn w = (Responded r, w') ->
  let finished :=
    (queryBackend agent_request json_loads get_error backend_type base_address
                  method urn query retries w).2.1 in
  (body r = EmptyString -> finished = Ok JNull)
  /\ (forall m v, body r <> EmptyString -> json_loads (body r) = Some (JObj m) ->
        m !! "error" = Some v -> finished = Raise (get_error v))
  /\ (body r <> EmptyString -> json_loads (body r) = None ->
        finished = Raise (get_error JNull)).
Proof.
  intros Hreq finished. subst finished. unfold queryBackend.
  rewrite (request_answered _ _ _ _ _ _ _ _ _ _ _ _ Hreq eq_refl).
  unfold query_receiver, process_response. cbn [fst snd].
  split; [|split].
  - intros ->. reflexivity.
  - intros m v Hne Hl He. apply eqb_false in Hne. rewrite Hne, Hl. simpl.
    rewrite bool_decide_eq_true_2 by (rewrite He; eauto).
    simpl. rewrite He. reflexivity.
  - intros Hne Hl. apply eqb_false in Hne. rewrite Hne, Hl. reflexivity.
Qed.

Lemma queryBackend_response_witness :
  (queryBackend
     (Sample.answering_agent
        {| status := 200; content_length := None; body := error_document |})
     sample_loads Sample.get_error "https" "https://example.org"
     "GET" "/input" None 3 0).2.1
  = Raise (BackendError "invalid-request").
Proof.
  refine (proj1 (proj2 (queryBackend_response
           (Sample.answering_agent
              {| status := 200; content_length := None; body := error_document |})
           sample_loads Sample.get_error "https" "https://example.org"
           "GET" "/input" None 3 0 1
           {| status := 200; content_length := None; body := error_document |}
           eq_refl))
         {[ "error" := JStr "invalid-request" ]} (JStr "invalid-request") _ _ _).
  - discriminate.
  - reflexivity.
  - reflexivity.
Defined.

(** C10.  [createReport] builds the fixed fields first and then merges
    the environment variables whose names start with [PROBE_] under their
    lower-cased names: a key that some such variable lower-cases to ends up
    with the value of one of these variables, also when [test_details]
    supplied a value for it, and a fixed field that no such variable names
    keeps the value from [test_details]. *)
Theorem createReport_environment_wins (test_details : gmap string Json.t)
    (environ : list (string * string)) (request : gmap string Json.t) (k : string) :
  createReport_request test_details environ = Ok request ->
  ((exists K s, In (K, s) environ /\ Str.startswith K "PROBE_" = true
                /\ Str.lower K = k) ->
   exists K s, In (K, s) environ /\ Str.startswith K "PROBE_" = true
               /\ Str.lower K = k /\ request !! k = Some (JStr s))
  /\ ((forall K s, In (K, s) environ -> Str.startswith K "PROBE_" = true ->
         Str.lower K <> k) ->
      In k report_fields -> request !! k = test_details !! k).
Proof.
  unfold createReport_request. intros H.
  destruct (copy_fields report_fields test_details) as [fixed|] eqn:Hc; [|discriminate].
  simpl in H. injection H as <-. split.
  - intros (K & s & Hin & Hp & Hk).
    destruct (dict_update_overrides (environ_overrides environ)
                (<[ "format" := JStr "json" ]> fixed) k) as (v & Hv & Hl).
    { exists (JStr s). apply environ_overrides_spec. eauto 6. }
    apply environ_overrides_spec in Hv.
    destruct Hv as (K' & s' & Hin' & Hp' & Hk' & ->). eauto 8.
  - intros Hno Hin. rewrite dict_update_untouched.
    + rewrite lookup_insert_ne.
      * eapply copy_fields_lookup; eauto.
      * intros <-. simpl in Hin. intuition discriminate.
    + intros v Hv. apply environ_overrides_spec in Hv.
      destruct Hv as (K & s & HinK & Hp & Hk & _). exact (Hno K s HinK Hp Hk).
Qed.

Lemma createReport_environment_wins_witness :
  Query.createReport_request Fixture.test_details Fixture.environ
    = Ok Fixture.report_request
  /\ Fixture.test_details !! "probe_cc" = Some (JStr "IT")
  /\ Fixture.report_request !! "probe_cc" = Some (JStr "ZZ")
  /\ exists K s, In (K, s) Fixture.environ /\ Str.startswith K "PROBE_" = true
                 /\ Str.lower K = "probe_cc"
                 /\ Fixture.report_request !! "probe_cc" = Some (JStr s).
Proof.
  split; [exact fixture_report_request|].
  split; [vm_compute; reflexivity|].
  split; [vm_compute; reflexivity|].
  apply (createReport_environment_wins Fixture.test_details Fixture.environ
           Fixture.report_request "probe_cc").
  - exact fixture_report_request.
  - exists "PROBE_CC", "ZZ". split; [right; left; reflexivity|].
    split; reflexivity.
Defined.

End QuerySpec.

(** ** The input cache *)

Module CacheFacts.
Import Json Cache StrFacts.

Lemma after_last_none s : Str.contains "/" s = false -> Str.after_last "/" s = s.
Proof.
  destruct s as [|d r]; [reflexivity|]. cbn [Str.contains Str.after_last].
  destruct (Ascii.eqb "/" d); [intros [=]|]. intros ->. reflexivity.
Qed.

Lemma contains_app_slash x s : Str.contains "/" (x +:+ String "/" s) = true.
Proof.
  induction x as [|d x IH]; [reflexivity|].
  change (String d x +:+ String "/" s) with (String d (x +:+ String "/" s)).
  cbn [Str.contains]. destruct (Ascii.eqb "/" d); [reflexivity|exact IH].
Qed.

Lemma after_last_app_slash x s :
  Str.after_last "/" (x +:+ String "/" s) = Str.after_last "/" s.
Proof.
  induction x as [|d x IH]; [reflexivity|].
  change (String d x +:+ String "/" s) with (String d (x +:+ String "/" s)).
  cbn [Str.after_last]. rewrite contains_app_slash, IH.
  destruct (Ascii.eqb "/" d); reflexivity.
Qed.

Lemma take_drop n : forall s, Str.take n s +:+ Str.drop n s = s.
Proof.
  induction n as [|n IH]; intros [|c s]; try reflexivity.
  simpl. change (String c (Str.take n s) +:+ Str.drop n s)
    with (String c (Str.take n s +:+ Str.drop n s)). rewrite IH. reflexivity.
Qed.

Lemma endswith_slash a : Str.endswith a "/" = true -> exists a', a = a' +:+ "/".
Proof.
  unfold Str.endswith. intros H. apply eqb_true in H.
  exists (Str.take (String.length a - String.length "/") a).
  pose proof (take_drop (String.length a - String.length "/") a) as E.
  rewrite H in E. symmetry. exact E.
Qed.

Lemma append_empty_l s : EmptyString +:+ s = s.
Proof. reflexivity. Qed.

Lemma append_assoc a b c : (a +:+ b) +:+ c = a +:+ (b +:+ c).
Proof.
  induction a as [|d a IH]; [reflexivity|].
  change ((String d a +:+ b) +:+ c) with (String d ((a +:+ b) +:+ c)).
  rewrite IH. reflexivity.
Qed.

(** The payload of a slash-free name is stored under that very name. *)
Lemma basename_path_join base h :
  Str.contains "/" h = false -> basename (path_join base h) = h.
Proof.
  intros Hh. unfold basename, path_join.
  assert (Str.startswith h "/" = false) as ->.
  { unfold Str.startswith. destruct h as [|d r]; [reflexivity|].
    cbn [String.prefix]. destruct (ascii_dec "/" d) as [<-|]; [discriminate|reflexivity]. }
  destruct (Str.eqb base EmptyString) eqn:Eb.
  - apply eqb_true in Eb. subst base. simpl. apply after_last_none, Hh.
  - simpl. destruct (Str.endswith base "/") eqn:Ee.
    + destruct (endswith_slash _ Ee) as [a' ->].
      rewrite append_assoc. change ("/" +:+ h) with (String "/" h).
      rewrite after_last_app_slash. apply after_last_none, Hh.
    + change ("/" +:+ h) with (String "/" h).
      rewrite after_last_app_slash. apply after_last_none, Hh.
Qed.

Lemma hex_digit_no_slash n : Ascii.eqb "/" (SHA256.hex_digit n) = false.
Proof.
  destruct n as [|p]; [reflexivity|].
  do 5 (try (destruct p as [p|p|]; try reflexivity)).
Qed.

Lemma contains_append c a b :
  Str.contains c (a +:+ b) = Str.contains c a || Str.contains c b.
Proof.
  induction a as [|d a IH]; [reflexivity|].
  change (String d a +:+ b) with (String d (a +:+ b)). cbn [Str.contains].
  destruct (Ascii.eqb c d); [reflexivity|exact IH].
Qed.

Lemma hex_of_word_no_slash w : Str.contains "/" (SHA256.hex_of_word w) = false.
Proof.
  unfold SHA256.hex_of_word. cbn [fold_right Str.contains].
  rewrite !hex_digit_no_slash. reflexivity.
Qed.

(** A digest is made of hexadecimal digits: it never holds a path
    separator. *)
Lemma hexdigest_no_slash data : Str.contains "/" (SHA256.hexdigest data) = false.
Proof.
  unfold SHA256.hexdigest. generalize (SHA256.digest_words data) as ws.
  induction ws as [|w ws IH]; [reflexivity|].
  cbn [SHA256.hex_of_words]. rewrite contains_append, hex_of_word_no_slash, IH. reflexivity.
Qed.

(** [fileCached] answers [True] exactly for a payload file whose digest is
    the base name of its path. *)
Lemma fileCached_true_iff fs f :
  fileCached fs f = Ok true <->
  exists contents, fs !! cached_file f = Some (File contents)
                   /\ SHA256.hexdigest contents = basename (cached_file f).
Proof.
  unfold fileCached, path_exists, verify, read_file.
  destruct (fs !! cached_file f) as [[c|]|] eqn:E.
  - rewrite bool_decide_eq_true_2 by eauto. simpl.
    destruct (Str.eqb (SHA256.hexdigest c) (basename (cached_file f))) eqn:Eq.
    + apply eqb_true in Eq. split; [eauto|reflexivity].
    + apply eqb_false in Eq. split; [discriminate|].
      intros (c' & [= <-] & Hc). contradiction.
  - rewrite bool_decide_eq_true_2 by eauto. simpl.
    split; [discriminate|]. intros (c' & [=] & _).
  - rewrite bool_decide_eq_false_2 by (intros [x Hx]; discriminate).
    split; [discriminate|]. intros (c' & [=] & _).
Qed.

Lemma fileCached_false_of_mismatch fs f contents :
  fs !! cached_file f = Some (File contents) ->
  SHA256.hexdigest contents <> basename (cached_file f) ->
  fileCached fs f = Ok false.
Proof.
  intros E Hne. unfold fileCached, path_exists, verify, read_file. rewrite E.
  rewrite bool_decide_eq_true_2 by eauto. simpl.
  apply eqb_false in Hne. rewrite Hne. reflexivity.
Qed.

Lemma fileCached_false_of_missing fs f :
  fs !! cached_file f = None -> fileCached fs f = Ok false.
Proof.
  intros E. unfold fileCached, path_exists. rewrite E.
  rewrite bool_decide_eq_false_2 by (intros [x Hx]; discriminate). reflexivity.
Qed.

(** After [B'] has been stored under [H], [fileCached] says whether the
    digest of [B'] is [H]. *)
Lemma fileCached_after_write fs base H B' :
  Str.contains "/" H = false ->
  fileCached (write_payload fs base H B') (InputFile_new H base)
  = Ok (Str.eqb (SHA256.hexdigest B') H).
Proof.
  intros Hh. pose proof (basename_path_join base H Hh) as Hb.
  destruct (Str.eqb (SHA256.hexdigest B') H) eqn:E.
  - apply eqb_true in E. apply fileCached_true_iff. exists B'. simpl. rewrite Hb.
    split; [apply lookup_insert_eq | exact E].
  - apply eqb_false in E. apply fileCached_false_of_mismatch with (contents := B').
    + apply lookup_insert_eq.
    + simpl. rewrite Hb. exact E.
Qed.

Lemma fileCached_iff_of_id fs base H :
  Str.contains "/" H = false ->
  fileCached fs (InputFile_new H base) = Ok true <->
  exists contents,
    fs !! cached_file (InputFile_new H base) = Some (File contents)
    /\ SHA256.hexdigest contents = H.
Proof.
  intros Hh. pose proof (basename_path_join base H Hh) as Hb.
  rewrite fileCached_true_iff. simpl. rewrite Hb. reflexivity.
Qed.

Lemma path_exists_after_write fs base H B' :
  path_exists (write_payload fs base H B') (cached_file (InputFile_new H base)) = true.
Proof.
  unfold path_exists, write_payload. simpl. rewrite lookup_insert_eq.
  apply bool_decide_eq_true_2. eauto.
Qed.

Lemma fileCached_after_write_same fs base H B' :
  Str.contains "/" H = false -> SHA256.hexdigest B' = H ->
  fileCached (write_payload fs base H B') (InputFile_new H base) = Ok true.
Proof.
  intros Hh E. rewrite (fileCached_after_write fs base H B' Hh).
  apply eqb_true in E. rewrite E. reflexivity.
Qed.

Lemma fileCached_after_write_other fs base H B' :
  Str.contains "/" H = false -> SHA256.hexdigest B' <> H ->
  fileCached (write_payload fs base H B') (InputFile_new H base) = Ok false.
Proof.
  intros Hh E. rewrite (fileCached_after_write fs base H B' Hh).
  apply eqb_false in E. rewrite E. reflexivity.
Qed.

Lemma all_distinct_inj {X : Type} (f : X -> string) (l : list X) :
  Str.all_distinct (map f l) = true ->
  forall x y, In x l -> In y l -> f x = f y -> x = y.
Proof.
  induction l as [|a r IH]; intros Hd x y Hx Hy Hf; [destruct Hx|].
  cbn [map Str.all_distinct] in Hd. apply andb_prop in Hd as [Ha Hr].
  apply negb_true_iff in Ha.
  assert (Hnot : forall z, In z r -> f a <> f z).
  { intros z Hz E. rewrite <- not_true_iff_false in Ha. apply Ha.
    apply existsb_exists. exists (f z). split; [apply in_map, Hz|].
    apply String.eqb_eq. exact E. }
  destruct Hx as [<-|Hx], Hy as [<-|Hy].
  - reflexivity.
  - exfalso. exact (Hnot y Hy Hf).
  - exfalso. exact (Hnot x Hx (eq_sym Hf)).
  - exact (IH Hr x y Hx Hy Hf).
Qed.

(** The digests of the 256 payloads of one byte, computed: no two are the
    same. *)
Lemma one_byte_digests_distinct :
  Str.all_distinct (map SHA256.hexdigest Sample.one_byte_payloads) = true.
Proof. vm_compute. reflexivity. Qed.

Lemma one_byte_payload_listed c : In (String c EmptyString) Sample.one_byte_payloads.
Proof.
  unfold Sample.one_byte_payloads. apply in_map_iff. exists (nat_of_ascii c).
  split; [rewrite ascii_nat_embedding; reflexivity|].
  apply in_seq. pose proof (nat_ascii_bounded c). lia.
Qed.

Lemma one_byte_digest_inj c c' :
  SHA256.hexdigest (String c EmptyString) = SHA256.hexdigest (String c' EmptyString) ->
  c = c'.
Proof.
  intros E.
  pose proof (all_distinct_inj SHA256.hexdigest Sample.one_byte_payloads
                one_byte_digests_distinct _ _ (one_byte_payload_listed c)
                (one_byte_payload_listed c') E) as H.
  injection H as ->. reflexivity.
Qed.

End CacheFacts.

Module CacheSpec.
Import Json Cache StrFacts CacheFacts.

(** C5.  The id of a cached resource is the SHA-256 hex digest [H] of a
    payload [B].  For such an id, [fileCached] is [True] exactly when the
    payload file exists and the digest of its contents is [H]; storing [B]
    under [H] makes it [True]; and once the stored file has been changed
    into [B'], [fileCached] answers whether [B'] still has the digest [H]:
    it is [False], with the file in place, for every change that changes
    the digest.  For a payload of one byte that is every change of its
    byte: the 256 digests are computed and differ. *)
Theorem fileCached_iff_digest (fs : gmap string node) (base B : string) :
  (fileCached fs (InputFile_new (SHA256.hexdigest B) base) = Ok true <->
   exists contents,
     fs !! cached_file (InputFile_new (SHA256.hexdigest B) base) = Some (File contents)
     /\ SHA256.hexdigest contents = SHA256.hexdigest B)
  /\ fileCached (write_payload fs base (SHA256.hexdigest B) B)
                (InputFile_new (SHA256.hexdigest B) base) = Ok true
  /\ (forall B',
        fileCached
          (write_payload (write_payload fs base (SHA256.hexdigest B) B)
             base (SHA256.hexdigest B) B')
          (InputFile_new (SHA256.hexdigest B) base)
        = Ok (Str.eqb (SHA256.hexdigest B') (SHA256.hexdigest B))
        /\ path_exists
             (write_payload (write_payload fs base (SHA256.hexdigest B) B)
                base (SHA256.hexdigest B) B')
             (cached_file (InputFile_new (SHA256.hexdigest B) base)) = true)
  /\ (forall n c, SHA256.hexdigest (Str.replace_byte n c B) <> SHA256.hexdigest B ->
        fileCached
          (write_payload (write_payload fs base (SHA256.hexdigest B) B)
             base (SHA256.hexdigest B) (Str.replace_byte n c B))
          (InputFile_new (SHA256.hexdigest B) base) = Ok false)
  /\ (forall b c, B = String b EmptyString -> c <> b ->
        fileCached
          (write_payload (write_payload fs base (SHA256.hexdigest B) B)
             base (SHA256.hexdigest B) (Str.replace_byte 0 c B))
          (InputFile_new (SHA256.hexdigest B) base) = Ok false).
Proof.
  pose proof (hexdigest_no_slash B) as Hh.
  split; [|split; [|split; [|split]]].
  - exact (fileCached_iff_of_id fs base _ Hh).
  - exact (fileCached_after_write_same fs base _ B Hh eq_refl).
  - intros B'. split.
    + exact (fileCached_after_write _ base _ B' Hh).
    + exact (path_exists_after_write _ base _ B').
  - intros n c Hne. exact (fileCached_after_write_other _ base _ _ Hh Hne).
  - intros b c -> Hne. apply fileCached_after_write_other; [exact Hh|].
    intros E. apply Hne. exact (one_byte_digest_inj _ _ E).
Qed.

(** The payload [abc] and the change of its last byte into [d]. *)
Lemma fileCached_iff_digest_witness :
  fileCached (write_payload ∅ "/var/cache" (SHA256.hexdigest "abc") "abc")
             (InputFile_new (SHA256.hexdigest "abc") "/var/cache") = Ok true
  /\ fileCached
       (write_payload (write_payload ∅ "/var/cache" (SHA256.hexdigest "abc") "abc")
          "/var/cache" (SHA256.hexdigest "abc") (Str.replace_byte 2 "d" "abc"))
       (InputFile_new (SHA256.hexdigest "abc") "/var/cache") = Ok false.
Proof.
  pose proof (fileCached_iff_digest ∅ "/var/cache" "abc") as (_ & Hw & _ & Hm & _).
  split; [exact Hw|].
  apply (Hm 2 "d"%char).
  vm_compute. discriminate.
Defined.

(** An id with a path separator, which no digest is, is not compared with
    the digest as a whole: [verify] takes the base name of the payload
    path, so a payload stored under [sub/H], [H] being its digest, counts
    as cached. *)
Lemma fileCached_id_with_separator :
  let id := "sub/" +:+ Sample.empty_digest in
  let fs : gmap string node :=
    {[ "/var/cache/sub/" +:+ Sample.empty_digest := File EmptyString ]} in
  cached_file (InputFile_new id "/var/cache") = "/var/cache/sub/" +:+ Sample.empty_digest
  /\ fileCached fs (InputFile_new id "/var/cache") = Ok true
  /\ SHA256.hexdigest EmptyString <> id.
Proof.
  cbv zeta. split; [vm_compute; reflexivity|].
  split; [vm_compute; reflexivity|]. vm_compute. discriminate.
Qed.

(** C8 at its failing input.  A descriptor file that exists and does not
    decode makes [descriptorCached] raise the decoder's [ValueError]; it
    does not answer [False]. *)
Theorem descriptorCached_undecodable (json_loads : string -> option Json.t)
    (fs : gmap string node) (f : InputFile) (contents : string) :
  fs !! cached_descriptor f = Some (File contents) ->
  json_loads contents = None ->
  descriptorCached json_loads fs f = Raise ValueError.
Proof.
  intros E Hl. unfold descriptorCached, path_exists, read_file. rewrite E.
  rewrite bool_decide_eq_true_2 by eauto. simpl. rewrite Hl. reflexivity.
Qed.

Lemma descriptorCached_undecodable_witness :
  descriptorCached sample_loads
    {[ "/var/cache/" +:+ Sample.empty_digest +:+ ".desc" := File "not json" ]}
    (InputFile_new Sample.empty_digest "/var/cache") = Raise ValueError.
Proof.
  apply (descriptorCached_undecodable sample_loads _ _ "not json"); reflexivity.
Defined.

End CacheSpec.

(** ** Fetching inputs and looking up collectors *)

Module DeckFacts.
Import Json Request Cache Deck StrFacts CacheFacts RequestFacts.

(** [find_collector_and_test_helpers] answers with the first assignment
    that has the name, the version and exactly the set of input hashes
    asked for. *)
Lemma find_Some provided name version hashes c th :
  find_collector_and_test_helpers provided name version hashes = Some (c, th) ->
  exists net_test,
    In net_test provided
    /\ p_name net_test = name /\ p_version net_test = version
    /\ (list_to_set (p_input_hashes net_test) : gset string) = list_to_set hashes
    /\ c = p_collector net_test /\ th = p_test_helpers net_test.
Proof.
  induction provided as [|nt rest IH]; [discriminate|]. simpl.
  destruct (Str.eqb (p_name nt) name) eqn:En; simpl;
    [|intros H; destruct (IH H) as (x & ? & ?); exists x; split; [right|]; assumption].
  destruct (Str.eqb (p_version nt) version) eqn:Ev; simpl;
    [|intros H; destruct (IH H) as (x & ? & ?); exists x; split; [right|]; assumption].
  destruct (bool_decide _) eqn:Es; simpl;
    [|intros H; destruct (IH H) as (x & ? & ?); exists x; split; [right|]; assumption].
  intros [= <- <-]. exists nt.
  apply eqb_true in En, Ev. apply bool_decide_eq_true in Es.
  repeat split; try assumption. left; reflexivity.
Qed.

Lemma find_None provided name version hashes :
  find_collector_and_test_helpers provided name version hashes = None <->
  forall net_test, In net_test provided ->
    ~ (p_name net_test = name /\ p_version net_test = version
       /\ (list_to_set (p_input_hashes net_test) : gset string) = list_to_set hashes).
Proof.
  induction provided as [|nt rest IH]; simpl.
  - split; [intros _ x []|reflexivity].
  - destruct (Str.eqb (p_name nt) name) eqn:En; simpl.
    2:{ apply eqb_false in En. rewrite IH. split.
        - intros H x [<-|Hx]; [intros (? & _); contradiction|auto].
        - intros H x Hx. apply H. right. exact Hx. }
    destruct (Str.eqb (p_version nt) version) eqn:Ev; simpl.
    2:{ apply eqb_false in Ev. rewrite IH. split.
        - intros H x [<-|Hx]; [intros (_ & ? & _); contradiction|auto].
        - intros H x Hx. apply H. right. exact Hx. }
    destruct (bool_decide _) eqn:Es; simpl.
    2:{ apply bool_decide_eq_false in Es. rewrite IH. split.
        - intros H x [<-|Hx]; [intros (_ & _ & ?); contradiction|auto].
        - intros H x Hx. apply H. right. exact Hx. }
    apply eqb_true in En, Ev. apply bool_decide_eq_true in Es.
    split; [discriminate|]. intros H. exfalso. apply (H nt); auto.
Qed.

Section WithNetwork.

Context {Net : Type}.
Variable agent_request : agent_kind -> string -> string -> string -> Net -> outcome * Net.
Variables (inputs_directory backend_type base_address : string).

(** What [downloadInput] hands back for an input that is not cached when
    the download fails: a deferred fired with [None]. *)
Lemma downloadInput_failed_download h w :
  fileCached (w_fs w) (InputFile_new h inputs_directory) = Ok false ->
  (forall k m b u n, exists err n', agent_request k m b u n = (Failed err, n')) ->
  (downloadInput agent_request inputs_directory backend_type base_address h w).2.1
  = Ok (Ok None).
Proof.
  intros Hc Hfail. unfold downloadInput. rewrite Hc. cbn [fst snd].
  unfold Query.download.
  destruct (request_failing_outcome
              (agent_request_world agent_request)
              (Downloader (cached_file (InputFile_new h inputs_directory)))
              backend_type base_address "GET" ("/input/" +:+ h +:+ "/file") 3)
    with (w := w) as (err & w' & Hr).
  { intros k m b u w0. unfold agent_request_world.
    destruct (Hfail k m b u (w_net w0)) as (err & n' & ->). simpl. eauto. }
  rewrite Hr. reflexivity.
Qed.

(** The same when the download succeeds and the payload does not have the
    digest it is stored under. *)
Lemma downloadInput_wrong_digest h w r n' :
  fileCached (w_fs w) (InputFile_new h inputs_directory) = Ok false ->
  agent_request (select_agent backend_type) "GET" base_address
                ("/input/" +:+ h +:+ "/file") (w_net w) = (Responded r, n') ->
  SHA256.hexdigest (body r) <> basename (cached_file (InputFile_new h inputs_directory)) ->
  (downloadInput agent_request inputs_directory backend_type base_address h w).2.1
  = Ok (Ok None).
Proof.
  intros Hc Hreq Hne. unfold downloadInput. rewrite Hc. cbn [fst snd].
  unfold Query.download.
  rewrite (fun H => request_answered (agent_request_world agent_request) _ _ _ _ _ _ w r
                      {| w_fs := w_fs w; w_net := n' |} _ _ H eq_refl).
  2:{ unfold agent_request_world. rewrite Hreq. reflexivity. }
  cbn [fst snd Downloader w_fs]. unfold addCallback, addErrback, verify, read_file.
  rewrite lookup_insert_eq. unfold mbind, result_bind, Py.bind.
  apply eqb_false in Hne. rewrite Hne. reflexivity.
Qed.

Lemma fetch_inputs_none i rest w :
  truthy_str (i_url i) = true ->
  (downloadInput agent_request inputs_directory backend_type base_address (i_hash i) w).2.1
  = Ok (Ok None) ->
  (fetch_inputs agent_request inputs_directory backend_type base_address (i :: rest) w).2.1
  = Raise AttributeError.
Proof.
  intros Hu Hd. cbn [fetch_inputs]. rewrite Hu. cbv zeta. rewrite Hd. reflexivity.
Qed.

End WithNetwork.

End DeckFacts.

Module DeckSpec.
Import Json Request Cache Deck StrFacts CacheFacts RequestFacts DeckFacts.

(** C1 at its failing input.  An assignment is taken for a test exactly
    when its name, its version and its set of input hashes are those of the
    test.  When the bouncer is asked and no assignment matches the first
    test, [lookupCollector] leaves every loader as it was and ends in the
    [TypeError] of unpacking [None]; it does not complete. *)
Theorem lookupCollector_unmatched_raises
    (lookupTestCollector : list required_net_test -> result (list provided_net_test))
    (no_collector : bool) (l : NetTestLoader) (rest : list NetTestLoader)
    (provided : list provided_net_test) :
  requires_test_helpers (l :: rest) || requires_collector no_collector (l :: rest) = true ->
  lookupTestCollector (map required_of (l :: rest)) = Ok provided ->
  (forall net_test, In net_test provided ->
     ~ (p_name net_test = testName l /\ p_version net_test = testVersion l
        /\ (list_to_set (p_input_hashes net_test) : gset string)
           = list_to_set (map i_hash (inputFiles l)))) ->
  (forall net_test,
     is_Some (find_collector_and_test_helpers [net_test] (testName l) (testVersion l)
                (map i_hash (inputFiles l)))
     <-> p_name net_test = testName l /\ p_version net_test = testVersion l
         /\ (list_to_set (p_input_hashes net_test) : gset string)
            = list_to_set (map i_hash (inputFiles l)))
  /\ lookupCollector lookupTestCollector no_collector (l :: rest)
     = (true, (l :: rest, Raise TypeError)).
Proof.
  intros Hreq Hresp Hnone. split.
  - intros nt. split.
    + intros [[c th] H]. apply find_Some in H.
      destruct H as (x & [<-|[]] & Hn & Hv & Hs & _). auto.
    + intros H.
      destruct (find_collector_and_test_helpers [nt] _ _ _) as [x|] eqn:E; [eauto|].
      exfalso. rewrite find_None in E. apply (E nt); [left; reflexivity|exact H].
  - unfold lookupCollector.
    assert (negb (requires_test_helpers (l :: rest))
            && negb (requires_collector no_collector (l :: rest)) = false) as ->.
    { destruct (requires_test_helpers _), (requires_collector _ _);
        simpl in *; congruence. }
    rewrite Hresp. cbn [assign_collectors].
    apply find_None in Hnone. rewrite Hnone. reflexivity.
Qed.

Lemma lookupCollector_unmatched_raises_witness :
  lookupCollector
    (fun _ => Ok [Fixture.assignment ["a"]; Fixture.assignment ["a"; "b"; "c"]])
    false [Fixture.test_x]
  = (true, ([Fixture.test_x], Raise TypeError)).
Proof.
  apply (lookupCollector_unmatched_raises
           (fun _ => Ok [Fixture.assignment ["a"]; Fixture.assignment ["a"; "b"; "c"]])
           false Fixture.test_x []
           [Fixture.assignment ["a"]; Fixture.assignment ["a"; "b"; "c"]]).
  - reflexivity.
  - reflexivity.
  - intros nt [<-|[<-|[]]] (_ & _ & H);
      apply (f_equal (fun s : gset string => bool_decide (s = list_to_set ["a"; "b"]))) in H;
      vm_compute in H; discriminate H.
Defined.

(** C3 at its failing input.  For a test whose first input has a URL and
    is not payload-cached: when the transport fails every request, or when
    it delivers a payload whose digest is not the one the input is stored
    under, [fetchAndVerifyNetTestInput] ends in an [AttributeError], and so
    does [setup]; the failure is not [UnableToLoadDeckInput]. *)
Theorem fetch_failure_raises_AttributeError {Net : Type}
    (agent_request : agent_kind -> string -> string -> string -> Net -> outcome * Net)
    (inputs_directory backend_type base_address : string)
    (l : NetTestLoader) (i : input_entry) (rest : list input_entry) (w : world Net) :
  inputFiles l = i :: rest ->
  truthy_str (i_url i) = true ->
  fileCached (w_fs w) (InputFile_new (i_hash i) inputs_directory) = Ok false ->
  (forall k m b u n, exists err n', agent_request k m b u n = (Failed err, n'))
  \/ (exists r n',
        agent_request (select_agent backend_type) "GET" base_address
                      ("/input/" +:+ i_hash i +:+ "/file") (w_net w) = (Responded r, n')
        /\ SHA256.hexdigest (body r)
           <> basename (cached_file (InputFile_new (i_hash i) inputs_directory))) ->
  (fetchAndVerifyNetTestInput agent_request inputs_directory backend_type base_address l w).2.1
  = Raise AttributeError
  /\ forall lookup bouncer no_collector loaders,
       (setup agent_request inputs_directory backend_type base_address lookup
              bouncer no_collector (l :: loaders) w).1.2
       = Raise AttributeError.
Proof.
  intros Hin Hurl Hc Hnet.
  assert (Hd : (downloadInput agent_request inputs_directory backend_type base_address
                  (i_hash i) w).2.1 = Ok (Ok None)).
  { destruct Hnet as [Hfail|(r & n' & Hreq & Hne)].
    - apply downloadInput_failed_download; assumption.
    - eapply downloadInput_wrong_digest; eassumption. }
  assert (Hf : (fetchAndVerifyNetTestInput agent_request inputs_directory backend_type
                  base_address l w).2.1 = Raise AttributeError).
  { unfold fetchAndVerifyNetTestInput. rewrite Hin. cbn [fst snd].
    rewrite (fetch_inputs_none agent_request _ _ _ i rest w Hurl Hd). reflexivity. }
  split; [exact Hf|].
  intros lookup bouncer no_collector loaders.
  unfold setup. cbn [fetch_all]. cbv zeta. rewrite Hf. reflexivity.
Qed.

Lemma fetch_failure_raises_AttributeError_witness :
  (fetchAndVerifyNetTestInput Sample.failing_agent "/var/cache" "onion"
     "http://abcdefghijklmnop.onion" Fixture.test_with_remote_input
     {| w_fs := ∅; w_net := 0 |}).2.1
  = Raise AttributeError.
Proof.
  apply (fetch_failure_raises_AttributeError Sample.failing_agent "/var/cache" "onion"
           "http://abcdefghijklmnop.onion" Fixture.test_with_remote_input
           Fixture.remote_input [] {| w_fs := ∅; w_net := 0 |}).
  - reflexivity.
  - reflexivity.
  - vm_compute. reflexivity.
  - left. intros k m b u n. exists (NetworkFailure n), (S n). reflexivity.
Defined.

End DeckSpec.

Module DeckExamples.
Import Json Request Cache Deck StrFacts DeckFacts.

(** Matching is exact on the set of input hashes: for a test over
    [{a, b}] an assignment over [{a, b}] is taken, in any order and with
    repetitions, and one over [{a}] or [{a, b, c}] is not. *)
Lemma matching_exactness :
  find_collector_and_test_helpers [Fixture.assignment ["a"; "b"]] "x" "1" ["a"; "b"]
    = Some ("httpo://abcdefghijklmnop.onion", ∅)
  /\ find_collector_and_test_helpers [Fixture.assignment ["b"; "a"; "a"]] "x" "1" ["a"; "b"]
    = Some ("httpo://abcdefghijklmnop.onion", ∅)
  /\ find_collector_and_test_helpers [Fixture.assignment ["a"]] "x" "1" ["a"; "b"] = None
  /\ find_collector_and_test_helpers [Fixture.assignment ["a"; "b"; "c"]] "x" "1" ["a"; "b"]
    = None
  /\ find_collector_and_test_helpers [Fixture.assignment ["a"; "b"]] "x" "2" ["a"; "b"] = None
  /\ find_collector_and_test_helpers [Fixture.assignment ["a"; "b"]] "y" "1" ["a"; "b"] = None.
Proof. repeat split; vm_compute; reflexivity. Qed.

(** A deck whose tests all have a collector and miss no helper is resolved
    without asking the bouncer. *)
Lemma lookupCollector_no_request lookup (loaders : list NetTestLoader) :
  requires_test_helpers loaders = false ->
  requires_collector false loaders = false ->
  lookupCollector lookup false loaders = (false, (loaders, Ok tt)).
Proof. intros H1 H2. unfold lookupCollector. rewrite H1, H2. reflexivity. Qed.

End DeckExamples.

Module MoreFacts.
Import Json Request Query Cache Deck StrFacts CacheFacts RequestFacts DeckFacts.

(** [queryBackend] and [download] inherit the retry loop: against a
    transport that never answers, [queryBackend] asks [retries + 1] times
    and [download] four times. *)
Lemma queryBackend_always_failing {W : Type}
    (agent_request : agent_kind -> string -> string -> string -> W -> outcome * W)
    json_loads get_error backend_type base_address method urn query retries w :
  (forall k m b u w0, exists err w', agent_request k m b u w0 = (Failed err, w')) ->
  attempts_made (queryBackend agent_request json_loads get_error backend_type
                   base_address method urn query retries w).1 = S retries.
Proof.
  intros Hfail. unfold queryBackend, _request.
  apply perform_request_failing; [exact Hfail|lia].
Qed.

Lemma download_always_failing {W A : Type}
    (agent_request : agent_kind -> string -> string -> string -> W -> outcome * W)
    (downloader : string -> option nat -> response -> W -> result (result A) * W)
    backend_type base_address urn path w :
  (forall k m b u w0, exists err w', agent_request k m b u w0 = (Failed err, w')) ->
  attempts_made (download agent_request downloader backend_type base_address urn path w).1
  = 4.
Proof.
  intros Hfail. unfold download, _request.
  apply perform_request_failing; [exact Hfail|lia].
Qed.

(** A response that decodes to something other than an object is not
    handled: [None], a number or a boolean make [process_response] raise a
    [TypeError]. *)
Lemma process_response_not_iterable json_loads get_error s :
  s <> EmptyString ->
  json_loads s = Some JNull ->
  process_response json_loads get_error s = Raise TypeError.
Proof.
  intros Hs Hl. unfold process_response.
  apply eqb_false in Hs. rewrite Hs, Hl. reflexivity.
Qed.

(** An object without an [error] key is the value of the query. *)
Lemma process_response_object json_loads get_error s m :
  s <> EmptyString ->
  json_loads s = Some (JObj m) ->
  m !! "error" = None ->
  process_response json_loads get_error s = Ok (JObj m).
Proof.
  intros Hs Hl He. unfold process_response.
  apply eqb_false in Hs. rewrite Hs, Hl. simpl.
  rewrite bool_decide_eq_false_2; [reflexivity|].
  rewrite He. intros [x Hx]. discriminate.
Qed.

(** The digest function agrees with the standard SHA-256 test vectors. *)
Lemma hexdigest_vectors :
  SHA256.hexdigest EmptyString = Sample.empty_digest
  /\ SHA256.hexdigest "abc"
     = "ba7816bf8f01cfea414140de5dae2223b00361a396177a9cb410ff61f20015ad"
  /\ SHA256.hexdigest "abcdbcdecdefdefgefghfghighijhijkijkljklmklmnlmnomnopnopq"
     = "248d6a61d20638b8e5c026930c3e6039a33ce45964ff2167f6ecedd419db06c1".
Proof. repeat split; vm_compute; reflexivity. Qed.

(** [fileCached] fails when the payload path names a directory. *)
Lemma fileCached_directory fs f :
  fs !! cached_file f = Some Dir -> fileCached fs f = Raise IOError.
Proof.
  intros E. unfold fileCached, path_exists, verify, read_file. rewrite E.
  rewrite bool_decide_eq_true_2 by eauto. reflexivity.
Qed.

(** [descriptorCached] answers [False] only for a missing descriptor, and
    [True] only for one that decodes to an object with the five fields. *)
Lemma descriptorCached_missing json_loads fs f :
  fs !! cached_descriptor f = None ->
  descriptorCached json_loads fs f = Ok (false, f).
Proof.
  intros E. unfold descriptorCached, path_exists. rewrite E.
  rewrite bool_decide_eq_false_2 by (intros [x Hx]; discriminate). reflexivity.
Qed.

Lemma descriptorCached_false json_loads fs f f' :
  descriptorCached json_loads fs f = Ok (false, f') ->
  fs !! cached_descriptor f = None.
Proof.
  unfold descriptorCached, path_exists.
  destruct (fs !! cached_descriptor f) as [nd|] eqn:E; [|reflexivity].
  rewrite bool_decide_eq_true_2 by eauto.
  destruct (read_file fs (cached_descriptor f)) as [c|]; [|discriminate]. simpl.
  destruct (json_loads c) as [d|]; [|discriminate]. simpl.
  destruct (load f d) as [g|]; discriminate.
Qed.

Lemma descriptorCached_missing_field json_loads fs f contents :
  fs !! cached_descriptor f = Some (File contents) ->
  json_loads contents = Some (JObj ∅) ->
  descriptorCached json_loads fs f = Raise (KeyError "name").
Proof.
  intros E Hl. unfold descriptorCached, path_exists, read_file. rewrite E.
  rewrite bool_decide_eq_true_2 by eauto. simpl. rewrite Hl. reflexivity.
Qed.

Section WithNetwork.

Context {Net : Type}.
Variable agent_request : agent_kind -> string -> string -> string -> Net -> outcome * Net.
Variables (inputs_directory backend_type base_address : string).

(** An input that is already cached is handed back without a request. *)
Lemma downloadInput_cached h w :
  fileCached (w_fs w) (InputFile_new h inputs_directory) = Ok true ->
  downloadInput agent_request inputs_directory backend_type base_address h w
  = ([], (Ok (Ok (Some (InputFile_new h inputs_directory))), w)).
Proof. intros Hc. unfold downloadInput. rewrite Hc. reflexivity. Qed.

(** A download that delivers the payload with the digest it is stored
    under fires the deferred with the input file, and the payload is in
    the cache afterwards. *)
Lemma downloadInput_delivered h w r n' :
  fileCached (w_fs w) (InputFile_new h inputs_directory) = Ok false ->
  agent_request (select_agent backend_type) "GET" base_address
                ("/input/" +:+ h +:+ "/file") (w_net w) = (Responded r, n') ->
  SHA256.hexdigest (body r) = basename (cached_file (InputFile_new h inputs_directory)) ->
  let dl := downloadInput agent_request inputs_directory backend_type base_address h w in
  dl.2.1 = Ok (Ok (Some (InputFile_new h inputs_directory)))
  /\ fileCached (w_fs dl.2.2) (InputFile_new h inputs_directory) = Ok true.
Proof.
  intros Hc Hreq He. cbv zeta. unfold downloadInput. rewrite Hc. cbn [fst snd].
  unfold Query.download.
  rewrite (fun H => request_answered (agent_request_world agent_request) _ _ _ _ _ _ w r
                      {| w_fs := w_fs w; w_net := n' |} _ _ H eq_refl).
  2:{ unfold agent_request_world. rewrite Hreq. reflexivity. }
  cbn [fst snd Downloader w_fs]. split.
  - unfold addCallback, addErrback, verify, read_file.
    rewrite lookup_insert_eq. unfold mbind, result_bind, Py.bind.
    apply eqb_true in He. rewrite He. reflexivity.
  - apply fileCached_true_iff. exists (body r).
    split; [apply lookup_insert_eq | exact He].
Qed.

(** The path on which [fetchAndVerifyNetTestInput] does raise
    [UnableToLoadDeckInput]: an exception raised by [downloadInput] on the
    spot, as when the payload path names a directory. *)
Lemma fetch_inputs_directory i rest w :
  truthy_str (i_url i) = true ->
  w_fs w !! cached_file (InputFile_new (i_hash i) inputs_directory) = Some Dir ->
  (fetch_inputs agent_request inputs_directory backend_type base_address (i :: rest) w).2.1
  = Raise UnableToLoadDeckInput.
Proof.
  intros Hu Hd. cbn [fetch_inputs]. rewrite Hu. cbv zeta.
  unfold downloadInput. rewrite (fileCached_directory _ _ Hd). reflexivity.
Qed.

End WithNetwork.

(** Tests before the unmatched one have been given their collector by the
    time the [TypeError] is raised. *)
Lemma assign_collectors_partial :
  assign_collectors [Fixture.assignment ["a"; "b"]]
    [Fixture.test_x; Fixture.test_with_remote_input]
  = ([set_collector Fixture.test_x "httpo://abcdefghijklmnop.onion";
      Fixture.test_with_remote_input],
     Raise TypeError).
Proof. vm_compute. reflexivity. Qed.

(** A matched test gets the collector of its assignment when it has none
    of its own. *)
Lemma assign_collectors_matched provided l c th :
  find_collector_and_test_helpers provided (testName l) (testVersion l)
    (map i_hash (inputFiles l)) = Some (c, th) ->
  missingTestHelpers l = [] ->
  truthy_str (collector l) = false ->
  assign_collectors provided [l] = ([set_collector l c], Ok tt).
Proof.
  intros Hf Hm Hc. cbn [assign_collectors]. rewrite Hf, Hm.
  cbn [set_test_helpers]. rewrite Hc. reflexivity.
Qed.

End MoreFacts.

(* ===================================================================== *)
(** * Further properties *)
(* ===================================================================== *)

(** ** Retrying, in general *)

Module RetryFacts.
Import Request Retry RequestFacts.

Section WithAgent.

Context {W A : Type}.
Variable agent_request : agent_kind -> string -> string -> string -> W -> outcome * W.
Variable genReceiver : option nat -> response -> W -> result (result A) * W.
Variables (backend_type base_address method urn : string).
Variable retries : nat.

Local Abbreviation run := (perform_request agent_request genReceiver backend_type
                   base_address method urn retries) (only parsing).
Local Abbreviation this_request :=
  (Requested (select_agent backend_type) method base_address urn) (only parsing).

Lemma perform_request_bounded n : forall attempts w,
  retries - attempts = n ->
  1 <= attempts_made (run attempts w).1 <= S n
  /\ Forall (fun e => is_request e = true -> e = this_request) (run attempts w).1.
Proof.
  induction n as [|n IH]; intros attempts w Hn; rewrite perform_request_unfold;
    destruct (agent_request _ _ _ _ w) as [[r|err] w'];
    try destruct (genReceiver (content_length r) r w') as [[fired|err] w''];
    try destruct (lt_dec attempts retries) as [Hlt|Hge]; try lia;
    try (split; [cbn; lia | repeat constructor; discriminate]).
  - destruct (IH (S attempts) w'' ltac:(lia)) as [Hb Hall].
    cbn [fst]. split.
    + unfold attempts_made in *. simpl. lia.
    + repeat constructor; try discriminate. exact Hall.
  - destruct (IH (S attempts) w' ltac:(lia)) as [Hb Hall].
    cbn [fst]. split.
    + unfold attempts_made in *. simpl. lia.
    + repeat constructor; try discriminate. exact Hall.
Qed.

(** With a receiver that is always attached, what [finished] fires with is
    a failure of the transport or what the receiver made of a response;
    [P] is any property of the world that the transport keeps. *)
Lemma perform_request_outcome (P : W -> Prop) n : forall attempts w,
  (forall k m b u w0, P w0 -> P (agent_request k m b u w0).2) ->
  (forall cl r w0, exists fired w1, genReceiver cl r w0 = (Ok fired, w1)) ->
  retries - attempts = n -> P w ->
  (exists err w', (run attempts w).2 = (Raise err, w') /\ P w')
  \/ (exists r w1 fired w2,
        P w1 /\ genReceiver (content_length r) r w1 = (Ok fired, w2)
        /\ (run attempts w).2 = (fired, w2)).
Proof.
  intros attempts w Hkeep Hattach. revert attempts w.
  induction n as [|n IH]; intros attempts w Hn HP; rewrite perform_request_unfold;
    pose proof (Hkeep (select_agent backend_type) method base_address urn w HP) as HP';
    destruct (agent_request _ _ _ _ w) as [[r|err] w']; cbn [snd] in HP';
    try (destruct (Hattach (content_length r) r w') as (fired & w2 & Hr); rewrite Hr;
         right; exists r, w', fired, w2; split; [exact HP'|split; [exact Hr|reflexivity]]);
    destruct (lt_dec attempts retries) as [Hlt|Hge]; try lia;
    try (left; exists err, w'; split; [reflexivity|exact HP']).
  cbn [snd]. apply IH; [lia|exact HP'].
Qed.

Lemma perform_request_recovers k : forall attempts w r w' fired w'',
  fails_then_answers agent_request (select_agent backend_type) method base_address urn
                     k w r w' ->
  genReceiver (content_length r) r w' = (Ok fired, w'') ->
  attempts + k <= retries ->
  attempts_made (run attempts w).1 = S k
  /\ length (errors_seen (run attempts w).1) = k
  /\ (run attempts w).2 = (fired, w'').
Proof.
  induction k as [|k IH]; intros attempts w r w' fired w'' Hrun Hatt Hle;
    inversion Hrun; subst; rewrite perform_request_unfold;
    match goal with H : agent_request _ _ _ _ _ = _ |- _ => rewrite H end.
  - rewrite Hatt. repeat split.
  - destruct (lt_dec attempts retries) as [Hlt|Hge]; [|lia].
    match goal with H : fails_then_answers _ _ _ _ _ _ _ _ _ |- _ =>
      destruct (IH (S attempts) _ _ _ _ _ H Hatt ltac:(lia)) as (Ha & He & Hr) end.
    cbn [fst snd]. repeat split.
    + unfold attempts_made in *. simpl. rewrite Ha. reflexivity.
    + simpl. rewrite He. reflexivity.
    + exact Hr.
Qed.

(** A run in which every attempt fails, the request itself or the callback
    on its response: each attempt is followed by the next one until the
    retries are used up, and the last failure is surfaced. *)
Lemma perform_request_exhausted n : forall attempts w,
  (forall w0,
     (exists err w1,
        agent_request (select_agent backend_type) method base_address urn w0
        = (Failed err, w1))
     \/ (exists r w1 err w2,
           agent_request (select_agent backend_type) method base_address urn w0
           = (Responded r, w1)
           /\ genReceiver (content_length r) r w1 = (Raise err, w2))) ->
  retries - attempts = n ->
  attempts_made (run attempts w).1 = S n
  /\ length (errors_seen (run attempts w).1) = S n
  /\ exists err w',
       last (errors_seen (run attempts w).1) = Some err
       /\ (run attempts w).2 = (Raise err, w').
Proof.
  intros attempts w Hall. revert attempts w.
  induction n as [|n IH]; intros attempts w Hn; rewrite perform_request_unfold;
    destruct (Hall w) as [(err & w1 & ->)|(r & w1 & err & w2 & -> & ->)];
    destruct (lt_dec attempts retries) as [Hlt|Hge]; try lia.
  - repeat split. exists err, w1. split; reflexivity.
  - repeat split. exists err, w2. split; reflexivity.
  - destruct (IH (S attempts) w1 ltac:(lia)) as (Hc & Hlen & err' & w'' & Hl & Hr).
    cbn [fst snd]. repeat split.
    + unfold attempts_made in *. simpl. rewrite Hc. reflexivity.
    + simpl. rewrite Hlen. reflexivity.
    + exists err', w''. split; [|exact Hr].
      simpl. destruct (errors_seen _) eqn:E; [discriminate|].
      rewrite last_cons, Hl. reflexivity.
  - destruct (IH (S attempts) w2 ltac:(lia)) as (Hc & Hlen & err' & w'' & Hl & Hr).
    cbn [fst snd]. repeat split.
    + unfold attempts_made in *. simpl. rewrite Hc. reflexivity.
    + simpl. rewrite Hlen. reflexivity.
    + exists err', w''. split; [|exact Hr].
      simpl. destruct (errors_seen _) eqn:E; [discriminate|].
      rewrite last_cons, Hl. reflexivity.
Qed.

End WithAgent.

End RetryFacts.

Module RetrySpec.
Import Request Retry RequestFacts RetryFacts.

(** X1.  Whatever the transport does, [_request] asks it at least once and
    at most [retries + 1] times, and every request of a run goes through
    the same agent, with the same method, to the same address. *)
Theorem request_attempts_bounded {W A : Type}
    (agent_request : agent_kind -> string -> string -> string -> W -> outcome * W)
    (genReceiver : option nat -> response -> W -> result (result A) * W)
    (backend_type base_address method urn : string) (retries : nat) (w : W) :
  1 <= attempts_made
         (_request agent_request genReceiver backend_type base_address method urn
                   retries w).1 <= S retries
  /\ Forall (fun e => is_request e = true ->
                      e = Requested (select_agent backend_type) method base_address urn)
       (_request agent_request genReceiver backend_type base_address method urn
                 retries w).1.
Proof.
  unfold _request.
  destruct (perform_request_bounded agent_request genReceiver backend_type base_address
              method urn retries (retries - 0) 0 w eq_refl) as [Hb Hall].
  split; [lia | exact Hall].
Qed.

(** X2.  When the transport fails [k] requests in a row and answers the
    next one, [k] is at most [retries], and the callback attaches the
    receiver to that answer without raising, [_request] makes [k + 1]
    requests and [finished] fires with what the receiver delivers: none of
    the [k] failures is surfaced. *)
Theorem request_recovers {W A : Type}
    (agent_request : agent_kind -> string -> string -> string -> W -> outcome * W)
    (genReceiver : option nat -> response -> W -> result (result A) * W)
    (backend_type base_address method urn : string) (retries k : nat)
    (w w' w'' : W) (r : response) (fired : result A) :
  fails_then_answers agent_request (select_agent backend_type) method base_address urn
                     k w r w' ->
  genReceiver (content_length r) r w' = (Ok fired, w'') ->
  k <= retries ->
  attempts_made
    (_request agent_request genReceiver backend_type base_address method urn retries w).1
  = S k
  /\ length (errors_seen
       (_request agent_request genReceiver backend_type base_address method urn
                 retries w).1) = k
  /\ (_request agent_request genReceiver backend_type base_address method urn retries w).2
     = (fired, w'').
Proof.
  intros Hrun Hatt Hle. unfold _request.
  apply (perform_request_recovers agent_request genReceiver backend_type base_address
           method urn retries k 0 w r w' fired w'' Hrun Hatt).
  lia.
Qed.

Lemma request_recovers_witness :
  attempts_made
    (_request (Fixture2.flaky_agent 2 {| status := 200; content_length := None;
                                         body := "ok" |})
              (fun _ r n => (Ok (Ok (body r)), n))
              "https" "https://example.org" "GET" "/status" 3 0).1 = 3
  /\ (_request (Fixture2.flaky_agent 2 {| status := 200; content_length := None;
                                          body := "ok" |})
               (fun _ r n => (Ok (Ok (body r)), n))
               "https" "https://example.org" "GET" "/status" 3 0).2
     = (Ok "ok", 3).
Proof.
  pose proof (request_recovers
                (Fixture2.flaky_agent 2 {| status := 200; content_length := None;
                                           body := "ok" |})
                (fun _ r n => (Ok (Ok (body r)), n))
                "https" "https://example.org" "GET" "/status" 3 2 0 3 3
                {| status := 200; content_length := None; body := "ok" |} (Ok "ok"))
    as H.
  destruct H as (Ha & _ & Hr).
  - apply (fails_first _ _ _ _ _ 1 0 (NetworkFailure 0) 1); [reflexivity|].
    apply (fails_first _ _ _ _ _ 0 1 (NetworkFailure 1) 2); [reflexivity|].
    apply answers_now. reflexivity.
  - reflexivity.
  - lia.
  - split; [exact Ha | exact Hr].
Defined.

(** X26.  An exception that leaves the callback, while the receiver is
    built or attached, is retried like a failed request: when every
    attempt ends in a failed request or in such an exception, [_request]
    makes [retries + 1] requests and [finished] fails with the last of
    these failures. *)
Theorem request_callback_failure_retried {W A : Type}
    (agent_request : agent_kind -> string -> string -> string -> W -> outcome * W)
    (genReceiver : option nat -> response -> W -> result (result A) * W)
    (backend_type base_address method urn : string) (retries : nat) (w : W) :
  (forall w0,
     (exists err w1,
        agent_request (select_agent backend_type) method base_address urn w0
        = (Failed err, w1))
     \/ (exists r w1 err w2,
           agent_request (select_agent backend_type) method base_address urn w0
           = (Responded r, w1)
           /\ genReceiver (content_length r) r w1 = (Raise err, w2))) ->
  attempts_made
    (_request agent_request genReceiver backend_type base_address method urn retries w).1
  = S retries
  /\ exists err w',
       last (errors_seen
               (_request agent_request genReceiver backend_type base_address method urn
                         retries w).1) = Some err
       /\ (_request agent_request genReceiver backend_type base_address method urn
                    retries w).2 = (Raise err, w').
Proof.
  intros Hall. unfold _request.
  destruct (perform_request_exhausted agent_request genReceiver backend_type base_address
              method urn retries (retries - 0) 0 w Hall eq_refl) as (Ha & _ & Hr).
  split; [rewrite Ha; f_equal; lia | exact Hr].
Qed.

Lemma request_callback_failure_retried_witness :
  attempts_made
    (_request (Sample.answering_agent {| status := 200; content_length := Some 2;
                                         body := "ok" |})
              (fun _ _ n => (@Raise (result unit) IOError, n))
              "https" "https://example.org" "GET" "/input/x/file" 3 0).1 = 4
  /\ (_request (Sample.answering_agent {| status := 200; content_length := Some 2;
                                          body := "ok" |})
               (fun _ _ n => (@Raise (result unit) IOError, n))
               "https" "https://example.org" "GET" "/input/x/file" 3 0).2
     = (Raise IOError, 4).
Proof.
  split; [|reflexivity].
  apply (request_callback_failure_retried
           (Sample.answering_agent {| status := 200; content_length := Some 2;
                                      body := "ok" |})
           (fun _ _ n => (@Raise (result unit) IOError, n))
           "https" "https://example.org" "GET" "/input/x/file" 3 0).
  intros n. right.
  exists {| status := 200; content_length := Some 2; body := "ok" |}, (S n), IOError, (S n).
  split; reflexivity.
Defined.

End RetrySpec.

(** ** Queries, reports and the role clients *)

Module ClientFacts.
Import Json Request Query Clients StrFacts QueryFacts RequestFacts RetryFacts.

(** A query that succeeds got its value from [process_response]. *)
Lemma queryBackend_ok {W : Type}
    (agent_request : agent_kind -> string -> string -> string -> W -> outcome * W)
    json_loads get_error backend_type base_address method urn query retries w v :
  (queryBackend agent_request json_loads get_error backend_type base_address
                method urn query retries w).2.1 = Ok v ->
  exists r, process_response json_loads get_error (body r) = Ok v.
Proof.
  unfold queryBackend, _request. intros H.
  destruct (perform_request_outcome agent_request (query_receiver json_loads get_error)
              backend_type base_address method urn retries (fun _ => True)
              (retries - 0) 0 w ltac:(auto)
              ltac:(intros cl r w0; eexists _, _; reflexivity) eq_refl I)
    as [(err & w' & Hr & _)|(r & w1 & fired & w2 & _ & Hatt & Hr)]; rewrite Hr in H.
  - discriminate H.
  - exists r. injection Hatt as <- _. exact H.
Qed.

Lemma process_response_ok json_loads get_error s v :
  process_response json_loads get_error s = Ok v ->
  (s = EmptyString /\ v = JNull)
  \/ (s <> EmptyString /\ json_loads s = Some v /\ py_in "error" v = Ok false).
Proof.
  unfold process_response.
  destruct (Str.eqb s EmptyString) eqn:Es.
  - intros [= <-]. left. apply eqb_true in Es. auto.
  - apply eqb_false in Es. destruct (json_loads s) as [response|]; [|discriminate].
    destruct (py_in "error" response) as [[|]|] eqn:Ein; simpl.
    + destruct (getitem response "error"); discriminate.
    + intros [= <-]. right. auto.
    + discriminate.
Qed.

Lemma startswith_split a p : Str.startswith a p = true -> exists r, a = p +:+ r.
Proof.
  unfold Str.startswith. revert a. induction p as [|c p IH]; intros a H.
  - exists a. reflexivity.
  - destruct a as [|d a]; cbn [String.prefix] in H; [discriminate|].
    destruct (ascii_dec c d) as [->|]; [|discriminate].
    destruct (IH a H) as [r ->]. exists r. reflexivity.
Qed.

Lemma lower_probe_prefix K :
  Str.startswith K "PROBE_" = true -> Str.startswith (Str.lower K) "probe_" = true.
Proof.
  intros H. destruct (startswith_split _ _ H) as [r ->]. destruct r; reflexivity.
Qed.

Lemma copy_fields_dom fields : forall td m k,
  copy_fields fields td = Ok m -> (is_Some (m !! k) <-> In k fields).
Proof.
  induction fields as [|f fields IH]; intros td m k H.
  - injection H as <-. rewrite lookup_empty. split; [intros [x Hx]; discriminate|intros []].
  - simpl in H. destruct (td !! f) as [v|]; [|discriminate].
    destruct (copy_fields fields td) as [m0|] eqn:E0; [|discriminate].
    simpl in H. injection H as <-.
    destruct (decide (f = k)) as [->|Hne].
    + rewrite lookup_insert_eq. split; [left; reflexivity|eauto].
    + rewrite lookup_insert_ne by exact Hne. rewrite (IH td m0 k E0).
      split; [right; assumption|intros [?|?]; [contradiction|assumption]].
Qed.

Lemma copy_fields_missing fields : forall td,
  (exists k, In k fields /\ td !! k = None) ->
  exists before k after,
    fields = (before ++ k :: after)%list
    /\ Forall (fun k' => is_Some (td !! k')) before
    /\ td !! k = None
    /\ copy_fields fields td = Raise (KeyError k).
Proof.
  induction fields as [|f fields IH]; intros td (k & Hin & Hk); [destruct Hin|].
  destruct (td !! f) as [v|] eqn:Ef.
  - destruct (IH td) as (before & k' & after & -> & Hall & Hk' & Hc).
    { exists k. destruct Hin as [->|Hin]; [congruence|auto]. }
    exists (f :: before), k', after. repeat split; try assumption.
    + constructor; [rewrite Ef; eauto|exact Hall].
    + simpl. rewrite Ef, Hc. reflexivity.
  - exists [], f, fields. repeat split; try assumption; [constructor|].
    simpl. rewrite Ef. reflexivity.
Qed.

Lemma dict_update_dom pairs : forall (d : gmap string Json.t) k,
  is_Some (dict_update d pairs !! k) <-> is_Some (d !! k) \/ exists v, In (k, v) pairs.
Proof.
  induction pairs as [|[k' v'] pairs IH] using rev_ind; intros d k.
  - simpl. split; [auto|intros [?|[v []]]; assumption].
  - rewrite dict_update_snoc. simpl.
    destruct (decide (k' = k)) as [->|Hne].
    + rewrite lookup_insert_eq. split; [|eauto].
      intros _. right. exists v'. apply in_or_app. right. left. reflexivity.
    + rewrite lookup_insert_ne by exact Hne. rewrite IH. split.
      * intros [?|[v Hv]]; [auto|]. right. exists v. apply in_or_app. auto.
      * intros [?|[v Hv]]; [auto|]. apply in_app_or in Hv.
        destruct Hv as [Hv|[[= -> ->]|[]]]; [eauto|contradiction].
Qed.

End ClientFacts.

Module ClientSpec.
Import Json Request Query Clients Errors Deck StrFacts QueryFacts RequestFacts RetryFacts
       ClientFacts.

(** X3.  A value [process_response] hands back is never an object with an
    [error] key: it is [None] for the empty body, and otherwise the decoded
    body, in which [error] does not occur. *)
Theorem process_response_never_error (json_loads : string -> option Json.t)
    (get_error : Json.t -> exn) (s : string) (v : Json.t) :
  process_response json_loads get_error s = Ok v ->
  ((s = EmptyString /\ v = JNull)
   \/ (s <> EmptyString /\ json_loads s = Some v /\ py_in "error" v = Ok false))
  /\ forall m, v = JObj m -> m !! "error" = None.
Proof.
  intros H. pose proof (process_response_ok _ _ _ _ H) as Hc. split; [exact Hc|].
  intros m ->. destruct Hc as [[_ [=]]|(_ & _ & Hin)].
  simpl in Hin. injection Hin as Hin. apply bool_decide_eq_false in Hin.
  destruct (m !! "error") as [x|]; [|reflexivity].
  exfalso. apply Hin. eauto.
Qed.

Lemma process_response_never_error_witness :
  process_response sample_loads Sample.get_error "{}" = Ok (JObj ∅)
  /\ forall m, JObj ∅ = JObj m -> m !! "error" = None.
Proof.
  split; [reflexivity|].
  apply (process_response_never_error sample_loads Sample.get_error "{}" (JObj ∅)).
  reflexivity.
Defined.

(** X4.  When [test_details] lacks one of the nine fields, [createReport]
    raises the [KeyError] of the first missing field, in the order the
    request is written, and makes no request. *)
Theorem createReport_missing_field {W : Type}
    (agent_request : agent_kind -> string -> string -> string -> W -> outcome * W)
    (json_loads : string -> option Json.t) (get_error : Json.t -> exn)
    (backend_type base_address : string) (test_details : gmap string Json.t)
    (environ : list (string * string)) (w : W) :
  (exists k, In k report_fields /\ test_details !! k = None) ->
  exists before k after,
    report_fields = (before ++ k :: after)%list
    /\ Forall (fun k' => is_Some (test_details !! k')) before
    /\ test_details !! k = None
    /\ createReport agent_request json_loads get_error backend_type base_address
                    test_details environ w
       = ([], (Raise (KeyError k), w)).
Proof.
  intros Hmiss.
  destruct (copy_fields_missing report_fields test_details Hmiss)
    as (before & k & after & Hsplit & Hall & Hk & Hc).
  exists before, k, after. repeat split; try assumption.
  unfold createReport, createReport_request. rewrite Hc. reflexivity.
Qed.

Lemma createReport_missing_field_witness :
  exists before k after,
    report_fields = (before ++ k :: after)%list
    /\ Forall (fun k' => is_Some (delete "probe_cc" (delete "test_name" Fixture.test_details)
                                   !! k')) before
    /\ delete "probe_cc" (delete "test_name" Fixture.test_details) !! k = None
    /\ createReport
         (Sample.answering_agent {| status := 200; content_length := None;
                                    body := EmptyString |})
         sample_loads Sample.get_error "https" "https://example.org"
         (delete "probe_cc" (delete "test_name" Fixture.test_details))
         Fixture.environ 0
       = ([], (Raise (KeyError k), 0)).
Proof.
  apply (createReport_missing_field
           (Sample.answering_agent {| status := 200; content_length := None;
                                      body := EmptyString |})
           sample_loads Sample.get_error "https" "https://example.org"
           (delete "probe_cc" (delete "test_name" Fixture.test_details))
           Fixture.environ 0).
  exists "test_name". split; [vm_compute; tauto | vm_compute; reflexivity].
Defined.

(** X5.  The environment can only reach the fields whose names start with
    [probe_]: in the request of [createReport], [format] is [json] and
    every other fixed field whose name does not start with [probe_] has
    the value [test_details] gives it, whatever the environment holds. *)
Theorem createReport_environment_reach (test_details : gmap string Json.t)
    (environ : list (string * string)) (request : gmap string Json.t) :
  createReport_request test_details environ = Ok request ->
  request !! "format" = Some (JStr "json")
  /\ forall k, In k report_fields -> Str.startswith k "probe_" = false ->
       request !! k = test_details !! k.
Proof.
  unfold createReport_request. intros H.
  destruct (copy_fields report_fields test_details) as [fixed|] eqn:Hc; [|discriminate].
  simpl in H. injection H as <-.
  assert (Hout : forall k, Str.startswith k "probe_" = false ->
                   forall v, ~ In (k, v) (environ_overrides environ)).
  { intros k Hk v Hv. apply environ_overrides_spec in Hv.
    destruct Hv as (K & s & _ & Hp & <- & _).
    apply lower_probe_prefix in Hp. congruence. }
  split.
  - rewrite dict_update_untouched by (apply Hout; reflexivity).
    apply lookup_insert_eq.
  - intros k Hin Hk. rewrite dict_update_untouched by (apply Hout; exact Hk).
    rewrite lookup_insert_ne.
    + eapply copy_fields_lookup; eauto.
    + intros <-. simpl in Hin. intuition discriminate.
Qed.

Lemma createReport_environment_reach_witness :
  Fixture.report_request !! "format" = Some (JStr "json")
  /\ forall k, In k report_fields -> Str.startswith k "probe_" = false ->
       Fixture.report_request !! k = Fixture.test_details !! k.
Proof.
  apply (createReport_environment_reach Fixture.test_details Fixture.environ).
  exact fixture_report_request.
Defined.

(** X6.  The request of [createReport] holds the nine fixed fields,
    [format], and the lower-cased names of the environment variables that
    start with [PROBE_], and nothing else: no other environment variable
    gets into it. *)
Theorem createReport_request_keys (test_details : gmap string Json.t)
    (environ : list (string * string)) (request : gmap string Json.t) (k : string) :
  createReport_request test_details environ = Ok request ->
  (is_Some (request !! k) <->
   In k report_fields \/ k = "format"
   \/ exists K s, In (K, s) environ /\ Str.startswith K "PROBE_" = true
                  /\ Str.lower K = k).
Proof.
  unfold createReport_request. intros H.
  destruct (copy_fields report_fields test_details) as [fixed|] eqn:Hc; [|discriminate].
  simpl in H. injection H as <-.
  rewrite dict_update_dom.
  assert (Hfix : is_Some (<[ "format" := JStr "json" ]> fixed !! k)
                 <-> In k report_fields \/ k = "format").
  { destruct (decide ("format" = k)) as [<-|Hne].
    - rewrite lookup_insert_eq. split; [auto|eauto].
    - rewrite lookup_insert_ne by exact Hne.
      rewrite (copy_fields_dom _ _ _ k Hc). split; [auto|].
      intros [?|?]; [assumption|congruence]. }
  rewrite Hfix. split.
  - intros [[?|?]|[v Hv]]; [auto|auto|].
    apply environ_overrides_spec in Hv.
    destruct Hv as (K & s & Hin & Hp & Hk & _). right. right. eauto.
  - intros [?|[?|(K & s & Hin & Hp & Hk)]]; [auto|auto|].
    right. exists (JStr s). apply environ_overrides_spec. eauto 6.
Qed.

Lemma createReport_request_keys_witness :
  (is_Some (Fixture.report_request !! "home") <->
   In "home" report_fields \/ "home" = "format"
   \/ exists K s, In (K, s) Fixture.environ /\ Str.startswith K "PROBE_" = true
                  /\ Str.lower K = "home")
  /\ Fixture.report_request !! "home" = None
  /\ is_Some (Fixture.report_request !! "probe_extra").
Proof.
  split; [|split].
  - apply (createReport_request_keys Fixture.test_details Fixture.environ).
    exact fixture_report_request.
  - vm_compute. reflexivity.
  - vm_compute. eauto.
Defined.

End ClientSpec.

Module RoleSpec.
Import Json Request Query Clients Errors Deck StrFacts QueryFacts RequestFacts RetryFacts
       ClientFacts.

(** X7.  [BouncerClient.lookupTestCollector] surfaces no failure but
    [CouldNotFindTestCollector], and hands on the value of a query that
    succeeds; against a transport that fails every request it gives up
    with that error after four requests. *)
Theorem lookupTestCollector_failures {W : Type}
    (agent_request : agent_kind -> string -> string -> string -> W -> outcome * W)
    (json_loads : string -> option Json.t) (get_error : Json.t -> exn)
    (backend_type base_address : string) (net_tests : Json.t) (w : W) :
  (forall k m b u w0, exists err w', agent_request k m b u w0 = (Failed err, w')) ->
  attempts_made (lookupTestCollector agent_request json_loads get_error backend_type
                   base_address net_tests w).1 = 4
  /\ (lookupTestCollector agent_request json_loads get_error backend_type
                          base_address net_tests w).2.1 = Raise CouldNotFindTestCollector
  /\ forall (agent : agent_kind -> string -> string -> string -> W -> outcome * W) w0,
       (lookupTestCollector agent json_loads get_error backend_type base_address
                            net_tests w0).2.1 = Raise CouldNotFindTestCollector
       \/ exists v r,
            (lookupTestCollector agent json_loads get_error backend_type base_address
                                 net_tests w0).2.1 = Ok v
            /\ process_response json_loads get_error (body r) = Ok v.
Proof.
  intros Hfail. split; [|split].
  - unfold lookupTestCollector, queryBackend, _request. cbn [fst].
    apply perform_request_failing; [exact Hfail|lia].
  - unfold lookupTestCollector, queryBackend. cbn [fst snd].
    destruct (request_failing_outcome agent_request
                (query_receiver json_loads get_error) backend_type base_address
                "POST" "/bouncer/net-tests" 3 Hfail w) as (err & w' & ->).
    reflexivity.
  - intros agent w0. unfold lookupTestCollector. cbn [fst snd].
    destruct (queryBackend agent json_loads get_error backend_type base_address
                "POST" "/bouncer/net-tests" _ 3 w0).2.1 as [v|e] eqn:E; [|left; reflexivity].
    right. destruct (queryBackend_ok _ _ _ _ _ _ _ _ _ _ _ E) as [r Hr]. eauto.
Qed.

Lemma lookupTestCollector_failures_witness :
  attempts_made (lookupTestCollector Sample.failing_agent sample_loads Sample.get_error
                   "onion" "http://abcdefghijklmnop.onion" (JArr []) 0).1 = 4
  /\ (lookupTestCollector Sample.failing_agent sample_loads Sample.get_error
        "onion" "http://abcdefghijklmnop.onion" (JArr []) 0).2.1
     = Raise CouldNotFindTestCollector.
Proof.
  destruct (lookupTestCollector_failures Sample.failing_agent sample_loads
              Sample.get_error "onion" "http://abcdefghijklmnop.onion" (JArr []) 0)
    as (Ha & Hr & _).
  - intros k m b u n. exists (NetworkFailure n), (S n). reflexivity.
  - split; [exact Ha | exact Hr].
Defined.

(** X8.  [BouncerClient.lookupTestHelpers] treats an empty answer like a
    failed lookup: a response with an empty body ends in
    [CouldNotFindTestHelper], and whatever the transport does, a value the
    method hands back is truthy. *)
Theorem lookupTestHelpers_empty {W : Type}
    (agent_request : agent_kind -> string -> string -> string -> W -> outcome * W)
    (json_loads : string -> option Json.t) (get_error : Json.t -> exn)
    (backend_type base_address : string) (names : Json.t) (w w' : W) (r : response) :
  agent_request (select_agent backend_type) "POST" base_address "/bouncer/test-helpers" w
  = (Responded r, w') ->
  body r = EmptyString ->
  (lookupTestHelpers agent_request json_loads get_error backend_type base_address
                     names w).2
  = (Raise CouldNotFindTestHelper, w')
  /\ forall (agent : agent_kind -> string -> string -> string -> W -> outcome * W) w0 v,
       (lookupTestHelpers agent json_loads get_error backend_type base_address
                          names w0).2.1 = Ok v ->
       truthy v = true.
Proof.
  intros Hreq Hbody. split.
  - unfold lookupTestHelpers, queryBackend. cbn [fst snd].
    rewrite (request_answered _ _ _ _ _ _ _ _ _ _ _ _ Hreq eq_refl).
    unfold query_receiver, process_response. rewrite Hbody. reflexivity.
  - intros agent w0 v. unfold lookupTestHelpers. cbn [fst snd].
    destruct (queryBackend agent json_loads get_error backend_type base_address
                "POST" "/bouncer/test-helpers" _ 3 w0).2.1 as [x|e]; [|discriminate].
    destruct (truthy x) eqn:T; simpl; [|discriminate].
    intros [= <-]. exact T.
Qed.

Lemma lookupTestHelpers_empty_witness :
  (lookupTestHelpers
     (Sample.answering_agent {| status := 200; content_length := Some 0;
                                body := EmptyString |})
     sample_loads Sample.get_error "https" "https://example.org" (JArr []) 0).2
  = (Raise CouldNotFindTestHelper, 1).
Proof.
  apply (lookupTestHelpers_empty
           (Sample.answering_agent {| status := 200; content_length := Some 0;
                                      body := EmptyString |})
           sample_loads Sample.get_error "https" "https://example.org" (JArr []) 0 1
           {| status := 200; content_length := Some 0; body := EmptyString |});
    reflexivity.
Defined.

(** X9.  [WebConnectivityClient.isReachable] never fails: every failure
    of the query and of its own callback becomes the answer [False].  It
    answers [True] exactly when the query succeeds with an object whose
    [status] is the string [ok]; that object has no [error] key. *)
Theorem web_isReachable_total {W : Type}
    (agent_request : agent_kind -> string -> string -> string -> W -> outcome * W)
    (json_loads : string -> option Json.t) (get_error : Json.t -> exn)
    (backend_type base_address : string) (w : W) :
  (exists b, (web_isReachable agent_request json_loads get_error backend_type
                              base_address w).2.1 = Ok b)
  /\ ((web_isReachable agent_request json_loads get_error backend_type
                       base_address w).2.1 = Ok true
      <-> exists m,
            (queryBackend agent_request json_loads get_error backend_type base_address
                          "GET" "/status" None 3 w).2.1 = Ok (JObj m)
            /\ m !! "status" = Some (JStr "ok") /\ m !! "error" = None).
Proof.
  unfold web_isReachable. cbn [fst snd].
  destruct (queryBackend agent_request json_loads get_error backend_type base_address
              "GET" "/status" None 3 w).2.1 as [v|e] eqn:E.
  - assert (Hne : forall m, v = JObj m -> m !! "error" = None).
    { intros m ->. destruct (queryBackend_ok _ _ _ _ _ _ _ _ _ _ _ E) as [r Hr].
      destruct (process_response_ok _ _ _ _ Hr) as [[_ [=]]|(_ & _ & Hin)].
      simpl in Hin. injection Hin as Hin. apply bool_decide_eq_false in Hin.
      destruct (m !! "error") as [x|]; [|reflexivity]. exfalso. apply Hin. eauto. }
    destruct v as [| | | | |m]; simpl;
      try (split; [eauto|split; [discriminate|intros (m' & [=] & _)]]).
    destruct (m !! "status") as [[| | |s| |]|] eqn:Es; simpl;
      try (split; [eauto|split; [discriminate|]];
           intros (m' & [= <-] & Hs & _); congruence).
    split; [eauto|]. split.
    + intros [= Hs]. apply eqb_true in Hs. subst s. exists m. auto.
    + intros (m' & [= <-] & Hs & _). rewrite Es in Hs. injection Hs as ->. reflexivity.
  - simpl. split; [eauto|]. split; [discriminate|intros (m & [=] & _)].
Qed.

End RoleSpec.

(** ** Building a client *)

Module ClientBuildSpec.
Import BackendClient Support StrFacts UrlFacts AddressFacts.

(** X10.  For a client of type [http], [https] or [cloudfront], whatever
    the scheme of the address it is given, the stored base address is
    [http://] (for [http]) or [https://] followed by the network location
    that [urlparse] finds in the address, and by nothing else; setting it
    up again from the stored address changes nothing. *)
Theorem setupBaseAddress_fixed_scheme (is_onion : string -> bool) (ty a b : string) :
  ty = "http" \/ ty = "https" \/ ty = "cloudfront" ->
  _setupBaseAddress is_onion ty (Some a) = Ok b ->
  (exists p, Url.urlparse (Some a) = Ok p
             /\ Url.wf_netloc (Url.netloc p)
             /\ b = (if Str.eqb ty "http" then "http://" else "https://")
                    +:+ Url.netloc p)
  /\ _setupBaseAddress is_onion ty (Some b) = Ok b.
Proof.
  intros Hty H.
  assert (Hstep : forall ty' pre n,
            (ty' = "http" /\ pre = "http://") \/
            ((ty' = "https" \/ ty' = "cloudfront") /\ pre = "https://") ->
            Url.wf_netloc n -> Str.encode_ascii (pre +:+ n) = Ok (pre +:+ n) ->
            _setupBaseAddress is_onion ty' (Some (pre +:+ n)) = Ok (pre +:+ n)).
  { intros ty' pre n Hc Wn He. unfold _setupBaseAddress.
    destruct Hc as [[-> ->]|[[->| ->] ->]].
    - rewrite (urlparse_http _ Wn). simpl. exact He.
    - rewrite (urlparse_https _ Wn). simpl. exact He.
    - rewrite (urlparse_https _ Wn). simpl. exact He. }
  unfold _setupBaseAddress in H.
  destruct (Url.urlparse (Some a)) as [p|] eqn:P; [|discriminate].
  pose proof (urlparse_wf _ _ P) as Wn.
  destruct Hty as [->|[->| ->]]; simpl in H;
    pose proof (encode_ascii_ok _ _ H) as Hb; rewrite Hb in H; subst b;
    (split; [exists p; split; [reflexivity|split; [exact Wn|reflexivity]]|]);
    apply Hstep; auto.
Qed.

Lemma setupBaseAddress_fixed_scheme_witness :
  _setupBaseAddress Onion.host_pattern "https" (Some "http://example.org:8080/a?b#c")
    = Ok "https://example.org:8080"
  /\ Url.urlparse (Some "http://example.org:8080/a?b#c")
     = Ok {| Url.scheme := "http"; Url.netloc := "example.org:8080" |}
  /\ _setupBaseAddress Onion.host_pattern "https" (Some "https://example.org:8080")
     = Ok "https://example.org:8080".
Proof.
  split; [reflexivity|]. split; [reflexivity|].
  apply (setupBaseAddress_fixed_scheme Onion.host_pattern "https"
           "http://example.org:8080/a?b#c" "https://example.org:8080");
    [right; left; reflexivity | reflexivity].
Defined.

(** X11.  A client carries a [Host] header exactly when its type is
    [cloudfront], and the header is then the [front] of its settings; a
    type given in the settings is the type of the client; and a
    [cloudfront] client without a [front] cannot be built: the constructor
    raises the [KeyError] of the missing key, and an [AttributeError] when
    [front] is there and holds [None]. *)
Theorem init_host_header (is_onion : string -> bool) (address : option string)
    (st : settings) (c : client) :
  __init__ is_onion address st = Ok c ->
  (backend_type c = "cloudfront" ->
     exists f, s_front st = Some (Some f) /\ base_headers c = {[ "Host" := f ]})
  /\ (backend_type c <> "cloudfront" -> base_headers c = ∅)
  /\ (forall t, s_type st = Some (Some t) -> backend_type c = t)
  /\ (forall address' a,
        __init__ is_onion address'
          {| s_type := Some (Some "cloudfront"); s_address := a; s_front := None |}
        = Raise (KeyError "front"))
  /\ (forall address' a,
        __init__ is_onion address'
          {| s_type := Some (Some "cloudfront"); s_address := a; s_front := Some None |}
        = Raise AttributeError).
Proof.
  unfold __init__. intros H.
  destruct (match settings_get (s_type st) None with Some t => Ok t | None => _ end)
    as [ty0|] eqn:Ety; [|discriminate].
  simpl in H. destruct (Str.encode_ascii ty0) as [ty|] eqn:Eenc; [|discriminate].
  pose proof (encode_ascii_ok _ _ Eenc) as ->. simpl in H.
  destruct (Str.eqb ty0 "cloudfront") eqn:Ecf.
  - apply eqb_true in Ecf. subst ty0.
    destruct (s_front st) as [[f|]|] eqn:Ef; try discriminate. simpl in H.
    destruct (Str.encode_ascii f) as [f'|] eqn:Efe; [|discriminate].
    pose proof (encode_ascii_ok _ _ Efe) as ->. simpl in H.
    destruct (_setupBaseAddress _ _ _) as [addr|]; [|discriminate]. simpl in H.
    injection H as <-. simpl. repeat split; try congruence; eauto.
    intros t Ht. rewrite Ht in Ety. simpl in Ety. congruence.
  - apply eqb_false in Ecf. simpl in H.
    destruct (_setupBaseAddress _ _ _) as [addr|]; [|discriminate]. simpl in H.
    destruct (settings_get (s_front st) (Some EmptyString)) as [f0|]; [|discriminate].
    destruct (Str.encode_ascii f0) as [fr|]; [|discriminate]. simpl in H.
    injection H as <-. simpl. repeat split; try congruence; try contradiction.
    intros t Ht. rewrite Ht in Ety. simpl in Ety. congruence.
Qed.

Lemma init_host_header_witness :
  __init__ Onion.host_pattern (Some "https://d2.cloudfront.example/x")
    {| s_type := Some (Some "cloudfront"); s_address := None;
       s_front := Some (Some "a0.awsstatic.com") |}
  = Ok {| base_headers := {[ "Host" := "a0.awsstatic.com" ]};
          backend_type := "cloudfront";
          base_address := "https://d2.cloudfront.example";
          front := "a0.awsstatic.com" |}
  /\ exists f, Some (Some "a0.awsstatic.com") = Some (Some f)
               /\ ({[ "Host" := "a0.awsstatic.com" ]} : gmap string string)
                  = {[ "Host" := f ]}.
Proof.
  split; [reflexivity|].
  refine (proj1 (init_host_header Onion.host_pattern
           (Some "https://d2.cloudfront.example/x")
           {| s_type := Some (Some "cloudfront"); s_address := None;
              s_front := Some (Some "a0.awsstatic.com") |}
           {| base_headers := {[ "Host" := "a0.awsstatic.com" ]};
              backend_type := "cloudfront";
              base_address := "https://d2.cloudfront.example";
              front := "a0.awsstatic.com" |} _) _); reflexivity.
Defined.

(** X12.  For a client built from an address alone, [isSupported] is decided
    by how the address classifies: an onion address needs a Tor state or a
    SOCKS port, an [https://] address a Twisted that is not older than
    14.0.2, and an [http://] address the [insecure_backend] setting. *)
Theorem isSupported_of_address (is_onion : string -> bool) (cfg : config)
    (a : string) (c : client) :
  __init__ is_onion (Some a) no_settings = Ok c ->
  isSupported cfg c =
    if is_onion a then tor_state cfg || negb (bool_decide (socks_port cfg = None))
    else if Str.startswith a "https://"
         then negb (version_lt (twisted_version cfg) _twisted_14_0_2_version)
         else insecure_backend cfg.
Proof.
  rewrite init_no_settings. unfold _guessBackendType.
  destruct (is_onion a) eqn:O; [|destruct (Str.startswith a "https://") eqn:S1;
                                 [|destruct (Str.startswith a "http://") eqn:S2]];
    simpl; try discriminate;
    (destruct (_setupBaseAddress _ _ _) as [addr|]; [|discriminate]);
    simpl; intros [= <-]; unfold isSupported; simpl.
  - destruct (tor_state cfg), (bool_decide _); reflexivity.
  - destruct (version_lt _ _); reflexivity.
  - destruct (insecure_backend cfg); reflexivity.
Qed.

Lemma isSupported_of_address_witness :
  isSupported {| twisted_version := (13, 2, 0)%nat; insecure_backend := true;
                 insecure_collector := false; tor_state := false; socks_port := None |}
    {| base_headers := ∅; backend_type := "https";
       base_address := "https://example.org"; front := EmptyString |}
  = false.
Proof.
  rewrite (isSupported_of_address Onion.host_pattern
             {| twisted_version := (13, 2, 0)%nat; insecure_backend := true;
                insecure_collector := false; tor_state := false; socks_port := None |}
             "https://example.org/x"
             {| base_headers := ∅; backend_type := "https";
                base_address := "https://example.org"; front := EmptyString |}
             eq_refl).
  reflexivity.
Defined.

End ClientBuildSpec.

(** ** Descriptors and inputs *)

Module InputFacts.
Import Json Request Query Cache Deck Clients StrFacts CacheFacts RequestFacts RetryFacts.

(** Loading what [save] dumped gives the object back. *)
Lemma load_descriptor_object f d :
  loaded f = Some d -> load f (descriptor_object f d) = Ok f.
Proof.
  intros Hl. destruct f as [i cf cd l], d as [n v a t ds]. simpl in Hl. subst l.
  unfold load, descriptor_object, getitem. simpl.
  repeat (rewrite ?lookup_insert_eq;
          rewrite ?lookup_insert_ne by (intros [=])).
  reflexivity.
Qed.

Lemma load_keeps f v f' :
  load f v = Ok f' ->
  id f' = id f /\ cached_file f' = cached_file f
  /\ cached_descriptor f' = cached_descriptor f /\ exists d, loaded f' = Some d.
Proof.
  unfold load. intros H.
  repeat match type of H with
         | context [getitem ?x ?k] => destruct (getitem x k); [|discriminate]; simpl in H
         end.
  injection H as <-. simpl. eauto 6.
Qed.

(** [fileCached] reads the disk only at the payload path. *)
Lemma fileCached_same_path fs f g :
  cached_file f = cached_file g -> fileCached fs f = fileCached fs g.
Proof. intros E. unfold fileCached, verify. rewrite E. reflexivity. Qed.

Lemma fileCached_other_path fs f path nd :
  path <> cached_file f -> fileCached (<[ path := nd ]> fs) f = fileCached fs f.
Proof.
  intros Hne. unfold fileCached, path_exists, verify, read_file.
  rewrite lookup_insert_ne by exact Hne. reflexivity.
Qed.

Lemma verify_ok_fileCached fs f : verify fs f = Ok tt -> fileCached fs f = Ok true.
Proof.
  intros H. unfold fileCached, path_exists. rewrite H.
  unfold verify, read_file in H.
  destruct (fs !! cached_file f) as [[c|]|]; try discriminate.
  rewrite bool_decide_eq_true_2 by eauto. reflexivity.
Qed.

Lemma fileCached_true_verify fs f : fileCached fs f = Ok true -> verify fs f = Ok tt.
Proof.
  unfold fileCached. destruct (path_exists fs (cached_file f)); [|discriminate].
  destruct (verify fs f) as [[]|[]]; try discriminate. reflexivity.
Qed.

Section WithNetwork.

Context {Net : Type}.
Variable agent_request : agent_kind -> string -> string -> string -> Net -> outcome * Net.
Variables (inputs_directory backend_type base_address : string).

(** A download leaves the disk as it was or stores a body at the download
    path. *)
Lemma download_disk urn path w :
  let run := Query.download (agent_request_world agent_request) Downloader
               backend_type base_address urn path w in
  (exists err, run.2.1 = Raise err /\ w_fs run.2.2 = w_fs w)
  \/ (exists r, run.2.1 = Ok tt
                /\ w_fs run.2.2 = <[ path := File (body r) ]> (w_fs w)).
Proof.
  cbv zeta. unfold Query.download, _request.
  destruct (perform_request_outcome (agent_request_world agent_request)
              (Downloader path) backend_type base_address "GET" urn 3
              (fun w0 => w_fs w0 = w_fs w) (3 - 0) 0 w)
    as [(err & w' & Hr & HP)|(r & w1 & fired & w2 & HP & Hatt & Hr)]; try reflexivity.
  - intros k m b u w0 H0. unfold agent_request_world. simpl. exact H0.
  - intros cl r w0. eexists _, _. reflexivity.
  - left. exists err. rewrite Hr. auto.
  - right. exists r. rewrite Hr. unfold Downloader in Hatt. injection Hatt as <- <-.
    simpl. rewrite HP. auto.
Qed.

(** Whatever [downloadInput] does, an input that verified before still
    verifies afterwards. *)
Lemma downloadInput_keeps_cached h w g :
  fileCached (w_fs w) g = Ok true ->
  fileCached
    (w_fs (downloadInput agent_request inputs_directory backend_type base_address h w).2.2)
    g = Ok true.
Proof.
  intros Hg. unfold downloadInput.
  destruct (fileCached (w_fs w) (InputFile_new h inputs_directory)) as [[|]|e] eqn:Hc;
    try exact Hg.
  cbn [fst snd].
  destruct (download_disk ("/input/" +:+ h +:+ "/file")
              (cached_file (InputFile_new h inputs_directory)) w)
    as [(err & _ & Hfs)|(r & _ & Hfs)]; rewrite Hfs; [exact Hg|].
  destruct (decide (cached_file (InputFile_new h inputs_directory) = cached_file g))
    as [E|Hne].
  - rewrite (fileCached_same_path _ _ _ E) in Hc. congruence.
  - rewrite fileCached_other_path by exact Hne. exact Hg.
Qed.

Lemma downloadInput_some h w f :
  (downloadInput agent_request inputs_directory backend_type base_address h w).2.1
  = Ok (Ok (Some f)) ->
  f = InputFile_new h inputs_directory
  /\ fileCached
       (w_fs (downloadInput agent_request inputs_directory backend_type base_address
                h w).2.2) f = Ok true.
Proof.
  unfold downloadInput.
  destruct (fileCached (w_fs w) (InputFile_new h inputs_directory)) as [[|]|e] eqn:Hc;
    cbn [fst snd].
  - intros [= <-]. auto.
  - set (run := Query.download _ _ _ _ _ _ _).
    destruct (run.2.1) as [[]|err]; cbn [addCallback addErrback]; [|discriminate].
    destruct (verify (w_fs run.2.2) (InputFile_new h inputs_directory)) as [[]|e] eqn:Hv;
      simpl; [|discriminate].
    intros [= <-]. split; [reflexivity|]. apply verify_ok_fileCached, Hv.
  - discriminate.
Qed.

Lemma downloadInput_never_fails h w e :
  (downloadInput agent_request inputs_directory backend_type base_address h w).2.1
  <> Ok (Raise e).
Proof.
  unfold downloadInput.
  destruct (fileCached (w_fs w) (InputFile_new h inputs_directory)) as [[|]|e'];
    cbn [fst snd]; try discriminate.
  set (run := Query.download _ _ _ _ _ _ _).
  destruct (run.2.1) as [[]|err]; cbn [addCallback addErrback]; [|discriminate].
  destruct (verify (w_fs run.2.2) (InputFile_new h inputs_directory)) as [[]|e'];
    simpl; discriminate.
Qed.

Lemma fetch_inputs_keeps_cached inputs : forall w g,
  fileCached (w_fs w) g = Ok true ->
  fileCached
    (w_fs (fetch_inputs agent_request inputs_directory backend_type base_address
             inputs w).2.2) g = Ok true.
Proof.
  induction inputs as [|i rest IH]; intros w g Hg; [exact Hg|].
  cbn [fetch_inputs]. destruct (truthy_str (i_url i)); [|cbn [fst snd]; apply IH, Hg].
  cbv zeta.
  pose proof (downloadInput_keeps_cached (i_hash i) w g Hg) as Hk.
  destruct (yield_or_unable _) as [input_file|e]; [|exact Hk].
  destruct (verify_or_unable _ _) as [f|e]; [|exact Hk].
  cbn [fst snd]. apply IH, Hk.
Qed.

(** Once the loop over the inputs has ended well, every input with a URL
    verifies on the disk the loop leaves. *)
Lemma fetch_inputs_caches inputs : forall inputs' w,
  (fetch_inputs agent_request inputs_directory backend_type base_address inputs w).2.1
  = Ok inputs' ->
  forall i, In i inputs -> truthy_str (i_url i) = true ->
    fileCached
      (w_fs (fetch_inputs agent_request inputs_directory backend_type base_address
               inputs w).2.2)
      (InputFile_new (i_hash i) inputs_directory) = Ok true.
Proof.
  induction inputs as [|i0 rest IH]; intros inputs' w H i Hin Hu; [destruct Hin|].
  cbn [fetch_inputs] in *.
  destruct (truthy_str (i_url i0)) eqn:Hu0.
  - cbv zeta in *.
    pose proof (downloadInput_some (i_hash i0) w) as Hsome.
    destruct (downloadInput agent_request inputs_directory backend_type base_address
                (i_hash i0) w) as [t [r w1]]. cbn [fst snd] in *.
    destruct (yield_or_unable r) as [input_file|e] eqn:Hy; [|discriminate].
    destruct (verify_or_unable (w_fs w1) input_file) as [f|e] eqn:Hv; [|discriminate].
    cbn [fst snd] in *.
    destruct ((fetch_inputs agent_request inputs_directory backend_type base_address
                 rest w1).2.1) as [l|e] eqn:Hrest; [|discriminate].
    destruct Hin as [->|Hin]; [|eapply IH; eauto].
    apply fetch_inputs_keeps_cached.
    destruct input_file as [f0|]; [|discriminate].
    destruct r as [[v|e]|e]; try discriminate. injection Hy as ->.
    destruct (Hsome f0 eq_refl) as [-> Hc]. exact Hc.
  - cbn [fst snd] in *.
    destruct Hin as [->|Hin]; [congruence|].
    destruct ((fetch_inputs agent_request inputs_directory backend_type base_address
                 rest w).2.1) as [l|e] eqn:Hrest; [|discriminate].
    eapply IH; eauto.
Qed.

(** What the loop does to the entries: the cached path of the input goes
    under the entry's key, for the entries with a URL, and nothing else
    changes. *)
Lemma fetch_inputs_entries inputs : forall inputs' w,
  (fetch_inputs agent_request inputs_directory backend_type base_address inputs w).2.1
  = Ok inputs' ->
  Forall2 (fun i i' =>
             i_hash i' = i_hash i /\ i_url i' = i_url i /\ i_address i' = i_address i
             /\ i_key i' = i_key i
             /\ i_test_options i'
                = if truthy_str (i_url i)
                  then <[ i_key i := path_join inputs_directory (i_hash i) ]>
                         (i_test_options i)
                  else i_test_options i)
    inputs inputs'.
Proof.
  induction inputs as [|i0 rest IH]; intros inputs' w H; cbn [fetch_inputs] in H.
  - injection H as <-. constructor.
  - destruct (truthy_str (i_url i0)) eqn:Hu0.
    + cbv zeta in H.
      pose proof (downloadInput_some (i_hash i0) w) as Hsome.
      destruct (downloadInput agent_request inputs_directory backend_type base_address
                  (i_hash i0) w) as [t [r w1]]. cbn [fst snd] in *.
      destruct (yield_or_unable r) as [input_file|e] eqn:Hy; [|discriminate].
      destruct (verify_or_unable (w_fs w1) input_file) as [f|e] eqn:Hv; [|discriminate].
      cbn [fst snd] in H.
      destruct ((fetch_inputs agent_request inputs_directory backend_type base_address
                   rest w1).2.1) as [l|e] eqn:Hrest; [|discriminate].
      injection H as <-.
      destruct input_file as [f0|]; [|discriminate].
      destruct r as [[v|e]|e]; try discriminate. injection Hy as ->.
      destruct (Hsome f0 eq_refl) as [-> _].
      assert (f = InputFile_new (i_hash i0) inputs_directory) as ->.
      { cbn [verify_or_unable] in Hv.
        destruct (verify (w_fs w1) (InputFile_new (i_hash i0) inputs_directory))
          as [[]|[]]; congruence. }
      constructor; [|eapply IH; exact Hrest].
      cbn. rewrite Hu0. auto.
    + cbn [fst snd] in H.
      destruct ((fetch_inputs agent_request inputs_directory backend_type base_address
                   rest w).2.1) as [l|e] eqn:Hrest; [|discriminate].
      injection H as <-. constructor; [|eapply IH; exact Hrest].
      rewrite Hu0. auto.
Qed.

(** The same for the loop of [setup] over the tests. *)
Lemma fetch_all_keeps_cached loaders : forall w g,
  fileCached (w_fs w) g = Ok true ->
  fileCached
    (w_fs (fetch_all agent_request inputs_directory backend_type base_address
             loaders w).2.2) g = Ok true.
Proof.
  induction loaders as [|l rest IH]; intros w g Hg; [exact Hg|].
  cbn [fetch_all]. unfold fetchAndVerifyNetTestInput. cbn [fst snd].
  pose proof (fetch_inputs_keeps_cached (inputFiles l) w g Hg) as Hk.
  destruct ((fetch_inputs agent_request inputs_directory backend_type base_address
               (inputFiles l) w).2.1) as [inputs'|e]; cbn; [|exact Hk].
  apply IH, Hk.
Qed.

Lemma fetch_all_caches loaders : forall ls' w,
  (fetch_all agent_request inputs_directory backend_type base_address loaders w).2.1
  = Ok ls' ->
  forall l i, In l loaders -> In i (inputFiles l) -> truthy_str (i_url i) = true ->
    fileCached
      (w_fs (fetch_all agent_request inputs_directory backend_type base_address
               loaders w).2.2)
      (InputFile_new (i_hash i) inputs_directory) = Ok true.
Proof.
  induction loaders as [|l0 rest IH]; intros ls' w H l i Hl Hi Hu; [destruct Hl|].
  cbn [fetch_all] in *. unfold fetchAndVerifyNetTestInput in *. cbn [fst snd] in *.
  pose proof (fetch_inputs_caches (inputFiles l0)) as Hc.
  destruct ((fetch_inputs agent_request inputs_directory backend_type base_address
               (inputFiles l0) w).2.1) as [inputs'|e] eqn:Hf; cbn in H |- *;
    [|discriminate].
  destruct ((fetch_all agent_request inputs_directory backend_type base_address rest
               (fetch_inputs agent_request inputs_directory backend_type base_address
                  (inputFiles l0) w).2.2).2.1) as [ls|e] eqn:Hrest; [|discriminate].
  destruct Hl as [->|Hl].
  - apply fetch_all_keeps_cached. eapply Hc; eauto.
  - eapply IH; eauto.
Qed.

Lemma fetch_all_tests loaders : forall ls' w,
  (fetch_all agent_request inputs_directory backend_type base_address loaders w).2.1
  = Ok ls' ->
  Forall2 (fun l l' =>
             testName l' = testName l /\ testVersion l' = testVersion l
             /\ collector l' = collector l
             /\ map i_hash (inputFiles l') = map i_hash (inputFiles l))
    loaders ls'.
Proof.
  induction loaders as [|l0 rest IH]; intros ls' w H; cbn [fetch_all] in H.
  - injection H as <-. constructor.
  - unfold fetchAndVerifyNetTestInput in H. cbn [fst snd] in H.
    pose proof (fetch_inputs_entries (inputFiles l0)) as He.
    destruct ((fetch_inputs agent_request inputs_directory backend_type base_address
                 (inputFiles l0) w).2.1) as [inputs'|e] eqn:Hf; cbn in H; [|discriminate].
    destruct ((fetch_all agent_request inputs_directory backend_type base_address rest
                 (fetch_inputs agent_request inputs_directory backend_type base_address
                    (inputFiles l0) w).2.2).2.1) as [ls|e] eqn:Hrest; [|discriminate].
    injection H as <-. constructor; [|eapply IH; exact Hrest].
    cbn. repeat split; try reflexivity.
    specialize (He _ _ Hf). clear -He.
    induction He as [|i i' li li' (Hh & _) _ IHe]; [reflexivity|].
    cbn. rewrite Hh, IHe. reflexivity.
Qed.

End WithNetwork.

End InputFacts.

Module InputSpec.
Import Json Request Query Cache Deck Clients StrFacts CacheFacts RequestFacts RetryFacts
       InputFacts.

(** X13.  What [save] writes, [descriptorCached] reads back: for a loaded
    input whose descriptor file can be opened for writing (it is a file
    already, or a new file in a cache directory that exists), and a
    decoder that inverts the encoder on its dictionary, [save] succeeds
    and [descriptorCached] then answers [True] with the same descriptor. *)
Theorem save_then_descriptorCached (json_loads : string -> option Json.t)
    (json_dumps : Json.t -> string) (fs : gmap string node) (f : InputFile)
    (d : descriptor) :
  loaded f = Some d ->
  open_w fs (cached_descriptor f) = Ok tt ->
  json_loads (json_dumps (descriptor_object f d)) = Some (descriptor_object f d) ->
  (save json_dumps fs f).2 = Ok tt
  /\ descriptorCached json_loads (save json_dumps fs f).1 f = Ok (true, f).
Proof.
  intros Hl Hd Hrt. unfold save. rewrite Hd, Hl.
  split; [reflexivity|]. cbn [fst].
  unfold descriptorCached, path_exists, read_file.
  rewrite lookup_insert_eq.
  rewrite bool_decide_eq_true_2 by eauto.
  unfold mbind, result_bind, Py.bind. rewrite Hrt.
  rewrite (load_descriptor_object f d Hl). reflexivity.
Qed.

Lemma save_then_descriptorCached_witness :
  (save Fixture2.descriptor_dumps {[ "/var/cache" := Dir ]} Fixture2.loaded_input).2
  = Ok tt
  /\ descriptorCached Fixture2.descriptor_loads
       (save Fixture2.descriptor_dumps {[ "/var/cache" := Dir ]}
          Fixture2.loaded_input).1 Fixture2.loaded_input
     = Ok (true, Fixture2.loaded_input).
Proof.
  apply (save_then_descriptorCached Fixture2.descriptor_loads Fixture2.descriptor_dumps
           {[ "/var/cache" := Dir ]} Fixture2.loaded_input Fixture2.sample_descriptor).
  - reflexivity.
  - vm_compute. reflexivity.
  - reflexivity.
Defined.

(** X14.  How [save] fails.  When the descriptor file cannot be opened for
    writing, as in a cache directory that does not exist, [save] raises
    the [IOError] and writes nothing.  When it can, [save] on an input that
    was never loaded raises an [AttributeError] and leaves an empty
    descriptor file behind; as the empty text does not decode,
    [descriptorCached] raises a [ValueError] on that input from then on. *)
Theorem save_unloaded (json_loads : string -> option Json.t)
    (json_dumps : Json.t -> string) (fs : gmap string node) (f : InputFile) :
  loaded f = None ->
  json_loads EmptyString = None ->
  (open_w fs (cached_descriptor f) = Ok tt ->
   (save json_dumps fs f).2 = Raise AttributeError
   /\ (save json_dumps fs f).1 !! cached_descriptor f = Some (File EmptyString)
   /\ descriptorCached json_loads (save json_dumps fs f).1 f = Raise ValueError)
  /\ (forall e g, open_w fs (cached_descriptor g) = Raise e ->
        save json_dumps fs g = (fs, Raise e) /\ e = IOError).
Proof.
  intros Hl He. split.
  - intros Hd. unfold save. rewrite Hd, Hl. cbn [fst snd].
    split; [reflexivity|]. split; [apply lookup_insert_eq|].
    unfold descriptorCached, path_exists, read_file.
    rewrite lookup_insert_eq.
    rewrite bool_decide_eq_true_2 by eauto.
    unfold mbind, result_bind, Py.bind. rewrite He. reflexivity.
  - intros e g Hd. unfold save. rewrite Hd. split; [reflexivity|].
    unfold open_w in Hd.
    destruct (fs !! cached_descriptor g) as [[c|]|]; try discriminate;
      [congruence|].
    destruct (Str.eqb (basename (cached_descriptor g)) EmptyString); [congruence|].
    destruct (Str.forallb _ _); [discriminate|].
    destruct (fs !! dirname (cached_descriptor g)) as [[c|]|]; congruence.
Qed.

Lemma save_unloaded_witness :
  ((save Fixture2.descriptor_dumps {[ "/var/cache" := Dir ]}
      (InputFile_new Sample.empty_digest "/var/cache")).2
   = Raise AttributeError
   /\ descriptorCached sample_loads
        (save Fixture2.descriptor_dumps {[ "/var/cache" := Dir ]}
           (InputFile_new Sample.empty_digest "/var/cache")).1
        (InputFile_new Sample.empty_digest "/var/cache")
      = Raise ValueError)
  /\ save Fixture2.descriptor_dumps {[ "/var/cache" := Dir ]}
       (InputFile_new Sample.empty_digest "/srv/missing")
     = ({[ "/var/cache" := Dir ]}, Raise IOError).
Proof.
  destruct (save_unloaded sample_loads Fixture2.descriptor_dumps {[ "/var/cache" := Dir ]}
              (InputFile_new Sample.empty_digest "/var/cache") eq_refl eq_refl)
    as [Hopen Hclosed].
  split.
  - destruct Hopen as (H1 & _ & H3); [vm_compute; reflexivity|].
    split; [exact H1 | exact H3].
  - refine (proj1 (Hclosed IOError (InputFile_new Sample.empty_digest "/srv/missing") _)).
    vm_compute. reflexivity.
Defined.

(** X15.  The deferred of [downloadInput] never fires with a failure, and
    when it fires with an input file, that file is the one for the hash
    asked for and its payload verifies in the cache as the call leaves
    it. *)
Theorem downloadInput_verified {Net : Type}
    (agent_request : agent_kind -> string -> string -> string -> Net -> outcome * Net)
    (inputs_directory backend_type base_address h : string) (w : world Net) :
  (forall e,
     (downloadInput agent_request inputs_directory backend_type base_address h w).2.1
     = Ok (Raise e) -> False)
  /\ forall f,
       (downloadInput agent_request inputs_directory backend_type base_address h w).2.1
       = Ok (Ok (Some f)) ->
       f = InputFile_new h inputs_directory
       /\ fileCached
            (w_fs (downloadInput agent_request inputs_directory backend_type
                     base_address h w).2.2) f = Ok true.
Proof.
  split.
  - intros e H. exact (downloadInput_never_fails _ _ _ _ _ _ _ H).
  - intros f H. apply downloadInput_some. exact H.
Qed.

(** X16.  When the loop of [fetchAndVerifyNetTestInput] ends without an
    exception, every input with a URL verifies in the cache as the loop
    leaves it, however many downloads came after it. *)
Theorem fetch_inputs_all_cached {Net : Type}
    (agent_request : agent_kind -> string -> string -> string -> Net -> outcome * Net)
    (inputs_directory backend_type base_address : string)
    (inputs inputs' : list input_entry) (w : world Net) :
  (fetch_inputs agent_request inputs_directory backend_type base_address inputs w).2.1
  = Ok inputs' ->
  forall i, In i inputs -> truthy_str (i_url i) = true ->
    fileCached
      (w_fs (fetch_inputs agent_request inputs_directory backend_type base_address
               inputs w).2.2)
      (InputFile_new (i_hash i) inputs_directory) = Ok true.
Proof.
  intros H i Hin Hu.
  exact (fetch_inputs_caches agent_request inputs_directory backend_type base_address
           inputs inputs' w H i Hin Hu).
Qed.

Lemma fetch_inputs_all_cached_witness :
  (fetch_inputs (Sample.answering_agent {| status := 200; content_length := Some 0;
                                           body := EmptyString |})
     "/var/cache" "onion" "http://abcdefghijklmnop.onion" [Fixture.remote_input]
     {| w_fs := ∅; w_net := 0 |}).2.1
  = Ok [ {| i_hash := i_hash Fixture.remote_input; i_url := i_url Fixture.remote_input;
            i_address := i_address Fixture.remote_input; i_key := "file";
            i_test_options := {[ "file" := "/var/cache/" +:+ Sample.empty_digest ]} |} ]
  /\ fileCached
       (w_fs (fetch_inputs
                (Sample.answering_agent {| status := 200; content_length := Some 0;
                                           body := EmptyString |})
                "/var/cache" "onion" "http://abcdefghijklmnop.onion"
                [Fixture.remote_input] {| w_fs := ∅; w_net := 0 |}).2.2)
       (InputFile_new (i_hash Fixture.remote_input) "/var/cache") = Ok true.
Proof.
  assert (H : (fetch_inputs
                 (Sample.answering_agent {| status := 200; content_length := Some 0;
                                            body := EmptyString |})
                 "/var/cache" "onion" "http://abcdefghijklmnop.onion"
                 [Fixture.remote_input] {| w_fs := ∅; w_net := 0 |}).2.1
              = Ok [ {| i_hash := i_hash Fixture.remote_input;
                        i_url := i_url Fixture.remote_input;
                        i_address := i_address Fixture.remote_input; i_key := "file";
                        i_test_options :=
                          {[ "file" := "/var/cache/" +:+ Sample.empty_digest ]} |} ]).
  { vm_compute. reflexivity. }
  split; [exact H|].
  apply (fetch_inputs_all_cached _ _ _ _ _ _ _ H Fixture.remote_input);
    [left; reflexivity | reflexivity].
Defined.

(** X17.  The cache is asked before the network: when every input with a
    URL already verifies in the cache, the loop makes no request, leaves
    the world as it is and ends without an exception. *)
Theorem fetch_inputs_cached_no_request {Net : Type}
    (agent_request : agent_kind -> string -> string -> string -> Net -> outcome * Net)
    (inputs_directory backend_type base_address : string)
    (inputs : list input_entry) (w : world Net) :
  (forall i, In i inputs -> truthy_str (i_url i) = true ->
     fileCached (w_fs w) (InputFile_new (i_hash i) inputs_directory) = Ok true) ->
  exists inputs',
    fetch_inputs agent_request inputs_directory backend_type base_address inputs w
    = ([], (Ok inputs', w))
    /\ length inputs' = length inputs.
Proof.
  induction inputs as [|i rest IH]; intros Hall.
  - exists []. split; reflexivity.
  - destruct IH as (rest' & Hr & Hlen).
    { intros j Hj. apply Hall. right. exact Hj. }
    cbn [fetch_inputs]. destruct (truthy_str (i_url i)) eqn:Hu.
    + pose proof (Hall i (or_introl eq_refl) Hu) as Hc. cbv zeta.
      unfold downloadInput. rewrite Hc. cbn [fst snd yield_or_unable verify_or_unable].
      rewrite (fileCached_true_verify _ _ Hc). rewrite Hr. cbn [fst snd].
      eexists. split; [reflexivity|]. simpl. rewrite Hlen. reflexivity.
    + rewrite Hr. cbn [fst snd]. eexists. split; [reflexivity|].
      simpl. rewrite Hlen. reflexivity.
Qed.

Lemma fetch_inputs_cached_no_request_witness :
  exists inputs',
    fetch_inputs Sample.failing_agent "/var/cache" "onion" "http://abcdefghijklmnop.onion"
      [Fixture.remote_input; Fixture.input_named "a"]
      {| w_fs := write_payload ∅ "/var/cache" Sample.empty_digest EmptyString;
         w_net := 0 |}
    = ([], (Ok inputs',
            {| w_fs := write_payload ∅ "/var/cache" Sample.empty_digest EmptyString;
               w_net := 0 |}))
    /\ length inputs' = 2.
Proof.
  apply (fetch_inputs_cached_no_request Sample.failing_agent "/var/cache" "onion"
           "http://abcdefghijklmnop.onion"
           [Fixture.remote_input; Fixture.input_named "a"]
           {| w_fs := write_payload ∅ "/var/cache" Sample.empty_digest EmptyString;
              w_net := 0 |}).
  intros i [<-|[<-|[]]] Hu; [vm_compute; reflexivity | discriminate Hu].
Defined.

End InputSpec.

Module GetInputSpec.
Import Json Request Query Cache Deck Clients StrFacts CacheFacts RequestFacts RetryFacts
       InputFacts.

Lemma load_same_paths f g v :
  id f = id g -> cached_file f = cached_file g ->
  cached_descriptor f = cached_descriptor g ->
  load f v = load g v.
Proof. intros E1 E2 E3. unfold load. rewrite E1, E2, E3. reflexivity. Qed.

(** X18.  The deferred of [getInput] never fires with a failure, and once
    it has fired with an input file the descriptor is cached: with a
    decoder that inverts the encoder on that file's dictionary, asking
    again in the world the first call left makes no request and gives the
    same input file. *)
Theorem getInput_then_cached {Net : Type}
    (agent_request : agent_kind -> string -> string -> string -> Net -> outcome * Net)
    (json_loads : string -> option Json.t) (json_dumps : Json.t -> string)
    (get_error : Json.t -> exn)
    (inputs_directory backend_type base_address h : string)
    (w : world Net) (f : InputFile) :
  (getInput agent_request json_loads json_dumps get_error inputs_directory backend_type
            base_address h w).2.1 = Ok (Ok (Some f)) ->
  (forall d, loaded f = Some d ->
     json_loads (json_dumps (descriptor_object f d)) = Some (descriptor_object f d)) ->
  getInput agent_request json_loads json_dumps get_error inputs_directory backend_type
           base_address h
           (getInput agent_request json_loads json_dumps get_error inputs_directory
                     backend_type base_address h w).2.2
  = ([], (Ok (Ok (Some f)),
          (getInput agent_request json_loads json_dumps get_error inputs_directory
                    backend_type base_address h w).2.2))
  /\ forall w0 e,
       (getInput agent_request json_loads json_dumps get_error inputs_directory
                 backend_type base_address h w0).2.1 <> Ok (Raise e).
Proof.
  intros H Hrt. split.
  - unfold getInput in H |- *.
    destruct (descriptorCached json_loads (w_fs w) (InputFile_new h inputs_directory))
      as [[[|] f0]|e] eqn:Hd; cbn [fst snd] in *.
    + injection H as <-. rewrite Hd. reflexivity.
    + set (run := queryBackend _ _ _ _ _ _ _ _ _ _) in *.
      destruct (run.2.1) as [descriptor|e]; cbn [fst snd] in *; [|discriminate].
      destruct (load (InputFile_new h inputs_directory) descriptor) as [f1|e] eqn:Hload;
        cbn [fst snd] in *; [|discriminate].
      destruct (load_keeps _ _ _ Hload) as (Hid & Hcf & Hcd & d & Hld).
      unfold save in *. rewrite Hld in *.
      destruct (open_w (w_fs run.2.2) (cached_descriptor f1)) as [[]|e] eqn:Hopen;
        cbn [fst snd] in *; [|discriminate].
      injection H as <-.
      unfold descriptorCached, path_exists, read_file. cbn [w_fs fst snd].
      rewrite <- Hcd, !lookup_insert_eq.
      rewrite bool_decide_eq_true_2 by eauto.
      unfold mbind, result_bind, Py.bind.
      rewrite (Hrt d Hld).
      rewrite <- (load_same_paths f1 (InputFile_new h inputs_directory) _ Hid Hcf Hcd).
      rewrite (load_descriptor_object f1 d Hld). reflexivity.
    + discriminate.
  - intros w0 e. unfold getInput.
    destruct (descriptorCached json_loads (w_fs w0) (InputFile_new h inputs_directory))
      as [[[|] f0]|e0]; cbn [fst snd]; try discriminate.
    set (run := queryBackend _ _ _ _ _ _ _ _ _ _).
    destruct (run.2.1) as [descriptor|e1]; cbn [fst snd]; [|discriminate].
    destruct (load _ descriptor) as [f1|e1]; cbn [fst snd]; [|discriminate].
    destruct (save json_dumps (w_fs run.2.2) f1).2; discriminate.
Qed.

Lemma getInput_then_cached_witness :
  (getInput (Sample.answering_agent {| status := 200; content_length := None;
                                       body := "descriptor of alexa" |})
            Fixture2.descriptor_loads Fixture2.descriptor_dumps Sample.get_error
            "/var/cache" "onion" "http://abcdefghijklmnop.onion" Sample.empty_digest
            {| w_fs := {[ "/var/cache" := Dir ]}; w_net := 0 |}).2.1
  = Ok (Ok (Some Fixture2.loaded_input))
  /\ getInput (Sample.answering_agent {| status := 200; content_length := None;
                                         body := "descriptor of alexa" |})
       Fixture2.descriptor_loads Fixture2.descriptor_dumps Sample.get_error
       "/var/cache" "onion" "http://abcdefghijklmnop.onion" Sample.empty_digest
       (getInput (Sample.answering_agent {| status := 200; content_length := None;
                                            body := "descriptor of alexa" |})
          Fixture2.descriptor_loads Fixture2.descriptor_dumps Sample.get_error
          "/var/cache" "onion" "http://abcdefghijklmnop.onion" Sample.empty_digest
          {| w_fs := {[ "/var/cache" := Dir ]}; w_net := 0 |}).2.2
     = ([], (Ok (Ok (Some Fixture2.loaded_input)),
             (getInput (Sample.answering_agent {| status := 200; content_length := None;
                                                  body := "descriptor of alexa" |})
                Fixture2.descriptor_loads Fixture2.descriptor_dumps Sample.get_error
                "/var/cache" "onion" "http://abcdefghijklmnop.onion" Sample.empty_digest
                {| w_fs := {[ "/var/cache" := Dir ]}; w_net := 0 |}).2.2)).
Proof.
  assert (H : (getInput (Sample.answering_agent
                           {| status := 200; content_length := None;
                              body := "descriptor of alexa" |})
                 Fixture2.descriptor_loads Fixture2.descriptor_dumps Sample.get_error
                 "/var/cache" "onion" "http://abcdefghijklmnop.onion" Sample.empty_digest
                 {| w_fs := {[ "/var/cache" := Dir ]}; w_net := 0 |}).2.1
              = Ok (Ok (Some Fixture2.loaded_input))).
  { vm_compute. reflexivity. }
  split; [exact H|].
  apply (getInput_then_cached _ _ _ _ _ _ _ _ _ _ H).
  intros d [= <-]. reflexivity.
Defined.

End GetInputSpec.

(** ** The deck: matching, the two lookups and [insert] *)

Module LookupFacts.
Import Json Request Cache Deck Errors Support DeckOps StrFacts DeckFacts ClientFacts.

Lemma list_to_set_In (a b : list string) :
  (list_to_set a : gset string) = list_to_set b <-> forall h, In h a <-> In h b.
Proof.
  rewrite set_eq. split; intros H h; specialize (H h);
    rewrite !elem_of_list_to_set, !list_elem_of_In in *; exact H.
Qed.

Lemma find_skip pre rest name version hashes :
  (forall x, In x pre ->
     ~ (p_name x = name /\ p_version x = version
        /\ forall h, In h (p_input_hashes x) <-> In h hashes)) ->
  find_collector_and_test_helpers (pre ++ rest)%list name version hashes
  = find_collector_and_test_helpers rest name version hashes.
Proof.
  induction pre as [|x pre IH]; intros Hpre; [reflexivity|].
  cbn [app find_collector_and_test_helpers].
  rewrite IH by (intros y Hy; apply Hpre; right; exact Hy).
  destruct (Str.eqb (p_name x) name) eqn:En; [|reflexivity].
  destruct (Str.eqb (p_version x) version) eqn:Ev; [|reflexivity].
  destruct (bool_decide _) eqn:Es; [|reflexivity].
  exfalso. apply (Hpre x); [left; reflexivity|].
  apply eqb_true in En. apply eqb_true in Ev. apply bool_decide_eq_true_1 in Es.
  rewrite list_to_set_In in Es. auto.
Qed.

Lemma find_here nt post name version hashes :
  p_name nt = name -> p_version nt = version ->
  (forall h, In h (p_input_hashes nt) <-> In h hashes) ->
  find_collector_and_test_helpers (nt :: post) name version hashes
  = Some (p_collector nt, p_test_helpers nt).
Proof.
  intros Hn Hv Hs. cbn [find_collector_and_test_helpers].
  rewrite (proj2 (eqb_true _ _) Hn), (proj2 (eqb_true _ _) Hv).
  rewrite bool_decide_eq_true_2 by (apply list_to_set_In; exact Hs).
  reflexivity.
Qed.

(** What the loop over the missing helpers leaves alone. *)
Lemma set_test_helpers_keeps th missing l l' r :
  set_test_helpers th missing l = (l', r) ->
  testName l' = testName l /\ testVersion l' = testVersion l
  /\ collector l' = collector l /\ inputFiles l' = inputFiles l
  /\ missingTestHelpers l' = missingTestHelpers l.
Proof.
  revert l. induction missing as [|[o n] rest IH]; intros l H; cbn in H.
  - injection H as <- _. auto.
  - destruct (th !! n); [|injection H as <- _; auto].
    apply IH in H. cbn in H. exact H.
Qed.

Lemma assign_helpers_keeps resp wants missing l l' r :
  assign_helpers resp wants missing l = (l', r) ->
  testName l' = testName l /\ testVersion l' = testVersion l
  /\ inputFiles l' = inputFiles l /\ missingTestHelpers l' = missingTestHelpers l
  /\ (wants = false -> collector l' = collector l).
Proof.
  revert l. induction missing as [|[o n] rest IH]; intros l H; cbn in H.
  - injection H as <- _. auto.
  - destruct (resp !! n); [|injection H as <- _; auto].
    apply IH in H. cbn in H. destruct H as (? & ? & ? & ? & Hc).
    repeat split; try assumption. intros ->. rewrite Hc; reflexivity.
Qed.

(** An option is set when both tables hold the same address under it. *)
Lemma set_test_helpers_sets th missing l l' :
  set_test_helpers th missing l = (l', Ok tt) ->
  forall o,
    (exists n, In (o, n) missing)
    \/ (exists a, localOptions l !! o = Some a /\ testHelpers l !! o = Some a) ->
    exists a, localOptions l' !! o = Some a /\ testHelpers l' !! o = Some a.
Proof.
  revert l. induction missing as [|[o0 n0] rest IH]; intros l H o Ho; cbn in H.
  - injection H as <-. destruct Ho as [[n []]|Ho]. exact Ho.
  - destruct (th !! n0) as [addr|]; [|discriminate].
    apply (IH _ H o). cbn [localOptions testHelpers].
    destruct (decide (o0 = o)) as [->|Hne].
    + right. exists addr. rewrite !lookup_insert_eq. auto.
    + destruct Ho as [[n [Hin|Hin]]|Ho].
      * congruence.
      * left. eauto.
      * right. rewrite !lookup_insert_ne by exact Hne. exact Ho.
Qed.

Lemma assign_helpers_sets resp wants missing l l' :
  assign_helpers resp wants missing l = (l', Ok tt) ->
  forall o,
    (exists n, In (o, n) missing)
    \/ (exists a, localOptions l !! o = Some a /\ testHelpers l !! o = Some a) ->
    exists a, localOptions l' !! o = Some a /\ testHelpers l' !! o = Some a.
Proof.
  revert l. induction missing as [|[o0 n0] rest IH]; intros l H o Ho; cbn in H.
  - injection H as <-. destruct Ho as [[n []]|Ho]. exact Ho.
  - destruct (resp !! n0) as [answer|]; [|discriminate].
    apply (IH _ H o). cbn [localOptions testHelpers].
    destruct (decide (o0 = o)) as [->|Hne].
    + right. exists (h_address answer). rewrite !lookup_insert_eq. auto.
    + destruct Ho as [[n [Hin|Hin]]|Ho].
      * congruence.
      * left. eauto.
      * right. rewrite !lookup_insert_ne by exact Hne. exact Ho.
Qed.

Lemma assign_helpers_collector resp missing l l' :
  missing <> [] ->
  (forall name a, resp !! name = Some a -> h_collector a <> EmptyString) ->
  assign_helpers resp true missing l = (l', Ok tt) ->
  truthy_str (collector l') = true.
Proof.
  revert l. induction missing as [|[o n] rest IH]; intros l Hne Hgood H; [congruence|].
  cbn in H. destruct (resp !! n) as [answer|] eqn:Hn; [|discriminate].
  destruct rest as [|p rest'].
  - cbn in H. injection H as <-. cbn.
    apply negb_true_iff, eqb_false. exact (Hgood n answer Hn).
  - apply (IH _ ltac:(discriminate) Hgood H).
Qed.

Lemma truthy_str_Some c : truthy_str c = true -> c <> None.
Proof. destruct c; [discriminate|discriminate]. Qed.

Lemma Forall2_same {A} (R : A -> A -> Prop) (l : list A) :
  (forall x, R x x) -> Forall2 R l l.
Proof. intros HR. induction l; constructor; auto. Qed.

(** A test as the lookups may change it: name, version, inputs and missing
    helpers stay, and so does a collector the test came with. *)
Local Abbreviation kept l l' :=
  (testName l' = testName l /\ testVersion l' = testVersion l
   /\ inputFiles l' = inputFiles l /\ missingTestHelpers l' = missingTestHelpers l
   /\ (truthy_str (collector l) = true -> collector l' = collector l)).

Lemma assign_collectors_keeps provided loaders :
  Forall2 (fun l l' => kept l l') loaders (assign_collectors provided loaders).1.
Proof.
  induction loaders as [|l rest IH]; [constructor|].
  cbn [assign_collectors].
  destruct (find_collector_and_test_helpers _ _ _ _) as [[c th]|];
    [|apply Forall2_same; intros; repeat split; auto].
  destruct (set_test_helpers th (missingTestHelpers l) l) as [l' [[]|e]] eqn:Hs;
    apply set_test_helpers_keeps in Hs; destruct Hs as (Hn & Hv & Hc & Hi & Hm);
    cbn [fst]; constructor.
  - destruct (negb (truthy_str (collector l'))) eqn:Ht; cbn;
      repeat split; try assumption.
    + intros Hl. rewrite Hc, Hl in Ht. discriminate.
    + intros _. exact Hc.
  - exact IH.
  - repeat split; auto.
  - apply Forall2_same; intros; repeat split; auto.
Qed.

Lemma assign_from_helpers_keeps resp no_collector loaders :
  Forall2 (fun l l' => kept l l' /\ (no_collector = true -> collector l' = collector l))
    loaders (assign_from_helpers resp no_collector loaders).1.
Proof.
  induction loaders as [|l rest IH]; [constructor|].
  cbn [assign_from_helpers].
  destruct ((length (missingTestHelpers l) =? 0)%nat
            && (negb (truthy_str (collector l)) && negb no_collector)) eqn:Hc.
  - apply andb_prop in Hc as [_ Hc]. apply andb_prop in Hc as [Ht Hnc].
    destruct (resp !! "default") as [answer|];
      [|apply Forall2_same; intros; repeat split; auto].
    cbn [fst]. constructor; [|exact IH]. cbn.
    repeat split; auto.
    + intros Hl. rewrite Hl in Ht. discriminate.
    + intros ->. discriminate.
  - destruct (assign_helpers resp _ (missingTestHelpers l) l) as [l' [[]|e]] eqn:Hs;
      apply assign_helpers_keeps in Hs; destruct Hs as (Hn & Hv & Hi & Hm & Hk);
      cbn [fst]; constructor.
    + repeat split; try assumption.
      * intros Hl. apply Hk. rewrite Hl. reflexivity.
      * intros ->. apply Hk. apply andb_false_r.
    + exact IH.
    + repeat split; try assumption.
      * intros Hl. apply Hk. rewrite Hl. reflexivity.
      * intros ->. apply Hk. apply andb_false_r.
    + apply Forall2_same; intros; repeat split; auto.
Qed.

(** A test is resolved when it has a collector and each of its missing
    helpers has its address in both option tables. *)
Local Abbreviation helpers_set l' :=
  (forall o n, In (o, n) (missingTestHelpers l') ->
     exists a, localOptions l' !! o = Some a /\ testHelpers l' !! o = Some a).

Lemma assign_collectors_resolved provided loaders ls' :
  (forall nt, In nt provided -> p_collector nt <> EmptyString) ->
  assign_collectors provided loaders = (ls', Ok tt) ->
  Forall (fun l' => truthy_str (collector l') = true /\ helpers_set l') ls'.
Proof.
  intros Hgood. revert ls'. induction loaders as [|l rest IH]; intros ls' H; cbn in H.
  - injection H as <-. constructor.
  - destruct (find_collector_and_test_helpers _ _ _ _) as [[c th]|] eqn:Hfind;
      [|discriminate].
    destruct (set_test_helpers th (missingTestHelpers l) l) as [l' [[]|e]] eqn:Hs;
      [|discriminate].
    destruct (assign_collectors provided rest) as [r1 r2] eqn:Hr. cbn in H.
    injection H as <- ->. constructor; [|apply IH; reflexivity].
    pose proof (set_test_helpers_keeps _ _ _ _ _ Hs) as (_ & _ & _ & _ & Hm).
    pose proof (set_test_helpers_sets _ _ _ _ Hs) as Hset.
    destruct (find_Some _ _ _ _ _ _ Hfind) as (nt & Hin & _ & _ & _ & -> & _).
    destruct (negb (truthy_str (collector l'))) eqn:Ht; cbn; split.
    + apply negb_true_iff, eqb_false. exact (Hgood nt Hin).
    + intros o n Hin'. apply Hset. left. exists n. rewrite <- Hm. exact Hin'.
    + apply negb_false_iff. exact Ht.
    + intros o n Hin'. apply Hset. left. exists n. rewrite <- Hm. exact Hin'.
Qed.

Lemma assign_from_helpers_resolved resp loaders ls' :
  (forall name a, resp !! name = Some a -> h_collector a <> EmptyString) ->
  assign_from_helpers resp false loaders = (ls', Ok tt) ->
  Forall (fun l' => truthy_str (collector l') = true /\ helpers_set l') ls'.
Proof.
  intros Hgood. revert ls'. induction loaders as [|l rest IH]; intros ls' H; cbn in H.
  - injection H as <-. constructor.
  - rewrite andb_true_r in H.
    destruct (missingTestHelpers l) as [|m ms] eqn:Hm.
    + cbn in H. destruct (truthy_str (collector l)) eqn:Ht; cbn in H.
      * destruct (assign_from_helpers resp false rest) as [r1 r2] eqn:Hr. cbn in H.
        injection H as <- ->. constructor; [|apply IH; reflexivity].
        split; [exact Ht|]. rewrite Hm. intros o n [].
      * destruct (resp !! "default") as [answer|] eqn:Hdef; [|discriminate].
        destruct (assign_from_helpers resp false rest) as [r1 r2] eqn:Hr. cbn in H.
        injection H as <- ->. constructor; [|apply IH; reflexivity].
        cbn. split; [|rewrite Hm; intros o n []].
        apply negb_true_iff, eqb_false. exact (Hgood _ _ Hdef).
    + cbn [length Nat.eqb andb] in H.
      destruct (assign_helpers resp _ (m :: ms) l) as [l' [[]|e]] eqn:Hs; [|discriminate].
      destruct (assign_from_helpers resp false rest) as [r1 r2] eqn:Hr. cbn in H.
      injection H as <- ->. constructor; [|apply IH; reflexivity].
      pose proof (assign_helpers_keeps _ _ _ _ _ _ Hs) as (_ & _ & _ & Hm' & Hk).
      pose proof (assign_helpers_sets _ _ _ _ _ Hs) as Hset.
      split.
      * destruct (truthy_str (collector l)) eqn:Ht; cbn [negb andb] in Hs, Hk.
        -- rewrite Hk by reflexivity. exact Ht.
        -- apply (assign_helpers_collector resp (m :: ms) l l');
             [discriminate|exact Hgood|exact Hs].
      * intros o n Hin. apply Hset. left. exists n. rewrite <- Hm, <- Hm'. exact Hin.
Qed.


Lemma no_missing_of_concat loaders :
  concat (map (fun l => map snd (missingTestHelpers l)) loaders) = [] ->
  Forall (fun l => missingTestHelpers l = []) loaders.
Proof.
  induction loaders as [|l rest IH]; cbn; [constructor|].
  intros H. apply app_eq_nil in H as [Hl Hr]. constructor; [|auto].
  destruct (missingTestHelpers l); [reflexivity|discriminate].
Qed.

Lemma collectors_of_flag loaders :
  requires_collector false loaders = false ->
  Forall (fun l => truthy_str (collector l) = true) loaders.
Proof.
  unfold requires_collector. induction loaders as [|l rest IH]; cbn; [constructor|].
  intros H. apply orb_false_elim in H as [Hl Hr]. constructor; [|auto].
  rewrite andb_true_r in Hl. apply negb_false_iff. exact Hl.
Qed.

Lemma startswith_http_not_https c :
  Str.startswith c "http://" = true ->
  Str.startswith c "https://" = false /\ truthy_str (Some c) = true.
Proof.
  intros H. destruct (startswith_split _ _ H) as [r ->]. split; reflexivity.
Qed.

Lemma startswith_https_truthy c :
  Str.startswith c "https://" = true -> truthy_str (Some c) = true.
Proof.
  intros H. destruct (startswith_split _ _ H) as [r ->]. reflexivity.
Qed.

End LookupFacts.

Module DeckOpsSpec.
Import Json Request Cache Deck Errors Support DeckOps StrFacts DeckFacts LookupFacts.

(** X19.  The first assignment that matches a test wins: assignments in
    front of it that do not match are passed over, whatever comes after it
    is not looked at, and the order and the repetitions in the two lists of
    input hashes do not matter. *)
Theorem find_first_match (pre post : list provided_net_test) (nt : provided_net_test)
    (name version : string) (hashes : list string) :
  (forall x, In x pre ->
     ~ (p_name x = name /\ p_version x = version
        /\ forall h, In h (p_input_hashes x) <-> In h hashes)) ->
  p_name nt = name -> p_version nt = version ->
  (forall h, In h (p_input_hashes nt) <-> In h hashes) ->
  find_collector_and_test_helpers (pre ++ nt :: post)%list name version hashes
  = Some (p_collector nt, p_test_helpers nt).
Proof.
  intros Hpre Hn Hv Hs.
  rewrite (find_skip pre (nt :: post) name version hashes Hpre).
  apply find_here; assumption.
Qed.

Lemma find_first_match_witness :
  find_collector_and_test_helpers
    ([Fixture.assignment ["a"]] ++ Fixture.assignment ["b"; "a"; "a"]
       :: [Fixture.assignment ["a"; "b"]])%list "x" "1" ["a"; "b"]
  = Some (p_collector (Fixture.assignment ["b"; "a"; "a"]),
          p_test_helpers (Fixture.assignment ["b"; "a"; "a"])).
Proof.
  apply (find_first_match [Fixture.assignment ["a"]] [Fixture.assignment ["a"; "b"]]
           (Fixture.assignment ["b"; "a"; "a"]) "x" "1" ["a"; "b"]).
  - intros x [<-|[]] (_ & _ & H).
    destruct (proj2 (H "b") (or_intror (or_introl eq_refl))) as [E|[]]. discriminate E.
  - reflexivity.
  - reflexivity.
  - intros h. cbn. intuition.
Defined.

(** X20.  However the bouncer answers and however the method ends, the two
    lookups hand back the same tests in the same order: name, version,
    inputs and missing helpers are untouched and a test that came with a
    collector keeps it; with [no_collector] set, [lookupTestHelpers]
    changes no collector at all. *)
Theorem lookups_keep_tests
    (lookupTestCollector : list required_net_test -> result (list provided_net_test))
    (lookupTestHelpers : list string -> result (gmap string helper_answer))
    (no_collector : bool) (loaders : list NetTestLoader) :
  Forall2 (fun l l' =>
             testName l' = testName l /\ testVersion l' = testVersion l
             /\ inputFiles l' = inputFiles l
             /\ missingTestHelpers l' = missingTestHelpers l
             /\ (truthy_str (collector l) = true -> collector l' = collector l))
    loaders (lookupCollector lookupTestCollector no_collector loaders).2.1
  /\ Forall2 (fun l l' =>
                (testName l' = testName l /\ testVersion l' = testVersion l
                 /\ inputFiles l' = inputFiles l
                 /\ missingTestHelpers l' = missingTestHelpers l
                 /\ (truthy_str (collector l) = true -> collector l' = collector l))
                /\ (no_collector = true -> collector l' = collector l))
       loaders (lookupTestHelpers_deck lookupTestHelpers no_collector loaders).2.1.
Proof.
  split.
  - unfold lookupCollector.
    destruct (negb (requires_test_helpers loaders) && _);
      [apply Forall2_same; intros; repeat split; auto|].
    destruct (lookupTestCollector _) as [provided|e];
      [|apply Forall2_same; intros; repeat split; auto].
    apply assign_collectors_keeps.
  - unfold lookupTestHelpers_deck.
    destruct (bool_decide _ && _);
      [apply Forall2_same; intros; repeat split; auto|].
    destruct (lookupTestHelpers _) as [resp|e];
      [|apply Forall2_same; intros; repeat split; auto].
    apply assign_from_helpers_keeps.
Qed.



(** X22.  When [lookupTestHelpers] completes, collectors are not switched
    off and no entry of the bouncer's answer carries an empty collector,
    every test has a collector that the code's own test reads as one, a
    string that is not empty, and every missing helper has its address
    under its option in both [localOptions] and [testHelpers]. *)
Theorem lookupTestHelpers_resolved
    (lookupTestHelpers : list string -> result (gmap string helper_answer))
    (asked : bool) (loaders ls' : list NetTestLoader) :
  lookupTestHelpers_deck lookupTestHelpers false loaders = (asked, (ls', Ok tt)) ->
  (forall names response name a,
     lookupTestHelpers names = Ok response -> response !! name = Some a ->
     h_collector a <> EmptyString) ->
  Forall (fun l' =>
            truthy_str (collector l') = true
            /\ forall o n, In (o, n) (missingTestHelpers l') ->
                 exists a, localOptions l' !! o = Some a /\ testHelpers l' !! o = Some a)
    ls'.
Proof.
  unfold lookupTestHelpers_deck. intros H Hgood. revert H.
  destruct (bool_decide _ && negb (requires_collector false loaders)) eqn:Hc.
  - intros [= <- <-]. apply andb_prop in Hc as [Hh Hcol].
    apply bool_decide_eq_true_1 in Hh. apply negb_true_iff in Hcol.
    pose proof (no_missing_of_concat _ Hh) as Hm.
    pose proof (collectors_of_flag _ Hcol) as Hf.
    rewrite Forall_forall in Hm, Hf |- *. intros l Hl. split; [auto|].
    rewrite (Hm l Hl). intros o n [].
  - destruct (lookupTestHelpers _) as [resp|e] eqn:Hlk; [|discriminate].
    intros [= <- H].
    exact (assign_from_helpers_resolved resp loaders ls'
             (fun name a => Hgood _ _ name a Hlk) H).
Qed.

Lemma lookupTestHelpers_resolved_witness :
  Forall (fun l' =>
            truthy_str (collector l') = true
            /\ forall o n, In (o, n) (missingTestHelpers l') ->
                 exists a, localOptions l' !! o = Some a /\ testHelpers l' !! o = Some a)
    [Fixture2.test_with_helper].
Proof.
  apply (lookupTestHelpers_resolved (fun _ => Ok Fixture2.helper_answers)
           true [Fixture2.test_missing_helper]).
  - vm_compute. reflexivity.
  - intros names response name a [= <-] Ha. unfold Fixture2.helper_answers in Ha.
    apply lookup_singleton_Some in Ha as [_ <-]. discriminate.
Defined.

(** X23.  [insert] appends the test exactly when it does not raise, and a
    raising call leaves the list of tests alone.  A test is accepted with
    an [http://] collector only under [insecure_collector], with an
    [https://] collector only on Twisted 14.0.2 or later, and after a
    [MissingTestHelper] only on a deck with a bouncer, which then requires
    Tor; a deck that requires Tor keeps doing so. *)
Theorem insert_policy (cfg : config) (checkOptions : result unit)
    (loader_requiresTor : bool) (l : NetTestLoader) (d d' : deck) (r : result unit) :
  insert cfg checkOptions loader_requiresTor l d = (d', r) ->
  bouncer d' = bouncer d
  /\ (requiresTor d = true -> requiresTor d' = true)
  /\ netTestLoaders d'
     = match r with
       | Ok _ => (netTestLoaders d ++ [l])%list
       | Raise _ => netTestLoaders d
       end
  /\ (r = Ok tt ->
      (forall c, collector l = Some c -> Str.startswith c "http://" = true ->
         insecure_collector cfg = true)
      /\ (forall c, collector l = Some c -> Str.startswith c "https://" = true ->
            version_lt (twisted_version cfg) _twisted_14_0_2_version = false)
      /\ (forall e, checkOptions = Raise e ->
            is_MissingTestHelper e = true /\ bouncer d <> EmptyString
            /\ requiresTor d' = true)
      /\ (checkOptions = Ok tt -> loader_requiresTor = true -> requiresTor d' = true)).
Proof.
  unfold insert.
  set (checked := match checkOptions with Ok _ => _ | Raise e => _ end).
  assert (Hchk : bouncer checked.1 = bouncer d
                  /\ (requiresTor d = true -> requiresTor checked.1 = true)
                  /\ netTestLoaders checked.1 = netTestLoaders d
                  /\ (checked.2 = Ok tt ->
                      (forall e, checkOptions = Raise e ->
                         is_MissingTestHelper e = true /\ bouncer d <> EmptyString
                         /\ requiresTor checked.1 = true)
                      /\ (checkOptions = Ok tt -> loader_requiresTor = true ->
                          requiresTor checked.1 = true))).
  { subst checked. destruct checkOptions as [[]|e].
    - destruct loader_requiresTor; cbn; repeat split; auto; try discriminate.
    - destruct (is_MissingTestHelper e) eqn:He; [|cbn; repeat split; auto; discriminate].
      destruct (Str.eqb (bouncer d) EmptyString) eqn:Hb;
        [cbn; repeat split; auto; discriminate|].
      apply eqb_false in Hb. cbn. repeat split; auto; try discriminate; congruence. }
  destruct Hchk as (Hb & Ht & Hl & Hok).
  destruct (checked.2) as [[]|e] eqn:Hc.
  2:{ intros [= <- <-].
      split; [exact Hb|split; [exact Ht|split; [exact Hl|intros [=]]]]. }
  specialize (Hok eq_refl). destruct Hok as [Hraise Htor].
  destruct (collector l) as [c|] eqn:Hcol.
  2:{ cbn. intros [= <- <-]. cbn [bouncer requiresTor netTestLoaders].
      split; [exact Hb|split; [exact Ht|split; [rewrite Hl; reflexivity|]]].
      intros _. split; [|split; [|split; [exact Hraise|exact Htor]]].
      - intros c [=].
      - intros c [=]. }
  destruct (Str.startswith c "https://") eqn:Hs.
  - rewrite (startswith_https_truthy c Hs). cbn [andb].
    destruct (version_lt _ _) eqn:Hv; intros [= <- <-].
    + split; [exact Hb|split; [exact Ht|split; [exact Hl|intros [=]]]].
    + cbn [bouncer requiresTor netTestLoaders].
      split; [exact Hb|split; [exact Ht|split; [rewrite Hl; reflexivity|]]].
      intros _. split; [|split; [|split; [exact Hraise|exact Htor]]].
      * intros c0 [= <-] H0. apply startswith_http_not_https in H0 as [H0 _]. congruence.
      * intros c0 _ _. first [exact Hv|reflexivity].
  - rewrite andb_false_r.
    destruct (Str.startswith c "http://") eqn:Hh.
    + rewrite (proj2 (startswith_http_not_https c Hh)). cbn [andb].
      destruct (insecure_collector cfg) eqn:Hi; cbn [negb]; intros [= <- <-].
      * cbn [bouncer requiresTor netTestLoaders].
        split; [exact Hb|split; [exact Ht|split; [rewrite Hl; reflexivity|]]].
        intros _. split; [|split; [|split; [exact Hraise|exact Htor]]].
        -- intros c0 _ _. reflexivity.
        -- intros c0 [= <-] H0. congruence.
      * split; [exact Hb|split; [exact Ht|split; [exact Hl|intros [=]]]].
    + rewrite andb_false_r. intros [= <- <-].
      cbn [bouncer requiresTor netTestLoaders].
      split; [exact Hb|split; [exact Ht|split; [rewrite Hl; reflexivity|]]].
      intros _. split; [|split; [|split; [exact Hraise|exact Htor]]].
      * intros c0 [= <-] H0. congruence.
      * intros c0 [= <-] H0. congruence.
Qed.

Lemma insert_policy_witness :
  insecure_collector {| twisted_version := (13, 2, 0)%nat; insecure_backend := false;
                        insecure_collector := true; tor_state := false;
                        socks_port := None |} = true.
Proof.
  refine (proj1 (proj2 (proj2 (proj2
            (insert_policy
               {| twisted_version := (13, 2, 0)%nat; insecure_backend := false;
                  insecure_collector := true; tor_state := false; socks_port := None |}
               (Raise MissingTestHelper) false
               (set_collector Fixture.test_x "http://collector.example")
               {| requiresTor := false; bouncer := "httpo://abcdefghijklmnop.onion";
                  netTestLoaders := [] |}
               {| requiresTor := true; bouncer := "httpo://abcdefghijklmnop.onion";
                  netTestLoaders := [set_collector Fixture.test_x "http://collector.example"] |}
               (Ok tt) _))) eq_refl) "http://collector.example" eq_refl eq_refl).
  reflexivity.
Defined.

End DeckOpsSpec.

(** ** [setup], end to end *)

Module SetupSpec.
Import Json Request Query Cache Deck Clients StrFacts CacheFacts RequestFacts RetryFacts
       InputFacts DeckFacts LookupFacts.

(** X24.  When [fetchAndVerifyNetTestInput] ends without an exception, the
    test is as before but for its inputs, and these are changed in one
    place: every input with a URL has the path of its cached file, the
    inputs directory joined with its hash, under its key in its test
    options; an input without a URL is as it was. *)
Theorem fetchAndVerify_sets_options {Net : Type}
    (agent_request : agent_kind -> string -> string -> string -> Net -> outcome * Net)
    (inputs_directory backend_type base_address : string)
    (l l' : NetTestLoader) (w : world Net) :
  (fetchAndVerifyNetTestInput agent_request inputs_directory backend_type base_address
     l w).2.1 = Ok l' ->
  l' = set_inputFiles l (inputFiles l')
  /\ Forall2 (fun i i' =>
                i_hash i' = i_hash i /\ i_url i' = i_url i
                /\ i_address i' = i_address i /\ i_key i' = i_key i
                /\ i_test_options i'
                   = if truthy_str (i_url i)
                     then <[ i_key i := path_join inputs_directory (i_hash i) ]>
                            (i_test_options i)
                     else i_test_options i)
       (inputFiles l) (inputFiles l').
Proof.
  unfold fetchAndVerifyNetTestInput. cbn [fst snd].
  pose proof (fetch_inputs_entries agent_request inputs_directory backend_type
                base_address (inputFiles l)) as He.
  destruct ((fetch_inputs agent_request inputs_directory backend_type base_address
               (inputFiles l) w).2.1) as [inputs'|e] eqn:Hf; cbn; [|discriminate].
  intros [= <-]. split; [reflexivity|]. cbn. exact (He _ _ Hf).
Qed.

Lemma fetchAndVerify_sets_options_witness :
  Forall2 (fun i i' =>
             i_hash i' = i_hash i /\ i_url i' = i_url i
             /\ i_address i' = i_address i /\ i_key i' = i_key i
             /\ i_test_options i'
                = if truthy_str (i_url i)
                  then <[ i_key i := path_join "/var/cache" (i_hash i) ]>
                         (i_test_options i)
                  else i_test_options i)
    (inputFiles Fixture.test_with_remote_input)
    [ {| i_hash := i_hash Fixture.remote_input; i_url := i_url Fixture.remote_input;
         i_address := i_address Fixture.remote_input; i_key := "file";
         i_test_options := {[ "file" := "/var/cache/" +:+ Sample.empty_digest ]} |} ].
Proof.
  refine (proj2 (fetchAndVerify_sets_options
                   (Sample.answering_agent {| status := 200; content_length := Some 0;
                                              body := EmptyString |})
                   "/var/cache" "onion" "http://abcdefghijklmnop.onion"
                   Fixture.test_with_remote_input
                   (set_inputFiles Fixture.test_with_remote_input
                      [ {| i_hash := i_hash Fixture.remote_input;
                           i_url := i_url Fixture.remote_input;
                           i_address := i_address Fixture.remote_input; i_key := "file";
                           i_test_options :=
                             {[ "file" := "/var/cache/" +:+ Sample.empty_digest ]} |} ])
                   {| w_fs := ∅; w_net := 0 |} _)).
  vm_compute. reflexivity.
Defined.

(** X25.  When [setup] completes, the deck holds the same tests in the same
    order, each with its name, its version and the hashes of its inputs,
    and with the collector it came with if it had one; every input with a
    URL of every test verifies in the cache; and on a deck with a bouncer,
    with collectors not switched off and no assignment of the bouncer
    carrying an empty collector, every test has a collector that the
    code's own test reads as one, a string that is not empty. *)
Theorem setup_complete {Net : Type}
    (agent_request : agent_kind -> string -> string -> string -> Net -> outcome * Net)
    (inputs_directory backend_type base_address : string)
    (lookupTestCollector : list required_net_test -> result (list provided_net_test))
    (bouncer : string) (no_collector : bool)
    (loaders ls' : list NetTestLoader) (w w' : world Net) :
  setup agent_request inputs_directory backend_type base_address lookupTestCollector
        bouncer no_collector loaders w = (ls', Ok tt, w') ->
  Forall2 (fun l l' =>
             testName l' = testName l /\ testVersion l' = testVersion l
             /\ map i_hash (inputFiles l') = map i_hash (inputFiles l)
             /\ (truthy_str (collector l) = true -> collector l' = collector l))
    loaders ls'
  /\ (forall l i, In l loaders -> In i (inputFiles l) -> truthy_str (i_url i) = true ->
        fileCached (w_fs w') (InputFile_new (i_hash i) inputs_directory) = Ok true)
  /\ (bouncer <> EmptyString -> no_collector = false ->
      (forall required provided nt,
         lookupTestCollector required = Ok provided -> In nt provided ->
         p_collector nt <> EmptyString) ->
      Forall (fun l' => truthy_str (collector l') = true) ls').
Proof.
  unfold setup.
  pose proof (fetch_all_caches agent_request inputs_directory backend_type base_address
                loaders) as Hcache.
  pose proof (fetch_all_tests agent_request inputs_directory backend_type base_address
                loaders) as Htests.
  destruct ((fetch_all agent_request inputs_directory backend_type base_address
               loaders w).2.1) as [fetched|e] eqn:Hf; [|discriminate].
  specialize (Hcache _ _ Hf). specialize (Htests _ _ Hf).
  destruct (Str.eqb bouncer EmptyString) eqn:Hb; cbn [negb].
  - intros [= <- <-]. split; [|split].
    + eapply Forall2_impl; [exact Htests|]. cbn. intros l l' (? & ? & Hc & ?).
      repeat split; auto.
    + exact Hcache.
    + apply eqb_true in Hb. intros Hne. contradiction.
  - intros H.
    assert (Hw : w' = (fetch_all agent_request inputs_directory backend_type base_address
                         loaders w).2.2) by (injection H; auto).
    assert (Hlk : exists asked,
              lookupCollector lookupTestCollector no_collector fetched
              = (asked, (ls', Ok tt))).
    { destruct (lookupCollector lookupTestCollector no_collector fetched) as [a [x r]].
      cbn in H. injection H as -> -> _. exists a. reflexivity. }
    destruct Hlk as [asked Hlk]. subst w'. split; [|split].
    + assert (Hk : Forall2 (fun l l' =>
                     testName l' = testName l /\ testVersion l' = testVersion l
                     /\ inputFiles l' = inputFiles l
                     /\ missingTestHelpers l' = missingTestHelpers l
                     /\ (truthy_str (collector l) = true -> collector l' = collector l))
                    fetched ls').
      { revert Hlk. unfold lookupCollector.
        destruct (negb (requires_test_helpers fetched) && _).
        - intros [= _ <-]. apply Forall2_same. intros; repeat split; auto.
        - destruct (lookupTestCollector _) as [provided|e]; [|discriminate].
          intros [= _ Ha]. pose proof (assign_collectors_keeps provided fetched) as Hk.
          rewrite Ha in Hk. exact Hk. }
      eapply Forall2_trans; [|exact Htests|exact Hk].
      cbn. intros l m l' (Hn & Hv & Hc & Hi) (Hn' & Hv' & Hi' & _ & Hc').
      rewrite Hn', Hv', Hi', Hn, Hv, Hi. repeat split.
      intros Ht. rewrite <- Hc in Ht. rewrite (Hc' Ht). exact Hc.
    + exact Hcache.
    + intros _ -> Hgood. revert Hlk. unfold lookupCollector.
      destruct (negb (requires_test_helpers fetched)
                && negb (requires_collector false fetched)) eqn:Hc.
      * intros [= _ <-]. apply andb_prop in Hc as [_ Hc].
        apply negb_true_iff in Hc. apply collectors_of_flag. exact Hc.
      * destruct (lookupTestCollector _) as [provided|e] eqn:Hans; [|discriminate].
        intros [= _ Ha].
        apply (assign_collectors_resolved provided fetched ls'
                 (fun nt => Hgood _ _ nt Hans)) in Ha.
        eapply Forall_impl; [exact Ha|]. cbn. intros l [? _]. assumption.
Qed.

Lemma setup_complete_witness :
  Forall (fun l' => truthy_str (collector l') = true)
    (setup (Sample.answering_agent {| status := 200; content_length := Some 0;
                                      body := EmptyString |})
       "/var/cache" "onion" "http://abcdefghijklmnop.onion"
       (fun _ => Ok [Fixture.assignment [Sample.empty_digest]])
       "httpo://abcdefghijklmnop.onion" false [Fixture.test_with_remote_input]
       {| w_fs := ∅; w_net := 0 |}).1.1.
Proof.
  refine (proj2 (proj2
            (setup_complete
               (Sample.answering_agent {| status := 200; content_length := Some 0;
                                          body := EmptyString |})
               "/var/cache" "onion" "http://abcdefghijklmnop.onion"
               (fun _ => Ok [Fixture.assignment [Sample.empty_digest]])
               "httpo://abcdefghijklmnop.onion" false [Fixture.test_with_remote_input]
               _ {| w_fs := ∅; w_net := 0 |}
               (setup (Sample.answering_agent {| status := 200; content_length := Some 0;
                                                 body := EmptyString |})
                  "/var/cache" "onion" "http://abcdefghijklmnop.onion"
                  (fun _ => Ok [Fixture.assignment [Sample.empty_digest]])
                  "httpo://abcdefghijklmnop.onion" false [Fixture.test_with_remote_input]
                  {| w_fs := ∅; w_net := 0 |}).2 _)) _ eq_refl _).
  - vm_compute. reflexivity.
  - discriminate.
  - intros required provided nt [= <-] [<-|[]]. discriminate.
Defined.

End SetupSpec.
